(** * bugtracker: calibration-gated masking pipeline and netCDF writer

    A shallow embedding of [bugtracker/io/models.py] and
    [bugtracker/io/processor.py], followed by the properties of the
    specification that were checked against it.

    Conventions.
    - Python integers are [Z]; array extents (numpy shapes) are [nat].
    - A numpy array is a shape together with its cells in row-major order.
    - Floating-point cells are kept abstract (a type [V]): the code under
      study copies, compares shapes of, and masks such cells, and hands them
      to [scipy.stats.linregress], which is a parameter of the development.
    - Exceptions are values of [Py.exn]; a computation that may raise returns
      [Py.res]; a computation that may raise after changing a store returns
      the store as well. *)

From Stdlib Require Import ZArith QArith Ascii DecimalString DecimalNat DecimalFacts.
From stdpp Require Import base option list gmap strings.

Local Open Scope string_scope.

(* ===================================================================== *)
(** * Python: exceptions, results, integer arithmetic, formatting       *)
(* ===================================================================== *)

Module Py.

Inductive exn : Type :=
  | ValueError (msg : string)
  | IndexError (msg : string)
  | TypeError (msg : string)
  | AttributeError (msg : string)
  | NameError (msg : string)
  | KeyError (msg : string)
  | ZeroDivisionError (msg : string)
  | NotImplementedError (msg : string)
  | FileNotFoundError (msg : string)
  | RuntimeError (msg : string)
  | MaskError (msg : string).

Inductive res (A : Type) : Type :=
  | Ok (a : A)
  | Raise (e : exn).
Arguments Ok {A} a.
Arguments Raise {A} e.

Definition bind {A B : Type} (r : res A) (k : A -> res B) : res B :=
  match r with
  | Ok a => k a
  | Raise e => Raise e
  end.

(** Computations over a mutable store [S]: the store that is returned is the
    one in force when the computation returned or raised. *)
Definition io (S A : Type) : Type := S -> res A * S.

Definition io_ret {S A : Type} (a : A) : io S A := fun s => (Ok a, s).
Definition io_raise {S A : Type} (e : exn) : io S A := fun s => (Raise e, s).
Definition io_bind {S A B : Type} (m : io S A) (k : A -> io S B) : io S B :=
  fun s => match m s with
           | (Ok a, s') => k a s'
           | (Raise e, s') => (Raise e, s')
           end.
Definition io_lift {S A : Type} (r : res A) : io S A := fun s => (r, s).
Definition io_get {S : Type} : io S S := fun s => (Ok s, s).
Definition io_put {S : Type} (s : S) : io S unit := fun _ => (Ok tt, s).

Definition is_ValueError (e : exn) : bool :=
  match e with ValueError _ => true | _ => false end.

Definition is_NotImplementedError (e : exn) : bool :=
  match e with NotImplementedError _ => true | _ => false end.

(** [a % b] and [a // b]: floor semantics, as [Z.modulo] and [Z.div], except
    that a zero divisor raises. *)
Definition mod_ (a b : Z) : res Z :=
  if (b =? 0)%Z then Raise (ZeroDivisionError "integer modulo by zero")
  else Ok (a mod b)%Z.

Definition floordiv (a b : Z) : res Z :=
  if (b =? 0)%Z then Raise (ZeroDivisionError "integer division or modulo by zero")
  else Ok (a / b)%Z.

(** [range(0, n)] *)
Definition range (n : Z) : list Z := Z.of_nat <$> seq 0 (Z.to_nat n).

(** [str] of integers and of tuples of integers, as f-strings render them. *)
Definition str_nat (n : nat) : string := NilZero.string_of_uint (Nat.to_uint n).
Definition str_Z (z : Z) : string := NilZero.string_of_int (Z.to_int z).

Fixpoint join_comma (l : list string) : string :=
  match l with
  | [] => ""
  | [x] => x
  | x :: tl => x ++ ", " ++ join_comma tl
  end.

Definition str_tuple (t : list nat) : string :=
  match t with
  | [n] => "(" ++ str_nat n ++ ",)"
  | _ => "(" ++ join_comma (str_nat <$> t) ++ ")"
  end.

(** A slot of an instance dictionary: [None] while the attribute has never
    been assigned; reading it then raises [AttributeError]. *)
Definition slot (A : Type) : Type := option A.

Definition getattr {A : Type} (name : string) (s : slot A) : res A :=
  match s with
  | Some a => Ok a
  | None => Raise (AttributeError ("object has no attribute '" ++ name ++ "'"))
  end.

(** Does [s] occur in [t]? *)
Fixpoint is_prefix (s t : string) : bool :=
  match s, t with
  | EmptyString, _ => true
  | String a s', String b t' => if Ascii.eqb a b then is_prefix s' t' else false
  | String _ _, EmptyString => false
  end.


End Py.

Notation "x <- c1 ;; c2" := (Py.bind c1 (fun x => c2))
  (at level 100, c1 at next level, right associativity, only parsing).
Notation "x <~ c1 ;; c2" := (Py.io_bind c1 (fun x => c2))
  (at level 100, c1 at next level, right associativity, only parsing).

(* ===================================================================== *)
(** * numpy: arrays, shapes, broadcasting                                *)
(* ===================================================================== *)

Module Np.

Record ndarray (A : Type) : Type := mk_ndarray {
  shape : list nat;
  flat : list A
}.
Arguments mk_ndarray {A} shape flat.
Arguments shape {A} _.
Arguments flat {A} _.

Definition size_of (s : list nat) : nat := foldr Nat.mul 1 s.

Definition ndim {A : Type} (a : ndarray A) : nat := length (shape a).
Definition size {A : Type} (a : ndarray A) : nat := size_of (shape a).

(** The representation invariant of an array: one cell per index. *)
Definition wf {A : Type} (a : ndarray A) : Prop :=
  length (flat a) = size_of (shape a).

Definition wfb {A : Type} (a : ndarray A) : bool :=
  (length (flat a) =? size_of (shape a))%nat.

(** A one-dimensional array made of a Python sequence. *)
Definition array1 {A : Type} (l : list A) : ndarray A :=
  mk_ndarray [length l] l.

(** [np.zeros(s, dtype=bool)] and, more generally, [np.full(s, x)]. *)
Definition full {A : Type} (s : list nat) (x : A) : ndarray A :=
  mk_ndarray s (replicate (size_of s) x).

(** [a.astype(...)] *)
Definition astype {A B : Type} (f : A -> B) (a : ndarray A) : ndarray B :=
  mk_ndarray (shape a) (f <$> flat a).

(** [a.shape[i]] *)
Definition shape_at {A : Type} (a : ndarray A) (i : nat) : Py.res nat :=
  match shape a !! i with
  | Some n => Py.Ok n
  | None => Py.Raise (Py.IndexError "tuple index out of range")
  end.

(** [a[:, ..., :]] with [k] full slices: a view of the whole array, and an
    error when [a] has fewer than [k] axes. *)
Definition full_slices {A : Type} (k : nat) (a : ndarray A) : Py.res (ndarray A) :=
  if (ndim a <? k)%nat
  then Py.Raise (Py.IndexError "too many indices for array")
  else Py.Ok a.

(** The same subscript on a value that may be [None]. *)
Definition subscript {A : Type} (k : nat) (o : option (ndarray A)) : Py.res (ndarray A) :=
  match o with
  | None => Py.Raise (Py.TypeError "'NoneType' object is not subscriptable")
  | Some a => full_slices k a
  end.

(** Broadcasting of two shapes, computed from the trailing axis. *)
Fixpoint broadcast_rev (s t : list nat) : option (list nat) :=
  match s, t with
  | [], _ => Some t
  | _, [] => Some s
  | m :: s', n :: t' =>
      match broadcast_rev s' t' with
      | None => None
      | Some r =>
          if (m =? n)%nat then Some (m :: r)
          else if (m =? 1)%nat then Some (n :: r)
          else if (n =? 1)%nat then Some (m :: r)
          else None
      end
  end.

Definition broadcast_shapes (s t : list nat) : option (list nat) :=
  reverse <$> broadcast_rev (reverse s) (reverse t).

(** [chunks n sz l]: the first [n] consecutive blocks of [sz] cells of [l]. *)
Fixpoint chunks {A : Type} (n sz : nat) (l : list A) : list (list A) :=
  match n with
  | O => []
  | S n' => take sz l :: chunks n' sz (drop sz l)
  end.

(** Cells of an array of shape [src] stretched to shape [out], both shapes
    having the same number of axes; an axis of extent 1 is repeated. *)
Fixpoint stretch {A : Type} (out src : list nat) (d : list A) : list A :=
  match out, src with
  | n :: out', m :: src' =>
      if (m =? n)%nat
      then concat (stretch out' src' <$> chunks m (size_of src') d)
      else concat (replicate n (stretch out' src' d))
  | _, _ => d
  end.

(** [np.broadcast_to(a, out).ravel()], for [out] a shape that [a]
    broadcasts to. *)
Definition broadcast_cells {A : Type} (out : list nat) (a : ndarray A) : list A :=
  stretch out (replicate (length out - ndim a) 1 ++ shape a)%list (flat a).

Definition broadcast_to {A : Type} (a : ndarray A) (out : list nat) : Py.res (ndarray A) :=
  if bool_decide (broadcast_shapes (shape a) out = Some out)
  then Py.Ok (mk_ndarray out (broadcast_cells out a))
  else Py.Raise (Py.ValueError "operands could not be broadcast together").

(** [np.logical_or(a, b)] *)
Definition logical_or (a b : ndarray bool) : Py.res (ndarray bool) :=
  match broadcast_shapes (shape a) (shape b) with
  | Some s =>
      Py.Ok (mk_ndarray s (zip_with orb (broadcast_cells s a) (broadcast_cells s b)))
  | None => Py.Raise (Py.ValueError "operands could not be broadcast together")
  end.

(** [a.any()] *)
Definition any (a : ndarray bool) : bool := existsb id (flat a).

(** Index of cell [(e, a, g)] of a three-dimensional array, and the cell. *)
Definition offset3 (s : list nat) (e a g : nat) : nat :=
  match s with
  | [_; na; ng] => (e * na + a) * ng + g
  | _ => 0
  end.

Definition get3 {A : Type} (x : ndarray A) (e a g : nat) : option A :=
  match shape x with
  | [ne; na; ng] =>
      if (e <? ne)%nat && (a <? na)%nat && (g <? ng)%nat
      then flat x !! offset3 (shape x) e a g
      else None
  | _ => None
  end.

End Np.

(* ===================================================================== *)
(** * Shared record types of the package                                 *)
(* ===================================================================== *)

Module Core.

(** [grid_info]: the polar grid every array of a radar conforms to. *)
Record GridInfo : Type := mk_grid {
  azims : Z;
  gates : Z
}.

(** [metadata]: identity of the radar and of the scan. *)
Record Metadata (V DT : Type) : Type := mk_metadata {
  lat : V;
  lon : V;
  radar_id : string;
  scan_dt : DT;
  name : string
}.
Arguments mk_metadata {V DT}.
Arguments lat {V DT} _.
Arguments lon {V DT} _.
Arguments radar_id {V DT} _.
Arguments scan_dt {V DT} _.
Arguments name {V DT} _.

End Core.

(* ===================================================================== *)
(** * netCDF4: datasets held in a file store                             *)
(* ===================================================================== *)

(** The part of the [netCDF4] interface used by the package.  A file store
    maps a path to the dataset stored there; a handle returned by [Dataset]
    is the path, and every operation on a handle acts on the store at once:
    what a call has created or written stays when a later call raises. *)

Module Nc.

Inductive nctype : Type := NC_FLOAT | NC_INT.
Inductive mode : Type := R | W | A.

Inductive attr (V : Type) : Type :=
  | AFloat (v : V)
  | AStr (s : string).
Arguments AFloat {V} v.
Arguments AStr {V} s.

Inductive cell (V : Type) : Type :=
  | CFloat (v : V)
  | CInt (z : Z).
Arguments CFloat {V} v.
Arguments CInt {V} z.

(** A cell of a variable is [None] until it is written (it then reads back
    as the fill value, masked). *)
Record variable (V : Type) : Type := mk_variable {
  var_type : nctype;
  var_dims : list string;
  var_shape : list nat;
  var_data : list (option (cell V))
}.
Arguments mk_variable {V}.
Arguments var_type {V} _.
Arguments var_dims {V} _.
Arguments var_shape {V} _.
Arguments var_data {V} _.

Record dataset (V : Type) : Type := mk_dataset {
  ds_attrs : gmap string (attr V);
  ds_dims : gmap string nat;
  ds_vars : gmap string (variable V)
}.
Arguments mk_dataset {V}.
Arguments ds_attrs {V} _.
Arguments ds_dims {V} _.
Arguments ds_vars {V} _.

Abbreviation files V := (gmap string (dataset V)).

Section Ops.
Context {V : Type}.

Definition empty_dataset : dataset V := mk_dataset ∅ ∅ ∅.

(** [nc.Dataset(filename, mode=...)]: mode ["w"] creates the file, emptying
    one that exists; mode ["a"] opens the file that exists and creates one
    where there is none; mode ["r"] needs the file to exist. *)
Definition Dataset (filename : string) (m : mode) : Py.io (files V) string :=
  fun fs =>
    match m with
    | W => (Py.Ok filename, <[filename := empty_dataset]> fs)
    | A =>
        match fs !! filename with
        | Some _ => (Py.Ok filename, fs)
        | None => (Py.Ok filename, <[filename := empty_dataset]> fs)
        end
    | R =>
        match fs !! filename with
        | Some _ => (Py.Ok filename, fs)
        | None => (Py.Raise (Py.FileNotFoundError filename), fs)
        end
    end.

Definition modify (dset : string) (f : dataset V -> Py.res (dataset V))
  : Py.io (files V) unit :=
  fun fs =>
    match fs !! dset with
    | None => (Py.Raise (Py.RuntimeError "NetCDF: Not a valid ID"), fs)
    | Some ds =>
        match f ds with
        | Py.Ok ds' => (Py.Ok tt, <[dset := ds']> fs)
        | Py.Raise e => (Py.Raise e, fs)
        end
    end.

(** [dset.setncattr(name, value)] *)
Definition setncattr (dset name : string) (value : attr V) : Py.io (files V) unit :=
  modify dset (fun ds =>
    Py.Ok (mk_dataset (<[name := value]> (ds_attrs ds)) (ds_dims ds) (ds_vars ds))).

(** The names that [netCDF4] keeps for the Python objects themselves
    ([_private_atts]), and those among them that a [Dataset] carries as an
    attribute or a property. *)
Definition private_atts : list string :=
  ["_grpid"; "_grp"; "_varid"; "groups"; "dimensions"; "variables"; "dtype";
   "data_model"; "disk_format"; "_nunlimdim"; "path"; "parent"; "ndim"; "mask";
   "scale"; "cmptypes"; "vltypes"; "enumtypes"; "_isprimitive"; "file_format";
   "_isvlen"; "_isenum"; "_iscompound"; "_cmptype"; "_vltype"; "_enumtype";
   "name"; "__orthogoral_indexing__"; "keepweakref"; "_has_lsd"; "_buffer";
   "chartostring"; "_use_get_vars"; "_ncstring_attrs__"].

Definition dataset_atts : list string :=
  ["_grpid"; "groups"; "dimensions"; "variables"; "data_model"; "disk_format";
   "path"; "parent"; "cmptypes"; "vltypes"; "enumtypes"; "file_format"; "name";
   "keepweakref"; "_ncstring_attrs__"].

Definition ends_with_dunder (name : string) : bool :=
  let n := String.length name in
  String.eqb (String.substring (n - 2) 2 name) "__".

(** [dset.<name> = value], the [__setattr__] of [Dataset].  A name that is
    not private becomes an attribute of the file.  A private name never
    reaches the file: rebinding one that the dataset carries, such as
    [name], raises [AttributeError]; another one is kept on the Python
    object. *)
Definition setattr (dset name : string) (value : attr V) : Py.io (files V) unit :=
  if bool_decide (name ∈ private_atts)
  then
    if ends_with_dunder name then Py.io_ret tt
    else if bool_decide (name ∈ dataset_atts)
    then Py.io_raise (Py.AttributeError
           ("'" ++ name ++ "' is one of the reserved attributes, "
                ++ "cannot rebind. Use setncattr instead."))
    else Py.io_ret tt
  else setncattr dset name value.

Definition createDimension (dset name : string) (size : Z) : Py.io (files V) unit :=
  modify dset (fun ds =>
    match ds_dims ds !! name with
    | Some _ => Py.Raise (Py.RuntimeError "NetCDF: String match to name in use")
    | None =>
        if (size <? 0)%Z
        then Py.Raise (Py.RuntimeError "NetCDF: Invalid dimension size")
        else Py.Ok (mk_dataset (ds_attrs ds)
                               (<[name := Z.to_nat size]> (ds_dims ds))
                               (ds_vars ds))
    end).

Fixpoint dims_shape (dims : gmap string nat) (names : list string) : option (list nat) :=
  match names with
  | [] => Some []
  | n :: tl =>
      match dims !! n, dims_shape dims tl with
      | Some k, Some s => Some (k :: s)
      | _, _ => None
      end
  end.

(** [dset.createVariable(name, datatype, dimensions)]; the handle that is
    returned names the variable inside its dataset. *)
Definition createVariable (dset name : string) (ty : nctype) (dimensions : list string)
  : Py.io (files V) (string * string) :=
  _ <~ modify dset (fun ds =>
    match ds_vars ds !! name with
    | Some _ => Py.Raise (Py.RuntimeError "NetCDF: String match to name in use")
    | None =>
        match dims_shape (ds_dims ds) dimensions with
        | None => Py.Raise (Py.ValueError "cannot find dimension in this group or parent groups")
        | Some s =>
            Py.Ok (mk_dataset (ds_attrs ds) (ds_dims ds)
                     (<[name := mk_variable ty dimensions s
                                  (replicate (Np.size_of s) None)]> (ds_vars ds)))
        end
    end) ;;
  Py.io_ret (dset, name).

(** [var[:, ..., :] = data] with [k] full slices; [cast] is the conversion
    to the type of the variable. *)
Definition setitem {E : Type} (var : string * string) (k : nat)
    (cast : E -> cell V) (data : Np.ndarray E) : Py.io (files V) unit :=
  modify (fst var) (fun ds =>
    match ds_vars ds !! snd var with
    | None => Py.Raise (Py.RuntimeError "NetCDF: Variable not found")
    | Some v =>
        if (length (var_shape v) <? k)%nat
        then Py.Raise (Py.IndexError "too many indices for variable")
        else
          a <- Np.broadcast_to data (var_shape v) ;;
          Py.Ok (mk_dataset (ds_attrs ds) (ds_dims ds)
                   (<[snd var := mk_variable (var_type v) (var_dims v) (var_shape v)
                                   ((fun c => Some (cast c)) <$> Np.flat a)]>
                      (ds_vars ds)))
    end).

Definition close (dset : string) : Py.io (files V) unit := Py.io_ret tt.

(** Reading back: the attribute, and the variable, of a stored file. *)
Definition read_attr (fs : files V) (filename name : string) : option (attr V) :=
  ds ← fs !! filename; ds_attrs ds !! name.

Definition read_var (fs : files V) (filename name : string) : option (variable V) :=
  ds ← fs !! filename; ds_vars ds !! name.

End Ops.

End Nc.

(* ===================================================================== *)
(** * bugtracker/io/models.py                                            *)
(* ===================================================================== *)

Module Models.

Import Py Core.

Section Models.

(** [V]: floating-point cells; [DT]: [datetime] values, with their
    [strftime] method. *)
Context {V DT : Type}.
Variable strftime : DT -> string -> string.

(** The attributes of [iris_data] that [populate] reads.  An array
    attribute may hold [None]. *)
Record IrisData : Type := mk_iris_data {
  src_dbz_filtered : option (Np.ndarray V);
  src_dbz_unfiltered : option (Np.ndarray V);
  src_joint_product : option (Np.ndarray V);
  src_dbz_elevs : list V;
  src_dopvol_elevs : list V;
  src_velocity : option (Np.ndarray V);
  src_spectrum_width : option (Np.ndarray V);
  src_total_power : option (Np.ndarray V)
}.

(** An instance of [BaseOutput] or of a subclass: its dictionary of
    attributes.  The attributes that only [populate] assigns are empty
    slots until then. *)
Record Output : Type := mk_output {
  metadata : Metadata V DT;
  grid_info : GridInfo;
  radar_filetype : string;
  dbz_filtered : slot (option (Np.ndarray V));
  dbz_unfiltered : slot (option (Np.ndarray V));
  joint_product : slot (option (Np.ndarray V));
  dbz_elevs : slot (list V);
  dop_elevs : slot (list V);
  velocity : slot (option (Np.ndarray V));
  spectrum_width : slot (option (Np.ndarray V));
  total_power : slot (option (Np.ndarray V))
}.

(** [BaseOutput.__init__] *)
Definition BaseOutput_init (metadata : Metadata V DT) (grid_info : GridInfo)
    (radar_filetype : string) : Output :=
  mk_output metadata grid_info radar_filetype
            None None None None None None None None.

(** [BaseOutput.write_metadata] *)
Definition write_metadata (self : Output) (dset : string) : io (Nc.files V) unit :=
  _ <~ Nc.setattr dset "latitude" (Nc.AFloat (lat (metadata self))) ;;
  _ <~ Nc.setattr dset "longitude" (Nc.AFloat (lon (metadata self))) ;;
  _ <~ Nc.setattr dset "radar_id" (Nc.AStr (radar_id (metadata self))) ;;
  _ <~ Nc.setattr dset "datetime"
         (Nc.AStr (strftime (scan_dt (metadata self)) "%Y%m%d%H%M")) ;;
  _ <~ Nc.setattr dset "name" (Nc.AStr (name (metadata self))) ;;
  Nc.setattr dset "filetype" (Nc.AStr (radar_filetype self)).

(** [BaseOutput.write].  The last statement before [close] binds the local
    name [nc_dbz_joint] to a view of [joint_product]; it stores nothing in
    the variable that [createVariable] returned. *)
Definition BaseOutput_write (self : Output) (filename : string) : io (Nc.files V) unit :=
  dset <~ Nc.Dataset filename Nc.W ;;
  _ <~ write_metadata self dset ;;
  let azims := azims (grid_info self) in
  let gates := gates (grid_info self) in
  dbz_elevs <~ io_lift (getattr "dbz_elevs" (dbz_elevs self)) ;;
  let num_dbz_elevs := Z.of_nat (length dbz_elevs) in
  _ <~ Nc.createDimension dset "dbz_elevs" num_dbz_elevs ;;
  _ <~ Nc.createDimension dset "azims" azims ;;
  _ <~ Nc.createDimension dset "gates" gates ;;
  nc_dbz_elevs <~ Nc.createVariable dset "dbz_elevs" Nc.NC_FLOAT ["dbz_elevs"] ;;
  nc_dbz_filtered <~ Nc.createVariable dset "dbz_filtered" Nc.NC_FLOAT
                       ["dbz_elevs"; "azims"; "gates"] ;;
  nc_dbz_unfiltered <~ Nc.createVariable dset "dbz_unfiltered" Nc.NC_FLOAT
                         ["dbz_elevs"; "azims"; "gates"] ;;
  nc_dbz_joint <~ Nc.createVariable dset "dbz_joint" Nc.NC_FLOAT ["azims"; "gates"] ;;
  _ <~ Nc.setitem nc_dbz_elevs 1 Nc.CFloat (Np.array1 dbz_elevs) ;;
  f <~ io_lift (getattr "dbz_filtered" (dbz_filtered self)) ;;
  f <~ io_lift (Np.subscript 3 f) ;;
  _ <~ Nc.setitem nc_dbz_filtered 3 Nc.CFloat f ;;
  u <~ io_lift (getattr "dbz_unfiltered" (dbz_unfiltered self)) ;;
  u <~ io_lift (Np.subscript 3 u) ;;
  _ <~ Nc.setitem nc_dbz_unfiltered 3 Nc.CFloat u ;;
  j <~ io_lift (getattr "joint_product" (joint_product self)) ;;
  nc_dbz_joint <~ io_lift (Np.subscript 2 j) ;;
  Nc.close dset.

(** [BaseOutput.validate] *)
Definition BaseOutput_validate (self : Output) : res unit :=
  f <- getattr "dbz_filtered" (dbz_filtered self) ;;
  match f with
  | None => Raise (ValueError "dbz_filtered array cannot be null.")
  | Some f =>
  u <- getattr "dbz_unfiltered" (dbz_unfiltered self) ;;
  match u with
  | None => Raise (ValueError "dbz_unfiltered array cannot be null.")
  | Some u =>
  if negb (bool_decide (Np.shape f = Np.shape u))
  then Raise (ValueError "dbz grids must have the same dimension.")
  else
  let azims := azims (grid_info self) in
  let gates := gates (grid_info self) in
  dbz_azims <- Np.shape_at f 1 ;;
  dbz_gates <- Np.shape_at f 2 ;;
  if negb (Z.of_nat dbz_azims =? azims)%Z
  then Raise (ValueError ("Incompatible azims: " ++ str_nat dbz_azims
                            ++ " != " ++ str_Z azims))
  else
  if negb (Z.of_nat dbz_gates =? gates)%Z
  then Raise (ValueError ("Incompatible gates: " ++ str_nat dbz_gates
                            ++ " != " ++ str_Z gates))
  else
  j <- getattr "joint_product" (joint_product self) ;;
  match j with
  | None => Raise (ValueError "joint_product cannot be null.")
  | Some j =>
  let joint := Np.shape j in
  match joint with
  | [joint0; joint1] =>
      if negb (azims =? Z.of_nat joint0)%Z || negb (gates =? Z.of_nat joint1)%Z
      then Raise (ValueError ("Incompatible dims for joint_product: "
                                ++ str_nat joint0 ++ "," ++ str_nat joint1))
      else Ok tt
  | _ => Raise (ValueError "joint_product must be a 2D array.")
  end
  end
  end
  end.

(** [x.shape] of an attribute that may hold [None]. *)
Definition shape_of (attr : string) (o : option (Np.ndarray V)) : res (list nat) :=
  match o with
  | Some a => Ok (Np.shape a)
  | None => Raise (AttributeError "'NoneType' object has no attribute 'shape'")
  end.

(** [IrisOutput.__init__] *)
Definition IrisOutput_init (metadata : Metadata V DT) (grid_info : GridInfo) : Output :=
  let self := BaseOutput_init metadata grid_info "iris" in
  mk_output (Models.metadata self) (Models.grid_info self) (radar_filetype self)
            (dbz_filtered self) (dbz_unfiltered self) (joint_product self)
            (dbz_elevs self) (dop_elevs self)
            (Some None) (Some None) (Some None).

(** [IrisOutput.populate] *)
Definition populate (self : Output) (iris_data : IrisData) : Output :=
  mk_output (metadata self) (grid_info self) (radar_filetype self)
            (Some (src_dbz_filtered iris_data))
            (Some (src_dbz_unfiltered iris_data))
            (Some (src_joint_product iris_data))
            (Some (src_dbz_elevs iris_data))
            (Some (src_dopvol_elevs iris_data))
            (Some (src_velocity iris_data))
            (Some (src_spectrum_width iris_data))
            (Some (src_total_power iris_data)).

(** [IrisOutput.validate] *)
Definition IrisOutput_validate (self : Output) : res unit :=
  _ <- BaseOutput_validate self ;;
  v <- getattr "velocity" (velocity self) ;;
  velocity_shape <- shape_of "velocity" v ;;
  s <- getattr "spectrum_width" (spectrum_width self) ;;
  spectrum_shape <- shape_of "spectrum_width" s ;;
  p <- getattr "total_power" (total_power self) ;;
  power_shape <- shape_of "total_power" p ;;
  if negb (bool_decide (velocity_shape = spectrum_shape))
  then Raise (ValueError ("Incompatible shapes " ++ str_tuple velocity_shape
                            ++ " != " ++ str_tuple spectrum_shape))
  else
  if negb (bool_decide (velocity_shape = power_shape))
  then Raise (ValueError ("Incompatible shapes " ++ str_tuple velocity_shape
                            ++ " != " ++ str_tuple spectrum_shape))
  else Ok tt.

(** [IrisOutput.write] *)
Definition IrisOutput_write (self : Output) (filename : string) : io (Nc.files V) unit :=
  _ <~ io_lift (IrisOutput_validate self) ;;
  _ <~ BaseOutput_write self filename ;;
  dset <~ Nc.Dataset filename Nc.A ;;
  dop_elevs <~ io_lift (getattr "dop_elevs" (dop_elevs self)) ;;
  let num_dop_elevs := Z.of_nat (length dop_elevs) in
  let dop_dims := ["dop_elevs"; "azims"; "gates"] in
  _ <~ Nc.createDimension dset "dop_elevs" num_dop_elevs ;;
  nc_dop_elevs <~ Nc.createVariable dset "dop_elevs" Nc.NC_FLOAT ["dop_elevs"] ;;
  nc_power <~ Nc.createVariable dset "total_power" Nc.NC_FLOAT dop_dims ;;
  nc_velocity <~ Nc.createVariable dset "velocity" Nc.NC_FLOAT dop_dims ;;
  nc_spectrum <~ Nc.createVariable dset "spectrum_width" Nc.NC_FLOAT dop_dims ;;
  _ <~ Nc.setitem nc_dop_elevs 1 Nc.CFloat (Np.array1 dop_elevs) ;;
  p <~ io_lift (getattr "total_power" (total_power self)) ;;
  p <~ io_lift (Np.subscript 3 p) ;;
  _ <~ Nc.setitem nc_power 3 Nc.CFloat p ;;
  v <~ io_lift (getattr "velocity" (velocity self)) ;;
  v <~ io_lift (Np.subscript 3 v) ;;
  _ <~ Nc.setitem nc_velocity 3 Nc.CFloat v ;;
  s <~ io_lift (getattr "spectrum_width" (spectrum_width self)) ;;
  s <~ io_lift (Np.subscript 3 s) ;;
  _ <~ Nc.setitem nc_spectrum 3 Nc.CFloat s ;;
  Nc.close dset.

(** [BaseOutput.append_target_id]; [validate] is the method of the class
    of [self], and [cast] the conversion of the cells of [id_matrix] to
    integers. *)
Definition append_target_id {E : Type} (validate : Output -> res unit)
    (cast : E -> Z) (self : Output) (filename : string)
    (id_matrix : option (Np.ndarray E)) : io (Nc.files V) unit :=
  _ <~ io_lift (validate self) ;;
  dset <~ Nc.Dataset filename Nc.A ;;
  nc_target_id <~ Nc.createVariable dset "target_id" Nc.NC_INT
                    ["dbz_elevs"; "azims"; "gates"] ;;
  m <~ io_lift (Np.subscript 3 id_matrix) ;;
  _ <~ Nc.setitem nc_target_id 3 (fun c => Nc.CInt (cast c)) m ;;
  Nc.close dset.

(** [OdimOutput.__init__] and [NexradOutput.__init__] *)
Definition OdimOutput_init (metadata : Metadata V DT) (grid_info : GridInfo) : res Output :=
  Raise (NotImplementedError "OdimOutput").

Definition NexradOutput_init (metadata : Metadata V DT) (grid_info : GridInfo) : res Output :=
  Raise (NotImplementedError "NEXRAD").

(** Modelled from the spec: the writer's [create] (its caller is not among
    the sources).  An [IrisOutput] is built for the radar, filled from the
    volume set with [populate], and written with [IrisOutput.write]. *)
Definition create (filename : string) (metadata : Metadata V DT) (grid_info : GridInfo)
    (volumes : IrisData) : io (Nc.files V) unit :=
  IrisOutput_write (populate (IrisOutput_init metadata grid_info) volumes) filename.

End Models.

End Models.

(* ===================================================================== *)
(** * bugtracker/io/processor.py                                         *)
(* ===================================================================== *)

Module Proc.

Import Py Core.

(** Boolean arrays (masks of masked arrays, [filter_3d] of precipitation
    filters) are objects of a store, named by locations: two names may
    designate one array, and a write through one is seen through the other.
    The floating-point data of a volume is never written by this module and
    is kept as a value. *)
Definition loc : Type := positive.
Abbreviation heap := (gmap loc (Np.ndarray bool)).

(** A [numpy.ma] masked array; [ma_mask = None] is [nomask]. *)
Record MaskedArray (V : Type) : Type := mk_ma {
  ma_data : Np.ndarray V;
  ma_mask : option loc
}.
Arguments mk_ma {V}.
Arguments ma_data {V} _.
Arguments ma_mask {V} _.

(** The attributes of [iris_data] that the processor uses. *)
Record IrisData (V : Type) : Type := mk_iris_data {
  convol : MaskedArray V;
  dopvol : MaskedArray V
}.
Arguments mk_iris_data {V}.
Arguments convol {V} _.
Arguments dopvol {V} _.

(** [PrecipFilter]: its [filter_3d] attribute. *)
Record PrecipFilter : Type := mk_precip_filter {
  filter_3d : loc
}.

(** The entries of [bugtracker.json] that the processor reads. *)
Record PrecipConfig (V : Type) : Type := mk_precip_config {
  azim_region : Z;
  gate_region : Z;
  max_dbz_per_degree : V
}.
Arguments mk_precip_config {V}.
Arguments azim_region {V} _.
Arguments gate_region {V} _.
Arguments max_dbz_per_degree {V} _.

Record Config (V : Type) : Type := mk_config {
  precip : PrecipConfig V;
  plot_dir : string
}.
Arguments mk_config {V}.
Arguments precip {V} _.
Arguments plot_dir {V} _.

(** The variables of a calibration file. *)
Record CalibFile (V : Type) : Type := mk_calib {
  var_lats : Np.ndarray V;
  var_lons : Np.ndarray V;
  var_altitude : Np.ndarray V;
  var_convol_angles : list V;
  var_dopvol_angles : list V;
  var_convol_clutter : Np.ndarray Z;
  var_dopvol_clutter : Np.ndarray Z
}.
Arguments mk_calib {V}.
Arguments var_lats {V} _.
Arguments var_lons {V} _.
Arguments var_altitude {V} _.
Arguments var_convol_angles {V} _.
Arguments var_dopvol_angles {V} _.
Arguments var_convol_clutter {V} _.
Arguments var_dopvol_clutter {V} _.

(** What the constructors read: the configuration file and the calibration
    files by path. *)
Record Env (V : Type) : Type := mk_env {
  config_json : Config V;
  calib_store : gmap string (CalibFile V)
}.
Arguments mk_env {V}.
Arguments config_json {V} _.
Arguments calib_store {V} _.

(** An instance of [Processor] or of a subclass.  The attributes assigned
    by [Processor.__init__] are fields; those that only a subclass assigns
    are slots, empty until then. *)
Record Processor (V DT : Type) : Type := mk_processor {
  config : Config V;
  metadata : Metadata V DT;
  grid_info : GridInfo;
  calib_file : string;
  plotter : option unit;
  lats : Np.ndarray V;
  lons : Np.ndarray V;
  altitude : Np.ndarray V;
  convol_angles : slot (list V);
  dopvol_angles : slot (list V);
  convol_clutter : slot (Np.ndarray Z);
  dopvol_clutter : slot (Np.ndarray Z)
}.
Arguments mk_processor {V DT}.
Arguments config {V DT} _.
Arguments metadata {V DT} _.
Arguments grid_info {V DT} _.
Arguments calib_file {V DT} _.
Arguments plotter {V DT} _.
Arguments lats {V DT} _.
Arguments lons {V DT} _.
Arguments altitude {V DT} _.
Arguments convol_angles {V DT} _.
Arguments dopvol_angles {V DT} _.
Arguments convol_clutter {V DT} _.
Arguments dopvol_clutter {V DT} _.

(** The store of a processing call: the processor, the [iris_data] object
    being processed, the boolean arrays, and the environment. *)
Record Run (V DT : Type) : Type := mk_run {
  self : Processor V DT;
  iris_data : IrisData V;
  arrays : heap;
  env : Env V
}.
Arguments mk_run {V DT}.
Arguments self {V DT} _.
Arguments iris_data {V DT} _.
Arguments arrays {V DT} _.
Arguments env {V DT} _.

(** ** Slices of the azimuth and gate axes *)

(** Bounds of [lo:hi] on an axis of extent [n]. *)
Definition slice_bound (n : nat) (i : Z) : nat :=
  Z.to_nat (if (i <? 0)%Z then Z.max 0 (i + Z.of_nat n) else Z.min i (Z.of_nat n)).

(** An array seen with three leading axes: their extents, and the number
    of cells under one index triple (1 for a three-dimensional array). *)
Definition dims3 (s : list nat) : option (nat * nat * nat * nat) :=
  match s with
  | ne :: na :: ng :: rest => Some (ne, na, ng, Np.size_of rest)
  | _ => None
  end.

(** [a[x, :, :]], flattened. *)
Definition scan {A : Type} (a : Np.ndarray A) (x : nat) : res (list A) :=
  match dims3 (Np.shape a) with
  | None => Raise (IndexError "too many indices for array")
  | Some (ne, na, ng, r) =>
      if negb (x <? ne)%nat
      then Raise (IndexError "index is out of bounds for axis 0")
      else Ok (take (na * ng * r) (drop (x * (na * ng * r)) (Np.flat a)))
  end.

(** [list(a[x, lo_a:hi_a, lo_g:hi_g].flatten())] *)
Definition zone_cells {A : Type} (a : Np.ndarray A) (x : nat) (lo_a hi_a lo_g hi_g : Z)
  : res (list A) :=
  match dims3 (Np.shape a) with
  | None => Raise (IndexError "too many indices for array")
  | Some (ne, na, ng, r) =>
      if negb (x <? ne)%nat
      then Raise (IndexError "index is out of bounds for axis 0")
      else
        let a0 := slice_bound na lo_a in
        let a1 := slice_bound na hi_a in
        let g0 := slice_bound ng lo_g in
        let g1 := slice_bound ng hi_g in
        Ok (flat_map (fun i =>
              flat_map (fun j => take r (drop (((x * na + i) * ng + j) * r) (Np.flat a)))
                       (seq g0 (g1 - g0)))
              (seq a0 (a1 - a0)))
  end.

(** [a[:, lo_a:hi_a, lo_g:hi_g] = value] *)
Definition set_block {A : Type} (a : Np.ndarray A) (lo_a hi_a lo_g hi_g : Z) (value : A)
  : res (Np.ndarray A) :=
  match dims3 (Np.shape a) with
  | None => Raise (IndexError "too many indices for array")
  | Some (ne, na, ng, r) =>
      let a0 := slice_bound na lo_a in
      let a1 := slice_bound na hi_a in
      let g0 := slice_bound ng lo_g in
      let g1 := slice_bound ng hi_g in
      Ok (Np.mk_ndarray (Np.shape a)
            (imap (fun k v =>
                     let i := ((k / (ng * r)) mod na)%nat in
                     let j := ((k / r) mod ng)%nat in
                     if (a0 <=? i)%nat && (i <? a1)%nat && (g0 <=? j)%nat && (j <? g1)%nat
                     then value else v)
                  (Np.flat a)))
  end.

Section Processor.

(** [V]: floating-point cells; [DT]: [datetime] values.
    [linregress angle_list dbz_list] is the slope that
    [scipy.stats.linregress] returns, or the exception it raises; a masked
    cell of the zone reaches it as [None].  [gt slope max_slope] is the
    comparison [slope > max_slope].  [calib_filepath] is
    [bugtracker.core.cache.calib_filepath]. *)
Context {V DT : Type}.
Variable linregress : list V -> list (option V) -> res V.
Variable gt : V -> V -> bool.
Variable calib_filepath : Metadata V DT -> GridInfo -> string.

Abbreviation M := (io (Run V DT)).

Definition set_self (p : Processor V DT) : M unit :=
  fun st => (Ok tt, mk_run p (iris_data st) (arrays st) (env st)).
Definition set_iris_data (d : IrisData V) : M unit :=
  fun st => (Ok tt, mk_run (self st) d (arrays st) (env st)).
Definition set_arrays (h : heap) : M unit :=
  fun st => (Ok tt, mk_run (self st) (iris_data st) h (env st)).

(** Reading and writing the array at a location, and storing a new array. *)
Definition deref (l : loc) : M (Np.ndarray bool) :=
  fun st =>
    match arrays st !! l with
    | Some a => (Ok a, st)
    | None => (Raise (RuntimeError "no array at this location"), st)
    end.

Definition assign (l : loc) (a : Np.ndarray bool) : M unit :=
  fun st => (Ok tt, mk_run (self st) (iris_data st) (<[l := a]> (arrays st)) (env st)).

Definition alloc (a : Np.ndarray bool) : M loc :=
  fun st =>
    let l := fresh (dom (arrays st)) in
    (Ok l, mk_run (self st) (iris_data st) (<[l := a]> (arrays st)) (env st)).

(** [for x in l: body(x)] *)
Fixpoint for_each {A : Type} (l : list A) (body : A -> M unit) : M unit :=
  match l with
  | [] => io_ret tt
  | x :: tl => _ <~ body x ;; for_each tl body
  end.

(** ** Calibration *)

(** [Processor.load_universal_calib]: the three grids of the calibration
    file, each read with [[:,:]]. *)
Definition load_universal_calib (calib : CalibFile V)
  : res (Np.ndarray V * Np.ndarray V * Np.ndarray V) :=
  la <- Np.full_slices 2 (var_lats calib) ;;
  lo <- Np.full_slices 2 (var_lons calib) ;;
  al <- Np.full_slices 2 (var_altitude calib) ;;
  Ok (la, lo, al).

(** [Processor.verify_universal_calib] *)
Definition verify_universal_calib (self : Processor V DT) : res unit :=
  let polar_dims := [azims (grid_info self); gates (grid_info self)] in
  if negb (bool_decide (Z.of_nat <$> Np.shape (lats self) = polar_dims))
  then Raise (ValueError ("Lat grid invalid dims: " ++ str_tuple (Np.shape (lats self))))
  else
  if negb (bool_decide (Z.of_nat <$> Np.shape (lons self) = polar_dims))
  then Raise (ValueError ("Lon grid invalid dims: " ++ str_tuple (Np.shape (lons self))))
  else
  if negb (bool_decide (Z.of_nat <$> Np.shape (altitude self) = polar_dims))
  then Raise (ValueError ("Altitude grid invalid dims: "
                            ++ str_tuple (Np.shape (altitude self))))
  else Ok tt.

(** [Processor.__init__] *)
Definition Processor_init (metadata : Metadata V DT) (grid_info : GridInfo)
  : io (Env V) (Processor V DT) :=
  e <~ io_get ;;
  let config := config_json e in
  let calib_file := calib_filepath metadata grid_info in
  match calib_store e !! calib_file with
  | None => io_raise (FileNotFoundError "Missing calib file")
  | Some calib =>
      g <~ io_lift (load_universal_calib calib) ;;
      let self := mk_processor config metadata grid_info calib_file None
                    (g.1.1) (g.1.2) (g.2) None None None None in
      _ <~ io_lift (verify_universal_calib self) ;;
      io_ret self
  end.

(** [IrisProcessor.load_specific_calib] *)
Definition load_specific_calib (self : Processor V DT) : io (Env V) (Processor V DT) :=
  e <~ io_get ;;
  match calib_store e !! calib_file self with
  | None => io_raise (FileNotFoundError (calib_file self))
  | Some calib =>
      cc <~ io_lift (Np.full_slices 3 (var_convol_clutter calib)) ;;
      dc <~ io_lift (Np.full_slices 3 (var_dopvol_clutter calib)) ;;
      io_ret (mk_processor (config self) (metadata self) (grid_info self)
                (calib_file self) (plotter self)
                (lats self) (lons self) (altitude self)
                (Some (var_convol_angles calib)) (Some (var_dopvol_angles calib))
                (Some cc) (Some dc))
  end.

(** [IrisProcessor.verify_specific_calib] *)
Definition verify_specific_calib (self : Processor V DT) : res unit :=
  ca <- getattr "convol_angles" (convol_angles self) ;;
  let num_convol := length ca in
  da <- getattr "dopvol_angles" (dopvol_angles self) ;;
  let num_dopvol := length da in
  if (num_convol <=? 1)%nat
  then Raise (ValueError "Not enough CONVOL angles in calib")
  else
  if (num_dopvol <=? 1)%nat
  then Raise (ValueError "Not enough DOPVOL angles in calib")
  else
  let azims := azims (grid_info self) in
  let gates := gates (grid_info self) in
  let convol_dim := [Z.of_nat num_convol; azims; gates] in
  let dopvol_dim := [Z.of_nat num_dopvol; azims; gates] in
  cc <- getattr "convol_clutter" (convol_clutter self) ;;
  if negb (bool_decide (Z.of_nat <$> Np.shape cc = convol_dim))
  then Raise (ValueError ("Invalid convol dimensions: " ++ str_tuple (Np.shape cc)))
  else
  dc <- getattr "dopvol_clutter" (dopvol_clutter self) ;;
  if negb (bool_decide (Z.of_nat <$> Np.shape dc = dopvol_dim))
  then Raise (ValueError ("Invalid dopvol dimensions: " ++ str_tuple (Np.shape dc)))
  else Ok tt.

(** [IrisProcessor.__init__] *)
Definition IrisProcessor_init (metadata : Metadata V DT) (grid_info : GridInfo)
  : io (Env V) (Processor V DT) :=
  self <~ Processor_init metadata grid_info ;;
  self <~ load_specific_calib self ;;
  _ <~ io_lift (verify_specific_calib self) ;;
  io_ret self.

(** A call [super().__init__(...)] reaching [Processor.__init__]: the two
    parameters of the method are bound first, and a call that does not
    supply them raises [TypeError] before the body runs. *)
Definition call_Processor_init (args : option (Metadata V DT * GridInfo))
  : io (Env V) (Processor V DT) :=
  match args with
  | Some (metadata, grid_info) => Processor_init metadata grid_info
  | None =>
      io_raise (TypeError
        "__init__() missing 2 required positional arguments: 'metadata' and 'grid_info'")
  end.

(** [OdimProcessor.__init__] and [NexradProcessor.__init__]: they take no
    argument, call [super().__init__()] with none, and then evaluate the
    name [NotImplmentedError], which is bound nowhere. *)
Definition OdimProcessor_init : io (Env V) (Processor V DT) :=
  _ <~ call_Processor_init None ;;
  io_raise (NameError "name 'NotImplmentedError' is not defined").

Definition NexradProcessor_init : io (Env V) (Processor V DT) :=
  _ <~ call_Processor_init None ;;
  io_raise (NameError "name 'NotImplmentedError' is not defined").

(** Instantiating a class that derives from [abc.ABC]: a class that leaves
    abstract methods without an implementation is refused with [TypeError]
    before its [__init__] runs. *)
Definition instantiate {A : Type} (cls : string) (abstract : list string)
    (init : io (Env V) A) : io (Env V) A :=
  match abstract with
  | [] => init
  | _ =>
      io_raise (TypeError ("Can't instantiate abstract class " ++ cls
                           ++ " with abstract methods " ++ join_comma abstract))
  end.

(** [OdimProcessor()] and [NexradProcessor()]: neither class overrides the
    two abstract methods of [Processor]. *)
Definition OdimProcessor : io (Env V) (Processor V DT) :=
  instantiate "OdimProcessor" ["load_specific_calib"; "verify_specific_calib"]
    OdimProcessor_init.

Definition NexradProcessor : io (Env V) (Processor V DT) :=
  instantiate "NexradProcessor" ["load_specific_calib"; "verify_specific_calib"]
    NexradProcessor_init.

(** ** Contamination detection *)

(** [np.ma.getmask(m)], dereferenced. *)
Definition getmask (m : MaskedArray V) : M (option (Np.ndarray bool)) :=
  match ma_mask m with
  | None => io_ret None
  | Some l => a <~ deref l ;; io_ret (Some a)
  end.

(** [list(m[x, lo_a:hi_a, lo_g:hi_g].flatten())]: the cells of the block in
    row-major order, a masked cell being the constant [masked]. *)
Definition zone_flat (m : MaskedArray V) (x : nat) (lo_a hi_a lo_g hi_g : Z)
  : M (list (option V)) :=
  zone_data <~ io_lift (zone_cells (ma_data m) x lo_a hi_a lo_g hi_g) ;;
  mask <~ getmask m ;;
  match mask with
  | None => io_ret (Some <$> zone_data)
  | Some mk =>
      zone_mask <~ io_lift (zone_cells mk x lo_a hi_a lo_g hi_g) ;;
      io_ret (zip_with (fun v (b : bool) => if b then None else Some v)
                       zone_data zone_mask)
  end.

(** The loop of [determine_zone_slope] over the CONVOL scans: the two lists
    it extends, in step. *)
Fixpoint gather (angles : list V) (x : nat) (lo_a hi_a lo_g hi_g : Z)
  : M (list V * list (option V)) :=
  match angles with
  | [] => io_ret ([], [])
  | angle :: rest =>
      st <~ io_get ;;
      zone_flat <~ zone_flat (convol (iris_data st)) x lo_a hi_a lo_g hi_g ;;
      tl <~ gather rest (S x) lo_a hi_a lo_g hi_g ;;
      io_ret ((replicate (length zone_flat) angle ++ tl.1)%list,
              (zone_flat ++ tl.2)%list)
  end.

(** [IrisProcessor.determine_zone_slope] *)
Definition determine_zone_slope (azim_zone gate_zone : Z) : M V :=
  st <~ io_get ;;
  let azim_region := azim_region (precip (config (self st))) in
  let gate_region := gate_region (precip (config (self st))) in
  let min_azim := (azim_zone * azim_region)%Z in
  let max_azim := ((azim_zone + 1) * azim_region)%Z in
  let min_gate := (gate_zone * gate_region)%Z in
  let max_gate := ((gate_zone + 1) * gate_region)%Z in
  angles <~ io_lift (getattr "convol_angles" (convol_angles (self st))) ;;
  lists <~ gather angles 0 min_azim max_azim min_gate max_gate ;;
  let angle_list := lists.1 in
  let dbz_list := lists.2 in
  if negb (length angle_list =? length dbz_list)%nat
  then io_raise (ValueError "Zone slope error")
  else io_lift (linregress angle_list dbz_list).

(** [p.filter_3d[:, lo_a:hi_a, lo_g:hi_g] = True] *)
Definition mark (p : PrecipFilter) (lo_a hi_a lo_g hi_g : Z) : M unit :=
  a <~ deref (filter_3d p) ;;
  a' <~ io_lift (set_block a lo_a hi_a lo_g hi_g true) ;;
  assign (filter_3d p) a'.

(** [IrisProcessor.filter_precip]; the configuration is read again from
    its file first.  (The two calls of [time.time] and the [print] of their
    difference have no counterpart here.) *)
Definition filter_precip (convol_precip dopvol_precip : PrecipFilter) : M unit :=
  st <~ io_get ;;
  let s := self st in
  _ <~ set_self (mk_processor (config_json (env st)) (metadata s) (grid_info s)
                   (calib_file s) (plotter s) (lats s) (lons s) (altitude s)
                   (convol_angles s) (dopvol_angles s)
                   (convol_clutter s) (dopvol_clutter s)) ;;
  st <~ io_get ;;
  let azim_region := azim_region (precip (config (self st))) in
  let gate_region := gate_region (precip (config (self st))) in
  let max_slope := max_dbz_per_degree (precip (config (self st))) in
  let azims := azims (grid_info (self st)) in
  let gates := gates (grid_info (self st)) in
  ra <~ io_lift (mod_ azims azim_region) ;;
  if negb (ra =? 0)%Z
  then io_raise (ValueError ("Choose value of azim_region that divides "
                               ++ str_Z azims ++ " evenly."))
  else
  rg <~ io_lift (mod_ gates gate_region) ;;
  if negb (rg =? 0)%Z
  then io_raise (ValueError ("Choose value of gate_region that divides "
                               ++ str_Z gates ++ " evenly"))
  else
  azim_zones <~ io_lift (floordiv azims azim_region) ;;
  gate_zones <~ io_lift (floordiv gates gate_region) ;;
  for_each (range azim_zones) (fun x =>
    for_each (range gate_zones) (fun y =>
      slope <~ determine_zone_slope x y ;;
      if gt slope max_slope
      then
        let min_azim := (x * azim_region)%Z in
        let max_azim := ((x + 1) * azim_region)%Z in
        let min_gate := (y * gate_region)%Z in
        let max_gate := ((y + 1) * gate_region)%Z in
        _ <~ mark convol_precip min_azim max_azim min_gate max_gate ;;
        mark dopvol_precip min_azim max_azim min_gate max_gate
      else io_ret tt)).

(** ** Mask fusion *)

(** The mask that [make_mask(m, shrink=True)] returns: [nomask] when no
    cell of [m] is set. *)
Definition shrink (m : Np.ndarray bool) : option (Np.ndarray bool) :=
  if Np.any m then Some m else None.

(** [np.ma.mask_or(m1, m2)], [m2] being [nomask] or an array. *)
Definition mask_or (m1 : Np.ndarray bool) (m2 : option (Np.ndarray bool))
  : res (option (Np.ndarray bool)) :=
  match m2 with
  | None => Ok (shrink m1)
  | Some m2 => r <- Np.logical_or m1 m2 ;; Ok (shrink r)
  end.

(** [np.ma.array(x, mask=mask)] for a masked array [x].  The data keeps its
    shape.  A mask of another shape is resized when it has one cell,
    reshaped when it has as many cells as the data, and refused otherwise;
    the mask that [x] already has is kept: the new mask is joined to it. *)
Definition ma_array (x : MaskedArray V) (mask : option (Np.ndarray bool))
  : M (MaskedArray V) :=
  match mask with
  | None => io_ret x
  | Some m =>
      let dshape := Np.shape (ma_data x) in
      m <~ io_lift (
        if bool_decide (Np.shape m = dshape) then Ok m
        else if (Np.size m =? 1)%nat
        then Ok (Np.full dshape (default false (head (Np.flat m))))
        else if (Np.size m =? Np.size (ma_data x))%nat
        then Ok (Np.mk_ndarray dshape (Np.flat m))
        else Raise (MaskError "Mask and data not compatible")) ;;
      old <~ getmask x ;;
      match old with
      | None => l <~ alloc m ;; io_ret (mk_ma (ma_data x) (Some l))
      | Some o =>
          r <~ io_lift (Np.logical_or m o) ;;
          l <~ alloc r ;;
          io_ret (mk_ma (ma_data x) (Some l))
      end
  end.

(** [IrisProcessor.impose_filter] *)
Definition impose_filter (np_convol np_dopvol : Np.ndarray bool) : M unit :=
  st <~ io_get ;;
  let raw_dopvol_shape := Np.shape (ma_data (dopvol (iris_data st))) in
  let raw_convol_shape := Np.shape (ma_data (convol (iris_data st))) in
  raw_dopvol_mask <~ getmask (dopvol (iris_data st)) ;;
  raw_convol_mask <~ getmask (convol (iris_data st)) ;;
  dopvol_mask <~ io_lift (mask_or np_dopvol raw_dopvol_mask) ;;
  convol_mask <~ io_lift (mask_or np_convol raw_convol_mask) ;;
  d <~ ma_array (dopvol (iris_data st)) dopvol_mask ;;
  st1 <~ io_get ;;
  _ <~ set_iris_data (mk_iris_data (convol (iris_data st1)) d) ;;
  st2 <~ io_get ;;
  c <~ ma_array (convol (iris_data st2)) convol_mask ;;
  st3 <~ io_get ;;
  _ <~ set_iris_data (mk_iris_data c (dopvol (iris_data st3))) ;;
  st4 <~ io_get ;;
  let filtered_dopvol_shape := Np.shape (ma_data (dopvol (iris_data st4))) in
  let filtered_convol_shape := Np.shape (ma_data (convol (iris_data st4))) in
  if negb (bool_decide (raw_dopvol_shape = filtered_dopvol_shape))
  then io_raise (ValueError "Error in DOPVOL array size")
  else
  if negb (bool_decide (raw_convol_shape = filtered_convol_shape))
  then io_raise (ValueError "Error in new CONVOL array size")
  else io_ret tt.

(** ** The processing of one set *)

(** Modelled from the spec: the constructor of [PrecipFilter]
    ([bugtracker/core/precip.py] is not among the sources).  A zone mask is
    a boolean array of the shape of its volume, (number of scan angles,
    azimuths, gates), created fresh for the call, with no cell set. *)
Definition PrecipFilter_init (metadata : Metadata V DT) (grid_info : GridInfo)
    (angles : list V) : M PrecipFilter :=
  l <~ alloc (Np.full [length angles;
                       Z.to_nat (azims grid_info);
                       Z.to_nat (gates grid_info)] false) ;;
  io_ret (mk_precip_filter l).

(** [IrisProcessor.plot_iris], as far as it can raise: the plotter must have
    been initialized, and one slice per calibration angle is taken from
    each volume.  The plots themselves are outside the model. *)
Definition plot_iris (label_prefix : string) : M unit :=
  st <~ io_get ;;
  match plotter (self st) with
  | None => io_raise (ValueError "Plotter has not been initialized!")
  | Some _ =>
      ca <~ io_lift (getattr "convol_angles" (convol_angles (self st))) ;;
      _ <~ for_each (seq 0 (length ca)) (fun x =>
             _ <~ io_lift (scan (ma_data (convol (iris_data st))) x) ;; io_ret tt) ;;
      da <~ io_lift (getattr "dopvol_angles" (dopvol_angles (self st))) ;;
      for_each (seq 0 (length da)) (fun x =>
        _ <~ io_lift (scan (ma_data (dopvol (iris_data st))) x) ;; io_ret tt)
  end.

(** The two statements of [process_set] that combine the clutter filter
    with the precipitation filter of each family, and the call that applies
    the result to the volumes. *)
Definition fuse_and_apply (convol_precip dopvol_precip : PrecipFilter) : M unit :=
  st <~ io_get ;;
  cc <~ io_lift (getattr "convol_clutter" (convol_clutter (self st))) ;;
  cf <~ deref (filter_3d convol_precip) ;;
  convol_joint <~ io_lift (Np.logical_or (Np.astype (fun z => negb (z =? 0)%Z) cc) cf) ;;
  dc <~ io_lift (getattr "dopvol_clutter" (dopvol_clutter (self st))) ;;
  df <~ deref (filter_3d dopvol_precip) ;;
  dopvol_joint <~ io_lift (Np.logical_or (Np.astype (fun z => negb (z =? 0)%Z) dc) df) ;;
  impose_filter convol_joint dopvol_joint.

(** [IrisProcessor.process_set], from the point where [iris_data] has been
    built and filled. *)
Definition process_set : M unit :=
  _ <~ plot_iris "raw" ;;
  st <~ io_get ;;
  let s := self st in
  ca <~ io_lift (getattr "convol_angles" (convol_angles s)) ;;
  convol_precip <~ PrecipFilter_init (metadata s) (grid_info s) ca ;;
  da <~ io_lift (getattr "dopvol_angles" (dopvol_angles s)) ;;
  dopvol_precip <~ PrecipFilter_init (metadata s) (grid_info s) da ;;
  _ <~ filter_precip convol_precip dopvol_precip ;;
  _ <~ fuse_and_apply convol_precip dopvol_precip ;;
  plot_iris "filtered".

(** [IrisProcessor.process_sets]; a set is given as the [iris_data] that
    [process_set] builds from it and binds to its local name. *)
Definition process_sets (iris_sets : list (IrisData V)) : M unit :=
  for_each iris_sets (fun iris_data =>
    _ <~ set_iris_data iris_data ;;
    process_set).

End Processor.

End Proc.

(* ===================================================================== *)
(** * Concrete instances of the parameters, and test data                *)
(* ===================================================================== *)

Module Scenario.

Import Py Core.

(** Floating-point cells in the examples: an exact rational, or NaN. *)
Inductive float : Type :=
  | Num (q : Q)
  | NaN.

Definition sumQ (l : list Q) : Q := foldr Qplus 0%Q l.

(** The numbers of a list, when none of them is NaN. *)
Fixpoint numbers (l : list float) : option (list Q) :=
  match l with
  | [] => Some []
  | Num v :: tl => match numbers tl with Some r => Some (v :: r) | None => None end
  | NaN :: _ => None
  end.

(** A masked cell becomes NaN when the list is made an array. *)
Definition filled (l : list (option float)) : list float :=
  (fun c => default NaN c) <$> l.

Definition all_equal (x : list Q) : bool :=
  match x with
  | [] => true
  | a :: tl => forallb (Qeq_bool a) tl
  end.

(** The slope that [scipy.stats.linregress] fits to the points
    [(x_i, y_i)], [(n Σxy - Σx Σy) / (n Σxx - (Σx)²)].  Lists of unequal
    lengths, and two abscissas or more that are all equal, make it raise.
    The slope is NaN when there are fewer than two points and when a NaN
    takes part in it; a masked ordinate counts as NaN. *)
Definition linregress (x : list float) (y : list (option float)) : res float :=
  if negb (length x =? length y)%nat
  then Raise (ValueError "all the input array dimensions must match exactly")
  else if (length x <? 2)%nat
  then Ok NaN
  else
    match numbers x with
    | None => Ok NaN
    | Some xs =>
        if all_equal xs
        then Raise (ValueError
               "Cannot calculate a linear regression if all x values are identical")
        else
          match numbers (filled y) with
          | None => Ok NaN
          | Some ys =>
              let n := inject_Z (Z.of_nat (length xs)) in
              let sx := sumQ xs in
              let sy := sumQ ys in
              let sxx := sumQ (zip_with Qmult xs xs) in
              let sxy := sumQ (zip_with Qmult xs ys) in
              Ok (Num (Qred ((n * sxy - sx * sy) / (n * sxx - sx * sx))%Q))
          end
    end.

(** [a > b]; a comparison with NaN is false. *)
Definition gt (a b : float) : bool :=
  match a, b with
  | Num a, Num b => negb (Qle_bool a b)
  | _, _ => false
  end.

(** Dates, and [strftime] for the one format the writer uses. *)
Record datetime : Type := mk_datetime {
  year : nat; month : nat; day : nat; hour : nat; minute : nat
}.

Definition pad (width : nat) (n : nat) : string :=
  let s := str_nat n in
  String.concat "" (replicate (width - String.length s) "0") ++ s.

Definition strftime (d : datetime) (fmt : string) : string :=
  if String.eqb fmt "%Y%m%d%H%M"
  then pad 4 (year d) ++ pad 2 (month d) ++ pad 2 (day d)
       ++ pad 2 (hour d) ++ pad 2 (minute d)
  else fmt.

Definition calib_filepath (m : Metadata float datetime) (g : GridInfo) : string :=
  "calib/" ++ radar_id m ++ ".nc".

Definition meta : Metadata float datetime :=
  mk_metadata (Num (45 # 1)) (Num (-(73 # 1))) "xam" (mk_datetime 2019 7 15 6 30) "McGill".

(** An array of shape [s] whose cell at row-major position [k] is [f k]. *)
Definition tabulate {A : Type} (s : list nat) (f : nat -> A) : Np.ndarray A :=
  Np.mk_ndarray s (f <$> seq 0 (Np.size_of s)).

(** *** The writer: three elevations on a 4 x 4 grid *)

Definition grid4 : GridInfo := mk_grid 4 4.

Definition elevs3 : list float := Num <$> [(1 # 2); (3 # 2); (5 # 2)]%Q.

Definition vol344 (base : Z) : Np.ndarray float :=
  tabulate [3; 4; 4]%nat (fun k => Num (inject_Z (base + Z.of_nat k))).

Definition joint44 : Np.ndarray float :=
  tabulate [4; 4]%nat (fun k => Num (inject_Z (100 + Z.of_nat k))).

Definition volumes : Models.IrisData :=
  Models.mk_iris_data (Some (vol344 0)) (Some (vol344 50)) (Some joint44)
    elevs3 elevs3
    (Some (vol344 200)) (Some (vol344 300)) (Some (vol344 400)).

(** A volume set whose two reflectivity volumes differ in shape. *)
Definition mismatched : Models.IrisData :=
  Models.mk_iris_data (Some (vol344 0))
    (Some (tabulate [2; 4; 4]%nat (fun k => Num (inject_Z (Z.of_nat k))))) (Some joint44)
    elevs3 elevs3
    (Some (vol344 200)) (Some (vol344 300)) (Some (vol344 400)).

(** The writer for [volumes]. *)
Definition writer : Models.Output :=
  Models.populate (Models.IrisOutput_init meta grid4) volumes.

(** A classification volume of the wrong shape. *)
Definition id_2x3x3 : Np.ndarray Z :=
  tabulate [2; 3; 3]%nat (fun k => Z.of_nat k).

(** *** The detector: three scans of an 8 x 8 grid, zones of 4 x 4 *)

Definition grid8 : GridInfo := mk_grid 8 8.

Definition angles3 : list float := Num <$> [(1 # 2); 1; (3 # 2)]%Q.

(** Reflectivity rises by 20 dB per degree in zone (0, 0), and is flat
    elsewhere. *)
Definition rising : Np.ndarray float :=
  tabulate [3; 8; 8]%nat (fun k =>
    let e := (k / 64)%nat in
    let a := ((k / 8) mod 8)%nat in
    let g := (k mod 8)%nat in
    if (a <? 4)%nat && (g <? 4)%nat
    then Num (20 * default 0 ([(1 # 2); 1; (3 # 2)] !! e))%Q
    else Num 10).

Definition flat_volume : Np.ndarray float :=
  tabulate [3; 8; 8]%nat (fun _ => Num 10).

Definition config8 : Proc.Config float :=
  Proc.mk_config (Proc.mk_precip_config 4 4 (Num 5)) "plots".

Definition clutter0 : Np.ndarray Z := Np.full [3; 8; 8]%nat 0%Z.

Definition grid88 : Np.ndarray float := tabulate [8; 8]%nat (fun _ => Num 0).

Definition processor8 : Proc.Processor float datetime :=
  Proc.mk_processor config8 meta grid8 "calib/xam.nc" (Some tt)
    grid88 grid88 grid88
    (Some angles3) (Some angles3) (Some clutter0) (Some clutter0).

Definition env8 : Proc.Env float := Proc.mk_env config8 ∅.

(** A store in which CONVOL rises in zone (0, 0), DOPVOL is flat, no cell
    is masked, and two fresh filters sit at locations 1 and 2. *)
Definition run8 : Proc.Run float datetime :=
  Proc.mk_run processor8
    (Proc.mk_iris_data (Proc.mk_ma rising None) (Proc.mk_ma flat_volume None))
    (<[1%positive := Np.full [3; 8; 8]%nat false]>
       (<[2%positive := Np.full [3; 8; 8]%nat false]> ∅))
    env8.

Definition convol_filter : Proc.PrecipFilter := Proc.mk_precip_filter 1%positive.
Definition dopvol_filter : Proc.PrecipFilter := Proc.mk_precip_filter 2%positive.

(** The mask that is set exactly on zone (0, 0). *)
Definition zone00 : Np.ndarray bool :=
  tabulate [3; 8; 8]%nat (fun k =>
    ((k / 8) mod 8 <? 4)%nat && (k mod 8 <? 4)%nat).

(** The same store with an azimuth region of 3, which does not divide 8. *)
Definition config_3x4 : Proc.Config float :=
  Proc.mk_config (Proc.mk_precip_config 3 4 (Num 5)) "plots".

Definition run8_3x4 : Proc.Run float datetime :=
  Proc.mk_run processor8 (Proc.iris_data run8) (Proc.arrays run8)
    (Proc.mk_env config_3x4 ∅).

(** The same store with a processor that was built when the configuration
    file held [config_3x4]; the file holds [config8] now. *)
Definition run8_stale : Proc.Run float datetime :=
  Proc.mk_run
    (Proc.mk_processor config_3x4 meta grid8 "calib/xam.nc" (Some tt)
       grid88 grid88 grid88
       (Some angles3) (Some angles3) (Some clutter0) (Some clutter0))
    (Proc.iris_data run8) (Proc.arrays run8) env8.

(** The store after the detection. *)
Definition detected : Proc.Run float datetime :=
  (Proc.filter_precip linregress gt convol_filter dopvol_filter run8).2.


(** *** Fusion: one scan of a 2 x 2 grid *)

Definition grid2 : GridInfo := mk_grid 2 2.

Definition angles2 : list float := Num <$> [(1 # 2); 1]%Q.

(** The CONVOL volume has its first cell masked already; the clutter map
    of CONVOL flags the second cell, its precipitation filter the third. *)
Definition processor2 : Proc.Processor float datetime :=
  Proc.mk_processor config8 meta grid2 "calib/xam.nc" (Some tt)
    (tabulate [2; 2]%nat (fun _ => Num 0)) (tabulate [2; 2]%nat (fun _ => Num 0))
    (tabulate [2; 2]%nat (fun _ => Num 0))
    (Some angles2) (Some angles2)
    (Some (Np.mk_ndarray [1; 2; 2]%nat [0; 1; 0; 0]%Z))
    (Some (Np.mk_ndarray [1; 2; 2]%nat [0; 0; 0; 7]%Z)).

Definition run2 : Proc.Run float datetime :=
  Proc.mk_run processor2
    (Proc.mk_iris_data
       (Proc.mk_ma (tabulate [1; 2; 2]%nat (fun k => Num (inject_Z (Z.of_nat k))))
                   (Some 3%positive))
       (Proc.mk_ma (tabulate [1; 2; 2]%nat (fun k => Num (inject_Z (Z.of_nat k)))) None))
    (<[1%positive := Np.mk_ndarray [1; 2; 2]%nat [false; false; true; false]]>
       (<[2%positive := Np.mk_ndarray [1; 2; 2]%nat [false; false; false; false]]>
          (<[3%positive := Np.mk_ndarray [1; 2; 2]%nat [true; false; false; false]]> ∅)))
    env8.

End Scenario.

(** Further test data: writers and stores at the edges of the checks. *)

Module Cases.

Import Py Core.

(** *** Writers that validation does not let through *)

(** The auxiliary volume [velocity] holds [None]. *)
Definition no_velocity : Models.Output :=
  Models.populate (Models.IrisOutput_init Scenario.meta Scenario.grid4)
    (Models.mk_iris_data (Some (Scenario.vol344 0)) (Some (Scenario.vol344 50))
       (Some Scenario.joint44) Scenario.elevs3 Scenario.elevs3
       None (Some (Scenario.vol344 300)) (Some (Scenario.vol344 400))).

(** [total_power] has two elevations where its siblings have three. *)
Definition short_power : Models.Output :=
  Models.populate (Models.IrisOutput_init Scenario.meta Scenario.grid4)
    (Models.mk_iris_data (Some (Scenario.vol344 0)) (Some (Scenario.vol344 50))
       (Some Scenario.joint44) Scenario.elevs3 Scenario.elevs3
       (Some (Scenario.vol344 200)) (Some (Scenario.vol344 300))
       (Some (Scenario.tabulate [2; 4; 4]%nat (fun k => Scenario.Num (inject_Z (Z.of_nat k)))))).

(** The reflectivity volumes are single scans, of two axes. *)
Definition flat_scans : Models.Output :=
  Models.populate (Models.IrisOutput_init Scenario.meta Scenario.grid4)
    (Models.mk_iris_data (Some Scenario.joint44) (Some Scenario.joint44)
       (Some Scenario.joint44) Scenario.elevs3 Scenario.elevs3
       (Some (Scenario.vol344 200)) (Some (Scenario.vol344 300))
       (Some (Scenario.vol344 400))).

(** *** A file ready for the classification volume *)

(** A store with one file, which declares the three dimensions and holds
    one variable. *)
Definition declared : Nc.dataset Scenario.float :=
  Nc.mk_dataset {[ "radar_id" := Nc.AStr "xam" ]}
    (<["dbz_elevs" := 3%nat]> (<["azims" := 4%nat]> {[ "gates" := 4%nat ]}))
    {[ "dbz_elevs" := Nc.mk_variable Nc.NC_FLOAT ["dbz_elevs"] [3%nat]
                        ((fun c => Some (Nc.CFloat c)) <$> Scenario.elevs3) ]}.

Definition store1 : Nc.files Scenario.float := {[ "out.nc" := declared ]}.

Definition id_3x4x4 : Np.ndarray Z :=
  Scenario.tabulate [3; 4; 4]%nat (fun k => Z.of_nat (k mod 5)).

(** *** Calibration files *)

Definition calib4 : Proc.CalibFile Scenario.float :=
  Proc.mk_calib
    (Scenario.tabulate [4; 4]%nat (fun k => Scenario.Num (inject_Z (Z.of_nat k))))
    (Scenario.tabulate [4; 4]%nat (fun k => Scenario.Num (inject_Z (Z.of_nat (2 * k)))))
    (Scenario.tabulate [4; 4]%nat (fun _ => Scenario.Num 100))
    Scenario.angles3 Scenario.angles2
    (Np.full [3; 4; 4]%nat 0%Z) (Np.full [2; 4; 4]%nat 1%Z).

Definition env4 : Proc.Env Scenario.float :=
  Proc.mk_env Scenario.config8 {[ "calib/xam.nc" := calib4 ]}.

(** The processor that [IrisProcessor(meta, grid4)] builds in [env4]. *)
Definition processor4 : Proc.Processor Scenario.float Scenario.datetime :=
  Proc.mk_processor Scenario.config8 Scenario.meta Scenario.grid4 "calib/xam.nc" None
    (Proc.var_lats calib4) (Proc.var_lons calib4) (Proc.var_altitude calib4)
    (Some Scenario.angles3) (Some Scenario.angles2)
    (Some (Np.full [3; 4; 4]%nat 0%Z)) (Some (Np.full [2; 4; 4]%nat 1%Z)).

(** A processor with a single CONVOL angle. *)
Definition processor_1angle : Proc.Processor Scenario.float Scenario.datetime :=
  Proc.mk_processor Scenario.config8 Scenario.meta Scenario.grid4 "calib/xam.nc" None
    (Proc.var_lats calib4) (Proc.var_lons calib4) (Proc.var_altitude calib4)
    (Some [Scenario.Num (1 # 2)]) (Some Scenario.angles2)
    (Some (Np.full [1; 4; 4]%nat 0%Z)) (Some (Np.full [2; 4; 4]%nat 1%Z)).

(** *** Stores for the detection *)

(** The store of the scenario without a plotter. *)
Definition run8_no_plotter : Proc.Run Scenario.float Scenario.datetime :=
  let p := Scenario.processor8 in
  Proc.mk_run
    (Proc.mk_processor (Proc.config p) (Proc.metadata p) (Proc.grid_info p)
       (Proc.calib_file p) None (Proc.lats p) (Proc.lons p) (Proc.altitude p)
       (Proc.convol_angles p) (Proc.dopvol_angles p)
       (Proc.convol_clutter p) (Proc.dopvol_clutter p))
    (Proc.iris_data Scenario.run8) (Proc.arrays Scenario.run8) Scenario.env8.

(** The store of the scenario with other region sizes in the
    configuration file. *)
Definition run8_regions (azim_region gate_region : Z) : Proc.Run Scenario.float Scenario.datetime :=
  Proc.mk_run Scenario.processor8 (Proc.iris_data Scenario.run8)
    (Proc.arrays Scenario.run8)
    (Proc.mk_env
       (Proc.mk_config (Proc.mk_precip_config azim_region gate_region (Scenario.Num 5)) "plots") ∅).

(** The store of the scenario with filters that are in use already: the
    CONVOL filter is set on the last azimuth, the DOPVOL filter on the
    first gate. *)
Definition run8_used : Proc.Run Scenario.float Scenario.datetime :=
  Proc.mk_run Scenario.processor8 (Proc.iris_data Scenario.run8)
    (<[1%positive := Scenario.tabulate [3; 8; 8]%nat (fun k => ((k / 8) mod 8 =? 7)%nat)]>
       (<[2%positive := Scenario.tabulate [3; 8; 8]%nat (fun k => (k mod 8 =? 0)%nat)]> ∅))
    Scenario.env8.

(** The store of the scenario for a calibration whose three CONVOL angles
    are the same. *)
Definition run8_level : Proc.Run Scenario.float Scenario.datetime :=
  let p := Scenario.processor8 in
  Proc.mk_run
    (Proc.mk_processor (Proc.config p) (Proc.metadata p) (Proc.grid_info p)
       (Proc.calib_file p) (Proc.plotter p) (Proc.lats p) (Proc.lons p) (Proc.altitude p)
       (Some [Scenario.Num 1; Scenario.Num 1; Scenario.Num 1]) (Proc.dopvol_angles p)
       (Proc.convol_clutter p) (Proc.dopvol_clutter p))
    (Proc.iris_data Scenario.run8) (Proc.arrays Scenario.run8) Scenario.env8.

End Cases.

(* ===================================================================== *)
(** * Facts about the text of numbers and tuples                         *)
(* ===================================================================== *)

Module PyFacts.

Import Py.





Lemma is_prefix_head c r t :
  is_prefix (String c r) t = true -> exists t', t = String c t' /\ is_prefix r t' = true.
Proof.
  destruct t as [|b t']; cbn; [done|].
  destruct (Ascii.eqb_spec c b) as [->|]; [|done]. eauto.
Qed.































End PyFacts.

(* ===================================================================== *)
(** * Facts about arrays                                                 *)
(* ===================================================================== *)

Module NpFacts.

Import Py.

Lemma broadcast_rev_same (s : list nat) : Np.broadcast_rev s s = Some s.
Proof.
  induction s as [|n s IH]; [reflexivity|].
  cbn. rewrite IH, Nat.eqb_refl. reflexivity.
Qed.

Lemma broadcast_shapes_same (s : list nat) : Np.broadcast_shapes s s = Some s.
Proof.
  unfold Np.broadcast_shapes. rewrite broadcast_rev_same. cbn.
  by rewrite reverse_involutive.
Qed.

Lemma chunks_length {A : Type} (n sz : nat) (l : list A) :
  length (Np.chunks n sz l) = n.
Proof. revert l. induction n as [|n IH]; intros l; cbn; [done|by rewrite IH]. Qed.

Lemma chunks_concat {A : Type} (n sz : nat) (l : list A) :
  length l = (n * sz)%nat -> concat (Np.chunks n sz l) = l.
Proof.
  revert l. induction n as [|n IH]; intros l Hl; cbn in *.
  - by destruct l.
  - rewrite IH; [apply take_drop|]. rewrite length_drop. lia.
Qed.

Lemma chunks_Forall {A : Type} (n sz : nat) (l : list A) :
  length l = (n * sz)%nat -> Forall (fun c => length c = sz) (Np.chunks n sz l).
Proof.
  revert l. induction n as [|n IH]; intros l Hl; cbn in *; constructor.
  - rewrite length_take. lia.
  - apply IH. rewrite length_drop. lia.
Qed.

Lemma stretch_same {A : Type} (s : list nat) (d : list A) :
  length d = Np.size_of s -> Np.stretch s s d = d.
Proof.
  revert d. induction s as [|n s IH]; intros d Hd; [reflexivity|].
  cbn in *. rewrite Nat.eqb_refl.
  rewrite <- (chunks_concat n (Np.size_of s) d) at 2 by done.
  f_equal. rewrite <- (list_fmap_id (Np.chunks n (Np.size_of s) d)) at 2.
  apply Forall_fmap_ext_1. eapply Forall_impl; [by apply chunks_Forall|].
  intros c Hc. by apply IH.
Qed.

Lemma broadcast_cells_same {A : Type} (a : Np.ndarray A) :
  Np.wf a -> Np.broadcast_cells (Np.shape a) a = Np.flat a.
Proof.
  intros Hwf. unfold Np.broadcast_cells, Np.ndim.
  rewrite Nat.sub_diag. cbn. by apply stretch_same.
Qed.

Lemma broadcast_to_same {A : Type} (a : Np.ndarray A) (s : list nat) :
  Np.wf a -> Np.shape a = s -> Np.broadcast_to a s = Ok a.
Proof.
  intros Hwf <-. unfold Np.broadcast_to.
  rewrite broadcast_shapes_same, bool_decide_eq_true_2 by done.
  rewrite broadcast_cells_same by done. by destruct a.
Qed.

Lemma logical_or_same_shape (a b : Np.ndarray bool) :
  Np.wf a -> Np.wf b -> Np.shape a = Np.shape b ->
  Np.logical_or a b
  = Ok (Np.mk_ndarray (Np.shape a) (zip_with orb (Np.flat a) (Np.flat b))).
Proof.
  intros Ha Hb E. unfold Np.logical_or. rewrite <- E, broadcast_shapes_same.
  rewrite broadcast_cells_same by done. rewrite E at 2.
  rewrite broadcast_cells_same by done. reflexivity.
Qed.

Lemma full_wf {A : Type} (s : list nat) (x : A) : Np.wf (Np.full s x).
Proof. unfold Np.wf, Np.full; cbn. apply length_replicate. Qed.

End NpFacts.

(* ===================================================================== *)
(** * Properties of the writer                                           *)
(* ===================================================================== *)

Module ModelsSpec.

Import Py Core Models.

Section Writer.

Context {V DT : Type}.
Variable strftime : DT -> string -> string.

(** ** Stepping through a sequence of operations on one file *)

Lemma io_bind_assoc {S A B C : Type} (m : io S A) (f : A -> io S B) (g : B -> io S C) s :
  io_bind (io_bind m f) g s = io_bind m (fun x => io_bind (f x) g) s.
Proof. unfold io_bind. destruct (m s) as [[a|e] s']; reflexivity. Qed.

Lemma io_bind_ret {S A B : Type} (a : A) (k : A -> io S B) s :
  io_bind (io_ret a) k s = k a s.
Proof. reflexivity. Qed.

Lemma io_bind_lift_ok {S A B : Type} (a : A) (k : A -> io S B) s :
  io_bind (io_lift (Ok a)) k s = k a s.
Proof. reflexivity. Qed.

Lemma io_bind_lift_raise {S A B : Type} (e : exn) (k : A -> io S B) s :
  io_bind (io_lift (Raise e)) k s = (Raise e, s).
Proof. reflexivity. Qed.

Lemma bind_modify {B : Type} (fs : Nc.files V) dset ds f ds'
    (k : unit -> io (Nc.files V) B) :
  fs !! dset = Some ds -> f ds = Ok ds' ->
  io_bind (Nc.modify dset f) k fs = k tt (<[dset := ds']> fs).
Proof. intros E1 E2. unfold io_bind, Nc.modify. rewrite E1, E2. reflexivity. Qed.

Lemma bind_modify_raise {B : Type} (fs : Nc.files V) dset ds f e
    (k : unit -> io (Nc.files V) B) :
  fs !! dset = Some ds -> f ds = Raise e ->
  io_bind (Nc.modify dset f) k fs = (Raise e, fs).
Proof. intros E1 E2. unfold io_bind, Nc.modify. rewrite E1, E2. reflexivity. Qed.

Lemma bind_Dataset_W {B : Type} (fs : Nc.files V) fn (k : string -> io (Nc.files V) B) :
  io_bind (Nc.Dataset fn Nc.W) k fs = k fn (<[fn := Nc.empty_dataset]> fs).
Proof. reflexivity. Qed.

Lemma bind_Dataset_A {B : Type} (fs : Nc.files V) fn ds (k : string -> io (Nc.files V) B) :
  fs !! fn = Some ds ->
  io_bind (Nc.Dataset fn Nc.A) k fs = k fn fs.
Proof. intros E. unfold io_bind, Nc.Dataset. rewrite E. reflexivity. Qed.

Lemma subscript_ok {A : Type} (k : nat) (a : Np.ndarray A) :
  (k <= Np.ndim a)%nat -> Np.subscript k (Some a) = Ok a.
Proof.
  intros H. unfold Np.subscript, Np.full_slices.
  destruct (Nat.ltb_spec (Np.ndim a) k); [lia|reflexivity].
Qed.

Lemma array1_wf {A : Type} (l : list A) : Np.wf (Np.array1 l).
Proof. unfold Np.wf, Np.array1; cbn. lia. Qed.

(** ** Validation *)

(** The inputs that the specification wants [create] to refuse. *)
Inductive defect (g : GridInfo) (d : @IrisData V) : Prop :=
  | filtered_absent :
      src_dbz_filtered d = None -> defect g d
  | unfiltered_absent :
      src_dbz_unfiltered d = None -> defect g d
  | shapes_differ f u :
      src_dbz_filtered d = Some f -> src_dbz_unfiltered d = Some u ->
      Np.shape f ≠ Np.shape u -> defect g d
  | filtered_extent f n a k :
      src_dbz_filtered d = Some f -> Np.shape f = [n; a; k] ->
      Z.of_nat a ≠ azims g \/ Z.of_nat k ≠ gates g -> defect g d
  | unfiltered_extent u n a k :
      src_dbz_unfiltered d = Some u -> Np.shape u = [n; a; k] ->
      Z.of_nat a ≠ azims g \/ Z.of_nat k ≠ gates g -> defect g d
  | joint_absent :
      src_joint_product d = None -> defect g d
  | joint_not_2d j :
      src_joint_product d = Some j -> Np.ndim j ≠ 2%nat -> defect g d
  | joint_extent j a k :
      src_joint_product d = Some j -> Np.shape j = [a; k] ->
      Z.of_nat a ≠ azims g \/ Z.of_nat k ≠ gates g -> defect g d
  | auxiliary_differ v s p :
      src_velocity d = Some v -> src_spectrum_width d = Some s ->
      src_total_power d = Some p ->
      ~ (Np.shape v = Np.shape s /\ Np.shape v = Np.shape p) -> defect g d.

(** The reflectivity volumes, when present, are three-dimensional. *)
Definition volumes_3d (d : @IrisData V) : Prop :=
  (forall f, src_dbz_filtered d = Some f -> Np.ndim f = 3%nat) /\
  (forall u, src_dbz_unfiltered d = Some u -> Np.ndim u = 3%nat).

(** Validation of a populated writer whose reflectivity volumes are
    three-dimensional ends in one of three ways: a [ValueError]; success,
    on an input without defect; or, on an input without defect whose
    auxiliary volumes are not all present, an [AttributeError]. *)
Lemma validate_cases (m : Metadata V DT) (g : GridInfo) (d : @IrisData V) :
  volumes_3d d ->
  (exists msg, IrisOutput_validate (populate (IrisOutput_init m g) d)
               = Raise (ValueError msg)) \/
  (~ defect g d /\
   (IrisOutput_validate (populate (IrisOutput_init m g) d) = Ok tt \/
    exists msg, IrisOutput_validate (populate (IrisOutput_init m g) d)
                = Raise (AttributeError msg))).
Proof.
  intros [Hf Hu].
  unfold IrisOutput_validate, BaseOutput_validate, populate, IrisOutput_init,
    BaseOutput_init; cbn.
  destruct (src_dbz_filtered d) as [f|] eqn:Ef; cbn; [|eauto].
  destruct (src_dbz_unfiltered d) as [u|] eqn:Eu; cbn; [|eauto].
  case_bool_decide as Hs; cbn; [|eauto].
  specialize (Hf f eq_refl). specialize (Hu u eq_refl).
  unfold Np.ndim in Hf, Hu.
  destruct (Np.shape f) as [|n [|a [|k [|? ?]]]] eqn:Esf; try discriminate.
  unfold Np.shape_at; rewrite Esf; cbn.
  destruct (Z.of_nat a =? azims g)%Z eqn:Ea; cbn; [|eauto].
  destruct (Z.of_nat k =? gates g)%Z eqn:Ek; cbn; [|eauto].
  apply Z.eqb_eq in Ea, Ek.
  destruct (src_joint_product d) as [j|] eqn:Ej; cbn; [|eauto].
  destruct (Np.shape j) as [|ja [|jk [|? ?]]] eqn:Esj; cbn; eauto.
  destruct (azims g =? Z.of_nat ja)%Z eqn:Eja; cbn; [|eauto].
  destruct (gates g =? Z.of_nat jk)%Z eqn:Ejk; cbn; [|eauto].
  apply Z.eqb_eq in Eja, Ejk.
  assert (Hbase : forall P : Prop, defect g d ->
            (forall v s p, src_velocity d = Some v -> src_spectrum_width d = Some s ->
               src_total_power d = Some p ->
               ~ (Np.shape v = Np.shape s /\ Np.shape v = Np.shape p) -> P) -> P).
  { intros P HD HP.
    destruct HD as [H|H|f' u' H1 H2 H3|f' n' a' k' H1 H2 H3|u' n' a' k' H1 H2 H3
                   |H|j' H1 H2|j' a' k' H1 H2 H3|v s p H1 H2 H3 H4];
      [congruence|congruence|congruence| | |congruence| | |eauto].
    - exfalso. assert (f' = f) by congruence. subst.
      rewrite Esf in H2. injection H2 as -> -> ->. lia.
    - exfalso. assert (u' = u) by congruence. subst.
      rewrite <- Hs in H2. injection H2 as -> -> ->. lia.
    - exfalso. assert (j' = j) by congruence. subst.
      unfold Np.ndim in H2. rewrite Esj in H2. cbn in H2. lia.
    - exfalso. assert (j' = j) by congruence. subst.
      rewrite Esj in H2. injection H2 as -> ->. lia. }
  destruct (src_velocity d) as [v|] eqn:Ev; cbn.
  2:{ right. split; [|eauto]. intros HD. apply (Hbase False HD). congruence. }
  destruct (src_spectrum_width d) as [s|] eqn:Es; cbn.
  2:{ right. split; [|eauto]. intros HD. apply (Hbase False HD). congruence. }
  destruct (src_total_power d) as [p|] eqn:Ep; cbn.
  2:{ right. split; [|eauto]. intros HD. apply (Hbase False HD). congruence. }
  case_bool_decide as Hvs; cbn; [|eauto].
  case_bool_decide as Hvp; cbn; [|eauto].
  right. split; [|eauto]. intros HD. apply (Hbase False HD).
  intros v' s' p' ? ? ? Hn. apply Hn. split; congruence.
Qed.

(** C2.  On every input with one of the defects listed by the
    specification (a reflectivity volume absent, the two of different
    shapes, an azimuth or gate extent that disagrees with the grid, the
    joint product absent, not two-dimensional or disagreeing with the grid,
    auxiliary volumes not all of one shape), the reflectivity volumes being
    three-dimensional when present, [create] raises [ValueError] and leaves
    the file store as it was: no file has been created or opened. *)
Theorem create_rejects_defects (filename : string) (m : Metadata V DT) (g : GridInfo)
    (d : @IrisData V) (fs : Nc.files V) :
  volumes_3d d ->
  defect g d ->
  exists msg, create strftime filename m g d fs = (Raise (ValueError msg), fs).
Proof.
  intros H3 HD.
  destruct (validate_cases m g d H3) as [[msg E]|[HN _]]; [|contradiction].
  exists msg. unfold create, IrisOutput_write, io_bind, io_lift.
  rewrite E. reflexivity.
Qed.

(** Whatever makes validation fail, the file store is left as it was. *)
Lemma write_failed_validation (self : Output) (filename : string) (fs : Nc.files V) e :
  IrisOutput_validate self = Raise e ->
  IrisOutput_write strftime self filename fs = (Raise e, fs).
Proof.
  intros E. unfold IrisOutput_write, io_bind, io_lift. rewrite E. reflexivity.
Qed.

(** ** Writing a valid volume set *)

(** A valid volume set for the grid [g]: every field present, of the shape
    the grid and the elevation lists give it, one cell per index. *)
Record valid (g : GridInfo) (d : @IrisData V) (a k : nat)
    (f u j v s p : Np.ndarray V) : Prop := mk_valid {
  v_azims : azims g = Z.of_nat a;
  v_gates : gates g = Z.of_nat k;
  v_filtered : src_dbz_filtered d = Some f;
  v_unfiltered : src_dbz_unfiltered d = Some u;
  v_joint : src_joint_product d = Some j;
  v_velocity : src_velocity d = Some v;
  v_spectrum : src_spectrum_width d = Some s;
  v_power : src_total_power d = Some p;
  v_f_shape : Np.shape f = [length (src_dbz_elevs d); a; k];
  v_u_shape : Np.shape u = [length (src_dbz_elevs d); a; k];
  v_j_shape : Np.shape j = [a; k];
  v_v_shape : Np.shape v = [length (src_dopvol_elevs d); a; k];
  v_s_shape : Np.shape s = [length (src_dopvol_elevs d); a; k];
  v_p_shape : Np.shape p = [length (src_dopvol_elevs d); a; k];
  v_f_wf : Np.wf f;
  v_u_wf : Np.wf u;
  v_j_wf : Np.wf j;
  v_v_wf : Np.wf v;
  v_s_wf : Np.wf s;
  v_p_wf : Np.wf p
}.

Lemma validate_valid (m : Metadata V DT) g d a k f u j v s p :
  valid g d a k f u j v s p ->
  IrisOutput_validate (populate (IrisOutput_init m g) d) = Ok tt.
Proof.
  intros H. destruct H.
  unfold IrisOutput_validate, BaseOutput_validate, populate, IrisOutput_init,
    BaseOutput_init, Np.shape_at; cbn.
  rewrite v_filtered0, v_unfiltered0, v_joint0, v_velocity0, v_spectrum0, v_power0; cbn.
  rewrite v_f_shape0, v_u_shape0, v_j_shape0, v_v_shape0, v_s_shape0, v_p_shape0; cbn.
  rewrite !bool_decide_eq_true_2 by done. cbn.
  rewrite v_azims0, v_gates0, !Z.eqb_refl. reflexivity.
Qed.

(** What the file holds when [write_metadata] stops: the four attributes
    assigned before [name], no dimension and no variable. *)
Definition stopped (m : Metadata V DT) : Nc.dataset V :=
  Nc.mk_dataset
    (<["datetime" := Nc.AStr (strftime (scan_dt m) "%Y%m%d%H%M")]>
       (<["radar_id" := Nc.AStr (radar_id m)]>
          (<["longitude" := Nc.AFloat (lon m)]>
             (<["latitude" := Nc.AFloat (lat m)]> ∅))))
    ∅ ∅.

Lemma setattr_public (dset name : string) (value : Nc.attr V) :
  bool_decide (name ∈ Nc.private_atts) = false ->
  Nc.setattr dset name value = Nc.setncattr dset name value.
Proof. intros H. unfold Nc.setattr. rewrite H. reflexivity. Qed.

Lemma bind_setncattr {B : Type} (fs : Nc.files V) dset ds name value
    (k : unit -> io (Nc.files V) B) :
  fs !! dset = Some ds ->
  io_bind (Nc.setncattr dset name value) k fs
  = k tt (<[dset := Nc.mk_dataset (<[name := value]> (Nc.ds_attrs ds))
                      (Nc.ds_dims ds) (Nc.ds_vars ds)]> fs).
Proof. intros E. unfold Nc.setncattr. by erewrite bind_modify. Qed.

(** [BaseOutput.write] never gets past [write_metadata], whatever the
    writer holds: [name] is reserved by [Dataset], and the assignment to it
    raises.  The file has been created, and has four attributes. *)
Lemma write_stops_at_name (self : Output) (filename : string) (fs : Nc.files V) :
  exists msg,
    BaseOutput_write strftime self filename fs
    = (Raise (AttributeError msg), <[filename := stopped (metadata self)]> fs).
Proof.
  unfold BaseOutput_write. rewrite bind_Dataset_W.
  unfold write_metadata.
  rewrite !(setattr_public filename "latitude"),
          !(setattr_public filename "longitude"),
          !(setattr_public filename "radar_id"),
          !(setattr_public filename "datetime") by (vm_compute; reflexivity).
  eexists.
  do 4 (rewrite !io_bind_assoc;
        erewrite bind_setncattr by apply lookup_insert_eq;
        rewrite insert_insert_eq; cbv beta).
  reflexivity.
Qed.

(** C1.  [create] on a valid volume set does not return.  Validation
    passes and the file is created; [write_metadata] stores [latitude],
    [longitude], [radar_id] and [datetime], and its next assignment,
    [dset.name = ...], raises [AttributeError], [name] being a name that
    [Dataset] reserves.  The file is left with those four attributes, with
    neither [name] nor [filetype], with no dimension and no variable:
    nothing of the volume set can be read back, and the statements of
    [write] that store the arrays are never reached. *)
Theorem create_stops_at_reserved_name (filename : string) (m : Metadata V DT)
    (g : GridInfo) (d : @IrisData V) (fs : Nc.files V) a k f u j v s p :
  valid g d a k f u j v s p ->
  exists msg fs',
    create strftime filename m g d fs = (Raise (AttributeError msg), fs') /\
    fs' = (<[filename := stopped m]> fs) /\
    Nc.read_attr fs' filename "latitude" = Some (Nc.AFloat (lat m)) /\
    Nc.read_attr fs' filename "longitude" = Some (Nc.AFloat (lon m)) /\
    Nc.read_attr fs' filename "radar_id" = Some (Nc.AStr (radar_id m)) /\
    Nc.read_attr fs' filename "datetime"
      = Some (Nc.AStr (strftime (scan_dt m) "%Y%m%d%H%M")) /\
    Nc.read_attr fs' filename "name" = None /\
    Nc.read_attr fs' filename "filetype" = None /\
    (forall x, Nc.read_var fs' filename x = None) /\
    (forall ds, fs' !! filename = Some ds -> Nc.ds_dims ds = ∅).
Proof.
  intros H.
  destruct (write_stops_at_name (populate (IrisOutput_init m g) d) filename fs)
    as [msg E].
  exists msg, (<[filename := stopped m]> fs).
  split.
  { unfold create, IrisOutput_write.
    rewrite (validate_valid m g d a k f u j v s p H), io_bind_lift_ok.
    unfold io_bind. rewrite E. reflexivity. }
  split; [reflexivity|].
  unfold Nc.read_attr, Nc.read_var. rewrite lookup_insert_eq.
  cbn [mbind option_bind stopped Nc.ds_attrs Nc.ds_vars].
  repeat split; try (by simplify_map_eq).
  intros ds [= <-]. reflexivity.
Qed.

(** ** Appending the classification volume *)

(** The values of [id_matrix] that the assignment to the new variable, of
    shape [s], accepts: an array of at least three axes whose shape
    broadcasts to [s]. *)
Definition fits {E : Type} (id_matrix : option (Np.ndarray E)) (s : list nat) : Prop :=
  exists m, id_matrix = Some m /\ (3 <= Np.ndim m)%nat /\
            Np.broadcast_shapes (Np.shape m) s = Some s.

(** C10.  The validation that precedes the append is a function of the
    writer alone.  Once it passes, and whatever [id_matrix] is, the file is
    reopened and the variable [target_id] is declared in it, over the
    dimensions of the file; only then is [id_matrix] looked at.  When it
    does not fit, the call raises and the file keeps the new variable, with
    no cell written. *)
Theorem append_declares_before_checking {E : Type}
    (validate : @Output V DT -> res unit)
    (cast : E -> Z) (self : @Output V DT) (filename : string)
    (id_matrix : option (Np.ndarray E)) (fs : Nc.files V) (ds : Nc.dataset V)
    (s : list nat) :
  validate self = Ok tt ->
  fs !! filename = Some ds ->
  Nc.ds_vars ds !! "target_id" = None ->
  Nc.dims_shape (Nc.ds_dims ds) ["dbz_elevs"; "azims"; "gates"] = Some s ->
  exists r fs' v,
    append_target_id validate cast self filename id_matrix fs = (r, fs') /\
    Nc.read_var fs' filename "target_id" = Some v /\
    Nc.var_shape v = s /\
    (r = Ok tt <-> fits id_matrix s) /\
    (~ fits id_matrix s ->
     (exists e, r = Raise e) /\
     v = Nc.mk_variable Nc.NC_INT ["dbz_elevs"; "azims"; "gates"] s
           (replicate (Np.size_of s) None)).
Proof.
  intros Hval Hfs Hnew Hdims.
  assert (Hlen : length s = 3%nat).
  { cbn in Hdims. repeat case_match; simplify_eq. reflexivity. }
  unfold append_target_id, Nc.createVariable, Nc.setitem, Nc.close.
  rewrite Hval, io_bind_lift_ok.
  erewrite bind_Dataset_A by eassumption.
  rewrite io_bind_assoc.
  erewrite bind_modify; [|eassumption|rewrite Hnew, Hdims; reflexivity].
  rewrite io_bind_ret. cbn [fst snd].
  destruct id_matrix as [m|]; cbn [Np.subscript].
  2:{ rewrite io_bind_lift_raise. do 3 eexists.
      split; [reflexivity|]. unfold Nc.read_var. simplify_map_eq.
      split; [reflexivity|]. split; [reflexivity|]. split; [split|].
      - discriminate.
      - intros (m & ? & _); discriminate.
      - intros _. split; [eauto|reflexivity]. }
  unfold Np.full_slices.
  destruct (Nat.ltb_spec (Np.ndim m) 3) as [Hnd|Hnd].
  { rewrite io_bind_lift_raise. do 3 eexists.
    split; [reflexivity|]. unfold Nc.read_var. simplify_map_eq.
    split; [reflexivity|]. split; [reflexivity|]. split; [split|].
    - discriminate.
    - intros (m' & [= <-] & ? & _); lia.
    - intros _. split; [eauto|reflexivity]. }
  rewrite io_bind_lift_ok.
  unfold Np.broadcast_to.
  destruct (decide (Np.broadcast_shapes (Np.shape m) s = Some s)) as [Hb|Hb].
  - erewrite bind_modify;
      [|by simplify_map_eq
       |simplify_map_eq; rewrite Hlen, bool_decide_eq_true_2 by done; reflexivity].
    do 3 eexists. split; [reflexivity|].
    unfold Nc.read_var. simplify_map_eq.
    split; [reflexivity|]. split; [reflexivity|]. split; [split|].
    + intros _. exists m. done.
    + reflexivity.
    + intros Hn. exfalso. apply Hn. exists m. done.
  - erewrite bind_modify_raise;
      [|by simplify_map_eq
       |simplify_map_eq; rewrite Hlen, bool_decide_eq_false_2 by done; reflexivity].
    do 3 eexists. split; [reflexivity|].
    unfold Nc.read_var. simplify_map_eq.
    split; [reflexivity|]. split; [reflexivity|]. split; [split|].
    + discriminate.
    + intros (m' & [= <-] & _ & ?); done.
    + intros _. split; [eauto|reflexivity].
Qed.

(** ** The unimplemented output variants *)

Lemma unimplemented_outputs (m : Metadata V DT) (g : GridInfo) :
  OdimOutput_init m g = Raise (NotImplementedError "OdimOutput") /\
  NexradOutput_init m g = Raise (NotImplementedError "NEXRAD").
Proof. split; reflexivity. Qed.

End Writer.

(** *** Instances on the test data *)

Lemma volumes_valid :
  valid Scenario.grid4 Scenario.volumes 4 4
    (Scenario.vol344 0) (Scenario.vol344 50) Scenario.joint44
    (Scenario.vol344 200) (Scenario.vol344 300) (Scenario.vol344 400).
Proof. constructor; reflexivity. Defined.

Lemma create_stops_at_reserved_name_witness :
  exists msg fs',
    create Scenario.strftime "out.nc" Scenario.meta Scenario.grid4 Scenario.volumes ∅
      = (Raise (AttributeError msg), fs') /\
    Nc.read_attr fs' "out.nc" "datetime" = Some (Nc.AStr "201907150630") /\
    Nc.read_attr fs' "out.nc" "name" = None /\
    Nc.read_var fs' "out.nc" "dbz_filtered" = None /\
    Nc.read_var fs' "out.nc" "dbz_joint" = None.
Proof.
  destruct (create_stops_at_reserved_name Scenario.strftime "out.nc" Scenario.meta
              Scenario.grid4 Scenario.volumes ∅ _ _ _ _ _ _ _ _ volumes_valid)
    as (msg & fs' & H0 & _ & _ & _ & _ & H4 & H5 & _ & H7 & _).
  exists msg, fs'. split; [exact H0|]. split; [exact H4|]. split; [exact H5|].
  split; apply H7.
Defined.

Lemma create_rejects_defects_witness :
  exists msg,
    create Scenario.strftime "out.nc" Scenario.meta Scenario.grid4
      Scenario.mismatched ∅
    = (Raise (ValueError msg), ∅).
Proof.
  apply (create_rejects_defects Scenario.strftime "out.nc" Scenario.meta
           Scenario.grid4 Scenario.mismatched ∅).
  - split; intros ? [= <-]; reflexivity.
  - eapply shapes_differ; [reflexivity|reflexivity|discriminate].
Defined.

Lemma append_declares_before_checking_witness :
  exists r fs' v,
    append_target_id IrisOutput_validate id Scenario.writer "out.nc"
      (Some Scenario.id_2x3x3) Cases.store1 = (r, fs') /\
    Nc.read_var fs' "out.nc" "target_id" = Some v /\
    Nc.var_shape v = [3; 4; 4]%nat /\
    (exists e, r = Raise e) /\
    Nc.var_data v = replicate 48 None.
Proof.
  destruct (append_declares_before_checking IrisOutput_validate id Scenario.writer
              "out.nc" (Some Scenario.id_2x3x3) Cases.store1
              Cases.declared [3; 4; 4]%nat)
    as (r & fs' & v & H0 & H1 & H2 & _ & H4).
  - reflexivity.
  - vm_compute. reflexivity.
  - vm_compute. reflexivity.
  - vm_compute. reflexivity.
  - exists r, fs', v. split; [assumption|]. split; [assumption|].
    split; [assumption|].
    assert (Hn : ~ fits (Some Scenario.id_2x3x3) [3; 4; 4]%nat).
    { intros (m & [= <-] & _ & Hb). vm_compute in Hb. discriminate. }
    destruct (H4 Hn) as [He ->]. split; [assumption|reflexivity].
Defined.

End ModelsSpec.

(* ===================================================================== *)
(** * Properties of the processor                                        *)
(* ===================================================================== *)

Module ProcSpec.

Import Py Core Proc.

(** ** Cells of three-dimensional arrays *)

Lemma decode_row (ne na ng e i j : nat) :
  (i < na)%nat -> (j < ng)%nat ->
  ((((e * na + i) * ng + j) / (ng * 1)) mod na)%nat = i.
Proof.
  intros Hi Hj. rewrite Nat.mul_1_r.
  rewrite Nat.div_add_l by lia. rewrite (Nat.div_small j ng) by lia.
  rewrite Nat.add_0_r, Nat.add_comm, Nat.Div0.mod_add. by apply Nat.mod_small.
Qed.

Lemma decode_col (na ng e i j : nat) :
  (j < ng)%nat ->
  ((((e * na + i) * ng + j) / 1) mod ng)%nat = j.
Proof.
  intros Hj. rewrite Nat.div_1_r, Nat.add_comm, Nat.Div0.mod_add.
  by apply Nat.mod_small.
Qed.

Lemma offset_bound (ne na ng e i j : nat) :
  (e < ne)%nat -> (i < na)%nat -> (j < ng)%nat ->
  ((e * na + i) * ng + j < ne * (na * (ng * 1)))%nat.
Proof.
  intros He Hi Hj. rewrite Nat.mul_1_r.
  assert (H1 : (e * na + i + 1 <= ne * na)%nat) by nia.
  assert (H2 : ((e * na + i) * ng + j + 1 <= (e * na + i + 1) * ng)%nat) by nia.
  assert (H3 : ((e * na + i + 1) * ng <= ne * na * ng)%nat)
    by (apply Nat.mul_le_mono_r; exact H1).
  lia.
Qed.

Lemma get3_lookup {A : Type} (a : Np.ndarray A) ne na ng e i j :
  Np.shape a = [ne; na; ng] ->
  (e < ne)%nat -> (i < na)%nat -> (j < ng)%nat ->
  Np.get3 a e i j = Np.flat a !! ((e * na + i) * ng + j)%nat.
Proof.
  intros Hs He Hi Hj. unfold Np.get3. rewrite Hs.
  rewrite !(proj2 (Nat.ltb_lt _ _)) by done. reflexivity.
Qed.

Lemma get3_is_Some {A : Type} (a : Np.ndarray A) ne na ng e i j :
  Np.shape a = [ne; na; ng] -> Np.wf a ->
  (e < ne)%nat -> (i < na)%nat -> (j < ng)%nat ->
  is_Some (Np.get3 a e i j).
Proof.
  intros Hs Hwf He Hi Hj. rewrite (get3_lookup a ne na ng) by done.
  apply lookup_lt_is_Some. rewrite Hwf, Hs. cbn. by apply offset_bound.
Qed.

(** Is cell [(i, j)] of a grid of [na] x [ng] inside the block
    [lo_a:hi_a, lo_g:hi_g]? *)
Definition in_block (na ng : nat) (lo_a hi_a lo_g hi_g : Z) (i j : nat) : bool :=
  (slice_bound na lo_a <=? i)%nat && (i <? slice_bound na hi_a)%nat &&
  (slice_bound ng lo_g <=? j)%nat && (j <? slice_bound ng hi_g)%nat.

Lemma set_block_spec {A : Type} (a : Np.ndarray A) ne na ng lo_a hi_a lo_g hi_g (v : A) :
  Np.shape a = [ne; na; ng] ->
  exists a',
    set_block a lo_a hi_a lo_g hi_g v = Ok a' /\
    Np.shape a' = Np.shape a /\
    length (Np.flat a') = length (Np.flat a) /\
    forall e i j, (e < ne)%nat -> (i < na)%nat -> (j < ng)%nat ->
      Np.get3 a' e i j =
        if in_block na ng lo_a hi_a lo_g hi_g i j
        then (fun _ => v) <$> Np.get3 a e i j
        else Np.get3 a e i j.
Proof.
  intros Hs. unfold set_block. rewrite Hs. cbn [dims3 Np.size_of foldr].
  eexists. split; [reflexivity|]. cbn [Np.shape Np.flat].
  split; [done|]. split; [by rewrite length_imap|].
  intros e i j He Hi Hj.
  rewrite (get3_lookup _ ne na ng), (get3_lookup a ne na ng) by done.
  cbn [Np.flat]. rewrite list_lookup_imap.
  rewrite (decode_row ne) by done. rewrite decode_col by done.
  unfold in_block. destruct (Np.flat a !! _); cbn; [|by case_match].
  by case_match.
Qed.

(** ** The samples of a zone *)

(** The cells [(i, j)] of a block of rows [a0 .. a1 - 1] and columns
    [g0 .. g1 - 1], row by row. *)
Definition block_indices (a0 a1 g0 g1 : nat) : list (nat * nat) :=
  flat_map (fun i => flat_map (fun j => [(i, j)]) (seq g0 (g1 - g0))) (seq a0 (a1 - a0)).

Definition sample {V : Type} (data : Np.ndarray V) (mask : option (Np.ndarray bool))
    (e i j : nat) : option (option V) :=
  match Np.get3 data e i j with
  | None => None
  | Some v =>
      match mask with
      | None => Some (Some v)
      | Some mk =>
          match Np.get3 mk e i j with
          | None => None
          | Some b => Some (if b : bool then None else Some v)
          end
      end
  end.

Definition pooled_from {V : Type} (x0 : nat) (angles : list V) (data : Np.ndarray V)
    (mask : option (Np.ndarray bool)) (cells : list (nat * nat)) : list (V * option V) :=
  flat_map (fun ea : nat * V =>
              omap (fun p : nat * nat => pair ea.2 <$> sample data mask ea.1 p.1 p.2) cells)
           (zip (seq x0 (length angles)) angles).

Lemma flat_map_ext_in {A B : Type} (f g : A -> list B) (l : list A) :
  (forall x, x ∈ l -> f x = g x) -> flat_map f l = flat_map g l.
Proof.
  induction l as [|x l IH]; intros H; cbn; [done|].
  rewrite (H x) by left. rewrite IH; [done|]. intros y Hy. apply H. by right.
Qed.

Lemma take1_drop {A : Type} (k : nat) (l : list A) :
  take 1 (drop k l) = option_list (l !! k).
Proof.
  revert k. induction l as [|x l IH]; intros [|k]; cbn; done.
Qed.

Lemma flat_map_option_list {A B C : Type} (F : A -> B -> option C) (l1 : list A) (l2 : list B) :
  flat_map (fun i => flat_map (fun j => option_list (F i j)) l2) l1
  = omap (fun p : A * B => F p.1 p.2)
         (flat_map (fun i => flat_map (fun j => [(i, j)]) l2) l1).
Proof.
  induction l1 as [|i l1 IH]; cbn; [done|].
  rewrite omap_app, IH. f_equal. clear IH.
  induction l2 as [|j l2 IH2]; cbn; [done|].
  rewrite IH2. destruct (F i j); reflexivity.
Qed.

Lemma slice_bound_le (n : nat) (z : Z) : (slice_bound n z <= n)%nat.
Proof. unfold slice_bound. case_match; lia. Qed.

Lemma zone_cells_3d {A : Type} (a : Np.ndarray A) ne na ng x lo_a hi_a lo_g hi_g :
  Np.shape a = [ne; na; ng] -> (x < ne)%nat ->
  zone_cells a x lo_a hi_a lo_g hi_g
  = Ok (omap (fun p : nat * nat => Np.get3 a x p.1 p.2)
          (block_indices (slice_bound na lo_a) (slice_bound na hi_a)
                         (slice_bound ng lo_g) (slice_bound ng hi_g))).
Proof.
  intros Hs Hx. unfold zone_cells. rewrite Hs. cbn [dims3 Np.size_of foldr].
  rewrite (proj2 (Nat.ltb_lt _ _)) by done. cbn [negb]. f_equal.
  unfold block_indices. rewrite <- flat_map_option_list.
  apply flat_map_ext_in. intros i Hi. apply flat_map_ext_in. intros j Hj.
  apply elem_of_seq in Hi, Hj.
  pose proof (slice_bound_le na hi_a). pose proof (slice_bound_le ng hi_g).
  rewrite take1_drop, Nat.mul_1_r.
  rewrite (get3_lookup a ne na ng) by (done || lia). done.
Qed.

Section Detect.
Context {V DT : Type}.
Variable linregress : list V -> list (option V) -> res V.
Variable gt : V -> V -> bool.

Abbreviation M := (io (Run V DT)).

Definition mask_of (h : heap) (m : MaskedArray V) : option (Np.ndarray bool) :=
  match ma_mask m with
  | None => None
  | Some l => h !! l
  end.

Definition volume_ok (h : heap) (m : MaskedArray V) (ne na ng : nat) : Prop :=
  Np.shape (ma_data m) = [ne; na; ng] /\ Np.wf (ma_data m) /\
  forall l, ma_mask m = Some l ->
    exists mk, h !! l = Some mk /\ Np.shape mk = [ne; na; ng] /\ Np.wf mk.

Lemma for_each_fmap {A B : Type} (f : A -> B) (l : list A) (body : B -> M unit) st :
  for_each (f <$> l) body st = for_each l (fun x => body (f x)) st.
Proof.
  revert st. induction l as [|x l IH]; intros st; cbn; [done|].
  unfold io_bind. destruct (body (f x) st) as [[[]|e] st']; [apply IH|done].
Qed.

Lemma for_each_invariant {A : Type} (l : list A) (body : A -> M unit)
    (I : list A -> Run V DT -> Prop) st :
  I [] st ->
  (forall pre x post s, l = (pre ++ x :: post)%list -> I pre s ->
     exists s', body x s = (Ok tt, s') /\ I (pre ++ [x])%list s') ->
  exists st', for_each l body st = (Ok tt, st') /\ I l st'.
Proof.
  revert I st. induction l as [|x l IH]; intros I st H0 Hstep; cbn.
  - eauto.
  - destruct (Hstep [] x l st eq_refl H0) as (s1 & E1 & I1).
    unfold io_bind. rewrite E1.
    destruct (IH (fun pre => I (x :: pre)) s1 I1) as (st' & E & HI).
    + intros pre y post s -> Hs.
      destruct (Hstep (x :: pre) y post s eq_refl Hs) as (s' & ? & ?). eauto.
    + eauto.
Qed.

(** ** Relations kept by every step of a computation *)

Definition preserves {A : Type} (R : Run V DT -> Run V DT -> Prop) (m : M A) : Prop :=
  forall s r s', m s = (r, s') -> R s s'.

Section Preserves.

Variable R : Run V DT -> Run V DT -> Prop.
Hypothesis R_refl : forall s, R s s.
Hypothesis R_trans : forall s1 s2 s3, R s1 s2 -> R s2 s3 -> R s1 s3.

Lemma preserves_ret {A : Type} (a : A) : preserves R (io_ret a).
Proof. intros s r s' [= <- <-]. apply R_refl. Qed.

Lemma preserves_raise {A : Type} (e : exn) : preserves R (@io_raise _ A e).
Proof. intros s r s' [= <- <-]. apply R_refl. Qed.

Lemma preserves_lift {A : Type} (x : res A) : preserves R (io_lift x).
Proof. intros s r s' [= <- <-]. apply R_refl. Qed.

Lemma preserves_get : preserves R io_get.
Proof. intros s r s' [= <- <-]. apply R_refl. Qed.

Lemma preserves_bind {A B : Type} (m : M A) (k : A -> M B) :
  preserves R m -> (forall a, preserves R (k a)) -> preserves R (io_bind m k).
Proof.
  intros Hm Hk s r s'. unfold io_bind.
  destruct (m s) as [[a|e] s1] eqn:E1.
  - intros E2. eapply R_trans; [by eapply Hm|by eapply Hk].
  - intros [= <- <-]. by eapply Hm.
Qed.

Lemma preserves_for_each {A : Type} (l : list A) (body : A -> M unit) :
  (forall x, preserves R (body x)) -> preserves R (for_each l body).
Proof.
  intros Hb. induction l as [|x l IH]; cbn.
  - apply preserves_ret.
  - apply preserves_bind; [apply Hb|intros _; apply IH].
Qed.

End Preserves.

Ltac preserves_tac :=
  repeat first
    [ assumption
    | match goal with H : context [preserves] |- preserves _ _ => solve [apply H] end
    | match goal with |- forall _, _ => intro end
    | apply preserves_bind
    | apply preserves_for_each
    | apply preserves_ret
    | apply preserves_raise
    | apply preserves_lift
    | apply preserves_get
    | match goal with |- preserves _ (if ?b then _ else _) => destruct b end
    | match goal with |- preserves _ (match ?x with _ => _ end) => destruct x end ].

(** The detection reads: it leaves the store as it found it. *)
Definition unchanged (s s' : Run V DT) : Prop := s' = s.

Lemma unchanged_refl s : unchanged s s.
Proof. reflexivity. Qed.

Lemma unchanged_trans s1 s2 s3 : unchanged s1 s2 -> unchanged s2 s3 -> unchanged s1 s3.
Proof. unfold unchanged. congruence. Qed.

Lemma deref_unchanged l : preserves unchanged (deref l).
Proof. intros s r s'. unfold deref. case_match; intros [= <- <-]; reflexivity. Qed.

Lemma determine_zone_slope_unchanged x y :
  preserves unchanged (determine_zone_slope linregress x y).
Proof.
  pose proof unchanged_refl as Hr. pose proof unchanged_trans as Ht.
  assert (Hg : forall m, preserves unchanged (getmask m)).
  { intros m. pose proof deref_unchanged. unfold getmask. preserves_tac. }
  assert (Hz : forall m x a b c d, preserves unchanged (zone_flat m x a b c d)).
  { intros. unfold zone_flat. preserves_tac. }
  assert (Hga : forall angles x a b c d, preserves unchanged (gather angles x a b c d)).
  { induction angles as [|angle rest IH]; intros; cbn [gather]; preserves_tac. }
  unfold determine_zone_slope. preserves_tac.
Qed.

(** What the detection may change: nothing of [iris_data], nothing of the
    environment, and no array but the two filters. *)
Definition frame (cf df : loc) (s s' : Run V DT) : Prop :=
  iris_data s' = iris_data s /\ env s' = env s /\
  forall l, l ≠ cf -> l ≠ df -> arrays s' !! l = arrays s !! l.

Lemma frame_refl cf df s : frame cf df s s.
Proof. done. Qed.

Lemma frame_trans cf df s1 s2 s3 :
  frame cf df s1 s2 -> frame cf df s2 s3 -> frame cf df s1 s3.
Proof.
  intros (H1 & H2 & H3) (K1 & K2 & K3). split; [congruence|]. split; [congruence|].
  intros l Hc Hd. rewrite K3, H3 by done. done.
Qed.

Lemma unchanged_frame {A : Type} cf df (m : M A) :
  preserves unchanged m -> preserves (frame cf df) m.
Proof. intros H s r s' E. rewrite (H s r s' E). apply frame_refl. Qed.

Lemma mark_frame cf df (p : PrecipFilter) lo_a hi_a lo_g hi_g :
  filter_3d p = cf \/ filter_3d p = df ->
  preserves (frame cf df) (mark p lo_a hi_a lo_g hi_g).
Proof.
  intros Hp. pose proof (frame_refl cf df) as Hr. pose proof (frame_trans cf df) as Ht.
  assert (Hd : forall l, preserves (frame cf df) (deref l))
    by (intros; apply unchanged_frame, deref_unchanged).
  unfold mark. preserves_tac.
  intros s r s' [= <- <-]. split; [done|]. split; [done|].
  intros l Hc Hf. cbn. apply lookup_insert_ne. destruct Hp; congruence.
Qed.

Lemma filter_precip_frame (convol_precip dopvol_precip : PrecipFilter) :
  preserves (frame (filter_3d convol_precip) (filter_3d dopvol_precip))
            (filter_precip linregress gt convol_precip dopvol_precip).
Proof.
  pose proof (frame_refl (filter_3d convol_precip) (filter_3d dopvol_precip)) as Hr.
  pose proof (frame_trans (filter_3d convol_precip) (filter_3d dopvol_precip)) as Ht.
  assert (Hs : forall x y,
            preserves (frame (filter_3d convol_precip) (filter_3d dopvol_precip))
                      (determine_zone_slope linregress x y))
    by (intros; apply unchanged_frame, determine_zone_slope_unchanged).
  assert (Hc : forall a b c d,
            preserves (frame (filter_3d convol_precip) (filter_3d dopvol_precip))
                      (mark convol_precip a b c d))
    by (intros; apply mark_frame; by left).
  assert (Hd : forall a b c d,
            preserves (frame (filter_3d convol_precip) (filter_3d dopvol_precip))
                      (mark dopvol_precip a b c d))
    by (intros; apply mark_frame; by right).
  unfold filter_precip. preserves_tac.
  intros s r s' [= <- <-]. done.
Qed.

(** [self] after [filter_precip] has read the configuration again. *)
Definition reload (st : Run V DT) : Processor V DT :=
  let s := self st in
  mk_processor (config_json (env st)) (metadata s) (grid_info s)
    (calib_file s) (plotter s) (lats s) (lons s) (altitude s)
    (convol_angles s) (dopvol_angles s) (convol_clutter s) (dopvol_clutter s).

(** The processor and the environment are left alone. *)
Definition same_self (s s' : Run V DT) : Prop := self s' = self s /\ env s' = env s.

Lemma same_self_refl s : same_self s s.
Proof. done. Qed.

Lemma same_self_trans s1 s2 s3 : same_self s1 s2 -> same_self s2 s3 -> same_self s1 s3.
Proof. unfold same_self. intros [] []. split; congruence. Qed.

Lemma mark_same_self (p : PrecipFilter) lo_a hi_a lo_g hi_g :
  preserves same_self (mark p lo_a hi_a lo_g hi_g).
Proof.
  intros s r s'. unfold mark, io_bind, deref, io_lift, assign.
  repeat case_match; intros [= <- <-]; simplify_eq; done.
Qed.

Lemma slope_same_self x y :
  preserves same_self (determine_zone_slope linregress x y).
Proof.
  intros s r s' E. apply determine_zone_slope_unchanged in E.
  unfold unchanged in E. by subst.
Qed.

(** After its first statement, the detection leaves the processor and the
    environment alone: the processor it ends with is the reloaded one. *)
Lemma filter_precip_reloads (cp dp : PrecipFilter) (st : Run V DT) r st' :
  filter_precip linregress gt cp dp st = (r, st') ->
  self st' = reload st /\ env st' = env st.
Proof.
  intros E. unfold filter_precip in E.
  unfold io_bind at 1 in E. unfold io_get at 1 in E. cbv beta iota in E.
  unfold io_bind at 1 in E. cbn [set_self] in E.
  pose proof same_self_refl as Hr. pose proof same_self_trans as Ht.
  pose proof mark_same_self as Hm. pose proof slope_same_self as Hs.
  match type of E with
  | ?K ?s1 = _ => assert (Hk : preserves same_self K)
  end.
  { preserves_tac. }
  apply Hk in E. exact E.
Qed.

(** C9, as the specification words it: the zone masks in the two filters
    are the only effect of the detection; the volumes, the processor and
    the environment are afterwards what they were. *)
Definition only_zone_masks (cp dp : PrecipFilter) (st st' : Run V DT) : Prop :=
  iris_data st' = iris_data st /\ self st' = self st /\ env st' = env st /\
  forall l, l ≠ filter_3d cp -> l ≠ filter_3d dp -> arrays st' !! l = arrays st !! l.

(** C9, as the code has it.  Detection does not change the scan volumes:
    whatever it returns, the data of the CONVOL and DOPVOL volumes and the
    arrays that hold their masks are afterwards what they were before, and
    so is every boolean array of the store other than the two zone masks
    handed in.  The zone masks are not its only effect: the configuration
    of the processor is replaced by the one that the configuration file
    holds at the time of the call.  The other attributes of the processor
    and the environment are as before.  The masks of the volumes must not
    be the arrays of the two filters: an array shared with a filter is
    written through the filter. *)
Theorem detection_changes_zone_masks_and_configuration
    (convol_precip dopvol_precip : PrecipFilter) (st : Run V DT) r st' :
  (forall l, ma_mask (convol (iris_data st)) = Some l \/
             ma_mask (dopvol (iris_data st)) = Some l ->
             l ≠ filter_3d convol_precip /\ l ≠ filter_3d dopvol_precip) ->
  filter_precip linregress gt convol_precip dopvol_precip st = (r, st') ->
  iris_data st' = iris_data st /\
  mask_of (arrays st') (convol (iris_data st'))
    = mask_of (arrays st) (convol (iris_data st)) /\
  mask_of (arrays st') (dopvol (iris_data st'))
    = mask_of (arrays st) (dopvol (iris_data st)) /\
  (forall l, l ≠ filter_3d convol_precip -> l ≠ filter_3d dopvol_precip ->
             arrays st' !! l = arrays st !! l) /\
  env st' = env st /\
  self st' = reload st /\
  config (self st') = config_json (env st) /\
  (only_zone_masks convol_precip dopvol_precip st st'
   <-> config (self st) = config_json (env st)).
Proof.
  intros Hal E. destruct (filter_precip_frame _ _ _ _ _ E) as (Hd & _ & Hh).
  destruct (filter_precip_reloads _ _ _ _ _ E) as (Hs & He).
  split; [done|]. rewrite Hd. unfold mask_of.
  split; [|split; [|split; [done|]]].
  - destruct (ma_mask (convol (iris_data st))) as [l|] eqn:El; [|done].
    destruct (Hal l) as [? ?]; [by left|]. by apply Hh.
  - destruct (ma_mask (dopvol (iris_data st))) as [l|] eqn:El; [|done].
    destruct (Hal l) as [? ?]; [by right|]. by apply Hh.
  - split; [done|]. split; [done|]. split; [by rewrite Hs|].
    unfold only_zone_masks. rewrite Hs. split.
    + intros (_ & Hself & _). rewrite <- Hself. reflexivity.
    + intros Hc. split; [done|]. split; [|done].
      unfold reload. rewrite <- Hc. by destruct (self st).
Qed.

(** ** The slope of a zone *)

Definition zone_indices (ar gr x y : nat) : list (nat * nat) :=
  block_indices (x * ar) ((x + 1) * ar) (y * gr) ((y + 1) * gr).

Definition zone_slope (angles : list V) (data : Np.ndarray V)
    (mask : option (Np.ndarray bool)) (ar gr x y : nat) : res V :=
  let pairs := pooled_from 0 angles data mask (zone_indices ar gr x y) in
  linregress pairs.*1 pairs.*2.

Definition contaminated (angles : list V) (data : Np.ndarray V)
    (mask : option (Np.ndarray bool)) (max_slope : V) (ar gr x y : nat) : bool :=
  match zone_slope angles data mask ar gr x y with
  | Ok slope => gt slope max_slope
  | Raise _ => false
  end.

Lemma block_indices_bounds a0 a1 g0 g1 i j :
  (i, j) ∈ block_indices a0 a1 g0 g1 -> (i < a1)%nat /\ (j < g1)%nat.
Proof.
  unfold block_indices. rewrite list_elem_of_In, in_flat_map.
  intros (i' & Hi & Hin). apply in_flat_map in Hin as (j' & Hj & Hin).
  apply list_elem_of_In, list_elem_of_singleton in Hin as [= -> ->].
  apply list_elem_of_In, elem_of_seq in Hi, Hj. lia.
Qed.

Lemma zip_sample (data : Np.ndarray V) (mk : Np.ndarray bool) ne na ng x
    (idx : list (nat * nat)) :
  Np.shape data = [ne; na; ng] -> Np.wf data ->
  Np.shape mk = [ne; na; ng] -> Np.wf mk -> (x < ne)%nat ->
  (forall p, p ∈ idx -> (p.1 < na)%nat /\ (p.2 < ng)%nat) ->
  zip_with (fun v (b : bool) => if b then None else Some v)
    (omap (fun p : nat * nat => Np.get3 data x p.1 p.2) idx)
    (omap (fun p : nat * nat => Np.get3 mk x p.1 p.2) idx)
  = omap (fun p : nat * nat => sample data (Some mk) x p.1 p.2) idx.
Proof.
  intros Hs Hwf Hsk Hwk Hx Hidx.
  induction idx as [|[i j] idx IH]; [done|]. cbn [omap list_omap].
  destruct (Hidx (i, j)) as [Hi Hj]; [by left|]. cbn in Hi, Hj.
  destruct (get3_is_Some data ne na ng x i j) as [v Ev]; try done.
  destruct (get3_is_Some mk ne na ng x i j) as [b Eb]; try done.
  unfold sample at 1. cbn [fst snd]. rewrite Ev, Eb. cbn [zip_with].
  rewrite IH; [done|]. intros p Hp. apply Hidx. by right.
Qed.

Lemma fmap_sample (data : Np.ndarray V) x (idx : list (nat * nat)) :
  Some <$> omap (fun p : nat * nat => Np.get3 data x p.1 p.2) idx
  = omap (fun p : nat * nat => sample data None x p.1 p.2) idx.
Proof.
  induction idx as [|[i j] idx IH]; [done|]. cbn [omap list_omap].
  unfold sample at 1. cbn [fst snd].
  destruct (Np.get3 data x i j); cbn; by rewrite IH.
Qed.

Lemma zone_flat_spec (m : MaskedArray V) ne na ng x lo_a hi_a lo_g hi_g (st : Run V DT) :
  volume_ok (arrays st) m ne na ng -> (x < ne)%nat ->
  zone_flat m x lo_a hi_a lo_g hi_g st
  = (Ok (omap (fun p : nat * nat =>
                 sample (ma_data m) (mask_of (arrays st) m) x p.1 p.2)
           (block_indices (slice_bound na lo_a) (slice_bound na hi_a)
                          (slice_bound ng lo_g) (slice_bound ng hi_g))), st).
Proof.
  intros (Hs & Hwf & Hm) Hx. unfold zone_flat, io_bind, io_lift.
  rewrite (zone_cells_3d _ ne na ng) by done.
  unfold getmask, mask_of, deref, io_bind, io_ret.
  destruct (ma_mask m) as [l|] eqn:El.
  - destruct (Hm l eq_refl) as (mk & E & Hsk & Hwk). rewrite E.
    rewrite (zone_cells_3d _ ne na ng) by done.
    rewrite (zip_sample _ _ ne na ng); try done.
    intros [i j] Hp. apply block_indices_bounds in Hp.
    pose proof (slice_bound_le na hi_a). pose proof (slice_bound_le ng hi_g).
    cbn. lia.
  - by rewrite fmap_sample.
Qed.

Lemma pooled_fst (angle : V) (F : nat * nat -> option (option V)) (idx : list (nat * nat)) :
  (omap (fun p => pair angle <$> F p) idx).*1 = replicate (length (omap F idx)) angle.
Proof.
  induction idx as [|p idx IH]; [done|]. cbn. destruct (F p); cbn; by rewrite IH.
Qed.

Lemma pooled_snd (angle : V) (F : nat * nat -> option (option V)) (idx : list (nat * nat)) :
  (omap (fun p => pair angle <$> F p) idx).*2 = omap F idx.
Proof.
  induction idx as [|p idx IH]; [done|]. cbn. destruct (F p); cbn; by rewrite IH.
Qed.

Lemma gather_spec (angles : list V) ne na ng x0 lo_a hi_a lo_g hi_g (st : Run V DT) :
  volume_ok (arrays st) (convol (iris_data st)) ne na ng ->
  (x0 + length angles <= ne)%nat ->
  let pairs := pooled_from x0 angles (ma_data (convol (iris_data st)))
                 (mask_of (arrays st) (convol (iris_data st)))
                 (block_indices (slice_bound na lo_a) (slice_bound na hi_a)
                                (slice_bound ng lo_g) (slice_bound ng hi_g)) in
  gather angles x0 lo_a hi_a lo_g hi_g st = (Ok (pairs.*1, pairs.*2), st).
Proof.
  intros Hv. revert x0. induction angles as [|angle rest IH]; intros x0 Hx; [done|].
  cbn [gather length] in *. unfold io_bind at 1. cbn [io_get].
  unfold io_bind at 1. rewrite (zone_flat_spec _ ne na ng) by (done || lia).
  unfold io_bind at 1. rewrite IH by lia. cbn [io_ret].
  unfold pooled_from. cbn [length seq zip zip_with flat_map fst snd].
  rewrite !fmap_app, pooled_fst, pooled_snd. reflexivity.
Qed.

Lemma slice_bound_nat (n k : nat) : (k <= n)%nat -> slice_bound n (Z.of_nat k) = k.
Proof. intros H. unfold slice_bound. case_match; lia. Qed.

Lemma pooled_lengths x0 (angles : list V) data mask idx :
  length (pooled_from x0 angles data mask idx).*1
  = length (pooled_from x0 angles data mask idx).*2.
Proof. by rewrite !length_fmap. Qed.

Lemma determine_zone_slope_spec (st : Run V DT) (angles : list V) ar gr ne na ng x y :
  azim_region (precip (config (self st))) = Z.of_nat ar ->
  gate_region (precip (config (self st))) = Z.of_nat gr ->
  convol_angles (self st) = Some angles ->
  (length angles <= ne)%nat ->
  volume_ok (arrays st) (convol (iris_data st)) ne na ng ->
  ((x + 1) * ar <= na)%nat -> ((y + 1) * gr <= ng)%nat ->
  determine_zone_slope linregress (Z.of_nat x) (Z.of_nat y) st
  = (zone_slope angles (ma_data (convol (iris_data st)))
       (mask_of (arrays st) (convol (iris_data st))) ar gr x y, st).
Proof.
  intros Har Hgr Hang Hlen Hvol Hx Hy.
  unfold determine_zone_slope. unfold io_bind at 1. cbn [io_get].
  rewrite Har, Hgr, Hang. cbn [getattr]. unfold io_bind at 1. cbn [io_lift].
  unfold io_bind at 1. rewrite (gather_spec angles ne na ng) by (done || lia).
  cbn [fst snd]. rewrite pooled_lengths, Nat.eqb_refl. cbn [negb].
  unfold zone_slope, zone_indices, io_lift.
  replace (Z.of_nat x * Z.of_nat ar)%Z with (Z.of_nat (x * ar)) by lia.
  replace ((Z.of_nat x + 1) * Z.of_nat ar)%Z with (Z.of_nat ((x + 1) * ar)) by lia.
  replace (Z.of_nat y * Z.of_nat gr)%Z with (Z.of_nat (y * gr)) by lia.
  replace ((Z.of_nat y + 1) * Z.of_nat gr)%Z with (Z.of_nat ((y + 1) * gr)) by lia.
  rewrite !slice_bound_nat by lia. reflexivity.
Qed.

(** Membership of a cell in zone [(x, y)]. *)
Definition in_zone (ar gr : nat) (z : nat * nat) (i j : nat) : bool :=
  (z.1 * ar <=? i)%nat && (i <? (z.1 + 1) * ar)%nat &&
  (z.2 * gr <=? j)%nat && (j <? (z.2 + 1) * gr)%nat.

Lemma mark_spec (p : PrecipFilter) (a : Np.ndarray bool) ar gr n na ng x y (st : Run V DT) :
  arrays st !! filter_3d p = Some a ->
  Np.shape a = [n; na; ng] -> Np.wf a ->
  ((x + 1) * ar <= na)%nat -> ((y + 1) * gr <= ng)%nat ->
  exists a',
    mark p (Z.of_nat x * Z.of_nat ar) ((Z.of_nat x + 1) * Z.of_nat ar)
           (Z.of_nat y * Z.of_nat gr) ((Z.of_nat y + 1) * Z.of_nat gr) st
    = (Ok tt, mk_run (self st) (iris_data st) (<[filter_3d p := a']> (arrays st)) (env st)) /\
    Np.shape a' = [n; na; ng] /\ Np.wf a' /\
    forall e i j, (e < n)%nat -> (i < na)%nat -> (j < ng)%nat ->
      Np.get3 a' e i j = (fun b => b || in_zone ar gr (x, y) i j) <$> Np.get3 a e i j.
Proof.
  intros Ha Hs Hwf Hx Hy.
  destruct (set_block_spec a n na ng
              (Z.of_nat x * Z.of_nat ar) ((Z.of_nat x + 1) * Z.of_nat ar)
              (Z.of_nat y * Z.of_nat gr) ((Z.of_nat y + 1) * Z.of_nat gr) true Hs)
    as (a' & E & Hs' & Hl & Hget).
  exists a'. split; [|split; [congruence|split]].
  - unfold mark, io_bind, deref, io_lift, assign. rewrite Ha, E. reflexivity.
  - unfold Np.wf in *. rewrite Hs', Hl. done.
  - intros e i j He Hi Hj. rewrite (Hget e i j) by done.
    unfold in_block, in_zone. cbn [fst snd].
    replace (Z.of_nat x * Z.of_nat ar)%Z with (Z.of_nat (x * ar)) by lia.
    replace ((Z.of_nat x + 1) * Z.of_nat ar)%Z with (Z.of_nat ((x + 1) * ar)) by lia.
    replace (Z.of_nat y * Z.of_nat gr)%Z with (Z.of_nat (y * gr)) by lia.
    replace ((Z.of_nat y + 1) * Z.of_nat gr)%Z with (Z.of_nat ((y + 1) * gr)) by lia.
    rewrite !slice_bound_nat by lia.
    destruct (Np.get3 a e i j) as [b|]; cbn; [|by case_match].
    case_match; [by rewrite orb_true_r|by rewrite orb_false_r].
Qed.

(** ** The two loops of [filter_precip] *)

Definition hit (flag : nat -> nat -> bool) (ar gr : nat) (zones : list (nat * nat))
    (i j : nat) : bool :=
  existsb (fun z => flag z.1 z.2 && in_zone ar gr z i j) zones.

Lemma hit_snoc (flag : nat -> nat -> bool) (ar gr : nat) (zones : list (nat * nat))
    (z : nat * nat) (i j : nat) :
  hit flag ar gr (zones ++ [z])%list i j
  = hit flag ar gr zones i j || (flag z.1 z.2 && in_zone ar gr z i j).
Proof. unfold hit. rewrite existsb_app. cbn. by rewrite orb_false_r. Qed.

Definition painted (n na ng : nat) (f0 f : Np.ndarray bool) (h : nat -> nat -> bool) : Prop :=
  Np.shape f = [n; na; ng] /\ Np.wf f /\
  forall e i j, (e < n)%nat -> (i < na)%nat -> (j < ng)%nat ->
    Np.get3 f e i j = (fun b => b || h i j) <$> Np.get3 f0 e i j.

Definition all_zones (az gz : nat) : list (nat * nat) :=
  flat_map (fun x => pair x <$> seq 0 gz) (seq 0 az).

Lemma div_zone_bound (n r x : nat) :
  (0 < r)%nat -> (x < n / r)%nat -> ((x + 1) * r <= n)%nat.
Proof.
  intros Hr Hx. pose proof (Nat.Div0.mul_div_le n r).
  assert ((x + 1) * r <= (n / r) * r)%nat by (apply Nat.mul_le_mono_r; lia). lia.
Qed.

Lemma in_zone_iff (ar gr : nat) (z : nat * nat) (i j : nat) :
  (0 < ar)%nat -> (0 < gr)%nat ->
  in_zone ar gr z i j = true <-> z = ((i / ar)%nat, (j / gr)%nat).
Proof.
  intros Har Hgr. destruct z as [x y]. unfold in_zone. cbn [fst snd].
  rewrite !andb_true_iff, !Nat.leb_le, !Nat.ltb_lt. split.
  - intros [[[H1 H2] H3] H4]. f_equal.
    + apply (Nat.div_unique i ar x (i - x * ar)); lia.
    + apply (Nat.div_unique j gr y (j - y * gr)); lia.
  - intros [= -> ->].
    pose proof (Nat.Div0.mul_div_le i ar). pose proof (Nat.Div0.mul_div_le j gr).
    pose proof (Nat.mul_succ_div_gt i ar). pose proof (Nat.mul_succ_div_gt j gr).
    lia.
Qed.

Lemma hit_all_zones (flag : nat -> nat -> bool) (ar gr na ng i j : nat) :
  (0 < ar)%nat -> (0 < gr)%nat -> (i < na)%nat -> (j < ng)%nat ->
  (na mod ar = 0)%nat -> (ng mod gr = 0)%nat ->
  hit flag ar gr (all_zones (na / ar) (ng / gr)) i j = flag (i / ar)%nat (j / gr)%nat.
Proof.
  intros Har Hgr Hi Hj Hda Hdg. unfold hit.
  destruct (flag (i / ar)%nat (j / gr)%nat) eqn:Ef.
  - apply existsb_exists. exists ((i / ar)%nat, (j / gr)%nat). split.
    + unfold all_zones. apply in_flat_map. exists (i / ar)%nat. split.
      * apply list_elem_of_In, elem_of_seq. split; [lia|]. cbn.
        apply Nat.Div0.div_lt_upper_bound.
        rewrite (Nat.Div0.div_mod na ar) in Hi at 1. lia.
      * apply list_elem_of_In, list_elem_of_fmap. exists (j / gr)%nat. split; [done|].
        apply elem_of_seq. split; [lia|]. cbn.
        apply Nat.Div0.div_lt_upper_bound.
        rewrite (Nat.Div0.div_mod ng gr) in Hj at 1. lia.
    + cbn [fst snd]. rewrite Ef. cbn. by apply in_zone_iff.
  - apply not_true_is_false. intros H. apply existsb_exists in H as (z & _ & Hz).
    apply andb_true_iff in Hz as [Hf Hz]. apply in_zone_iff in Hz; [|done..].
    subst z. cbn in Hf. congruence.
Qed.

Lemma io_bind_get {A : Type} (k : Run V DT -> M A) s : io_bind io_get k s = k s s.
Proof. reflexivity. Qed.

(** What the loops have reached when the zones [zones] have been dealt
    with, started from the store [st1]. *)
Definition reached (st1 : Run V DT) (cp dp : PrecipFilter) (nc nd na ng : nat)
    (fc fd : Np.ndarray bool) (h : nat -> nat -> bool) (s : Run V DT) : Prop :=
  self s = self st1 /\ iris_data s = iris_data st1 /\
  (forall l, l ≠ filter_3d cp -> l ≠ filter_3d dp -> arrays s !! l = arrays st1 !! l) /\
  (exists f, arrays s !! filter_3d cp = Some f /\ painted nc na ng fc f h) /\
  (exists f, arrays s !! filter_3d dp = Some f /\ painted nd na ng fd f h).

Lemma painted_ext n na ng f0 f h h' :
  (forall i j, (i < na)%nat -> (j < ng)%nat -> h i j = h' i j) ->
  painted n na ng f0 f h -> painted n na ng f0 f h'.
Proof.
  intros E (Hs & Hw & Hg). split; [done|]. split; [done|].
  intros e i j He Hi Hj. rewrite Hg by done. by rewrite E.
Qed.

Lemma reached_ext st1 cp dp nc nd na ng fc fd h h' s :
  (forall i j, (i < na)%nat -> (j < ng)%nat -> h i j = h' i j) ->
  reached st1 cp dp nc nd na ng fc fd h s -> reached st1 cp dp nc nd na ng fc fd h' s.
Proof.
  intros E (H1 & H2 & H3 & (f & Hf & Pf) & (g & Hg & Pg)).
  repeat (split; [done|]). split.
  - exists f. split; [done|]. by eapply painted_ext.
  - exists g. split; [done|]. by eapply painted_ext.
Qed.

Lemma painted_mark n na ng f0 f f' h ar gr z :
  painted n na ng f0 f h ->
  Np.shape f' = [n; na; ng] -> Np.wf f' ->
  (forall e i j, (e < n)%nat -> (i < na)%nat -> (j < ng)%nat ->
     Np.get3 f' e i j = (fun b => b || in_zone ar gr z i j) <$> Np.get3 f e i j) ->
  painted n na ng f0 f' (fun i j => h i j || in_zone ar gr z i j).
Proof.
  intros (Hs & Hw & Hg) Hs' Hw' Hg'. split; [done|]. split; [done|].
  intros e i j He Hi Hj. rewrite Hg', Hg by done.
  destruct (Np.get3 f0 e i j); cbn; [|done]. by rewrite orb_assoc.
Qed.

Lemma painted_mark_twice n na ng f0 f f' h ar gr z :
  painted n na ng f0 f (fun i j => h i j || in_zone ar gr z i j) ->
  Np.shape f' = [n; na; ng] -> Np.wf f' ->
  (forall e i j, (e < n)%nat -> (i < na)%nat -> (j < ng)%nat ->
     Np.get3 f' e i j = (fun b => b || in_zone ar gr z i j) <$> Np.get3 f e i j) ->
  painted n na ng f0 f' (fun i j => h i j || in_zone ar gr z i j).
Proof.
  intros (Hs & Hw & Hg) Hs' Hw' Hg'. split; [done|]. split; [done|].
  intros e i j He Hi Hj. rewrite Hg', Hg by done.
  destruct (Np.get3 f0 e i j); cbn; [|done].
  f_equal. destruct b, (h i j), (in_zone ar gr z i j); reflexivity.
Qed.

Lemma painted_shape_eq n n' na ng f0 f0' f h h' :
  painted n na ng f0 f h -> painted n' na ng f0' f h' -> n = n'.
Proof. intros (Hs & _) (Hs' & _). congruence. Qed.

Lemma zone_step (st1 : Run V DT) (cp dp : PrecipFilter) (ar gr ne na ng nc nd : nat)
    (angles : list V) (fc fd : Np.ndarray bool) (max_slope slope : V)
    (h : nat -> nat -> bool) (x y : nat) (s : Run V DT) :
  azim_region (precip (config (self st1))) = Z.of_nat ar ->
  gate_region (precip (config (self st1))) = Z.of_nat gr ->
  convol_angles (self st1) = Some angles ->
  (length angles <= ne)%nat ->
  volume_ok (arrays st1) (convol (iris_data st1)) ne na ng ->
  (forall l, ma_mask (convol (iris_data st1)) = Some l ->
             l ≠ filter_3d cp /\ l ≠ filter_3d dp) ->
  ((x + 1) * ar <= na)%nat -> ((y + 1) * gr <= ng)%nat ->
  zone_slope angles (ma_data (convol (iris_data st1)))
    (mask_of (arrays st1) (convol (iris_data st1))) ar gr x y = Ok slope ->
  reached st1 cp dp nc nd na ng fc fd h s ->
  exists s',
    io_bind (determine_zone_slope linregress (Z.of_nat x) (Z.of_nat y))
      (fun slope =>
         if gt slope max_slope
         then io_bind
                (mark cp (Z.of_nat x * Z.of_nat ar) ((Z.of_nat x + 1) * Z.of_nat ar)
                         (Z.of_nat y * Z.of_nat gr) ((Z.of_nat y + 1) * Z.of_nat gr))
                (fun _ =>
                   mark dp (Z.of_nat x * Z.of_nat ar) ((Z.of_nat x + 1) * Z.of_nat ar)
                           (Z.of_nat y * Z.of_nat gr) ((Z.of_nat y + 1) * Z.of_nat gr))
         else io_ret tt) s
    = (Ok tt, s') /\
    reached st1 cp dp nc nd na ng fc fd
      (fun i j => h i j || (gt slope max_slope && in_zone ar gr (x, y) i j)) s'.
Proof.
  intros Har Hgr Hang Hlen Hvol Hal Hx Hy Hslope
    (Hself & Hiris & Hframe & (f & Hf & Pf) & (g & Hg & Pg)).
  assert (Hmask : mask_of (arrays s) (convol (iris_data s))
                  = mask_of (arrays st1) (convol (iris_data st1))).
  { rewrite Hiris. unfold mask_of.
    destruct (ma_mask (convol (iris_data st1))) as [l|] eqn:El; [|done].
    destruct (Hal l eq_refl). by apply Hframe. }
  assert (Hvol' : volume_ok (arrays s) (convol (iris_data s)) ne na ng).
  { rewrite Hiris. destruct Hvol as (? & ? & Hm). split; [done|]. split; [done|].
    intros l El. destruct (Hal l El). rewrite Hframe by done. by apply Hm. }
  unfold io_bind at 1.
  rewrite (determine_zone_slope_spec s angles ar gr ne na ng x y)
    by (done || congruence).
  rewrite Hmask, Hiris, Hslope.
  destruct (gt slope max_slope) eqn:Egt; cbn [andb].
  2:{ exists s. split; [done|].
      eapply reached_ext; [|by repeat (split; [done|]); split; eauto].
      intros i j _ _. cbn. by rewrite orb_false_r. }
  destruct Pf as (Hfs & Hfw & Hfg). destruct Pg as (Hgs & Hgw & Hgg).
  destruct (mark_spec cp f ar gr nc na ng x y s Hf Hfs Hfw Hx Hy)
    as (f' & E1 & Hs1 & Hw1 & Hg1).
  unfold io_bind at 1. rewrite E1.
  set (s1 := mk_run (self s) (iris_data s) (<[filter_3d cp := f']> (arrays s)) (env s)).
  assert (Pf' : painted nc na ng fc f' (fun i j => h i j || in_zone ar gr (x, y) i j)).
  { apply (painted_mark nc na ng fc f f'); done. }
  destruct (decide (filter_3d dp = filter_3d cp)) as [Heq|Hne].
  - assert (g = f) by congruence. subst g.
    assert (nd = nc) by congruence. subst nd.
    assert (Hf1 : arrays s1 !! filter_3d dp = Some f')
      by (rewrite Heq; apply lookup_insert_eq).
    destruct (mark_spec dp f' ar gr nc na ng x y s1 Hf1 Hs1 Hw1 Hx Hy)
      as (f'' & E2 & Hs2 & Hw2 & Hg2).
    rewrite E2. eexists. split; [reflexivity|]. subst s1. unfold reached. cbn [self iris_data arrays env].
    split; [done|]. split; [done|]. split.
    { intros l Hc Hd. rewrite !lookup_insert_ne by done. by apply Hframe. }
    assert (Pd : painted nc na ng fd f'' (fun i j => h i j || in_zone ar gr (x, y) i j)).
    { apply (painted_mark_twice nc na ng fd f' f''); try done.
      apply (painted_mark nc na ng fd f f'); done. }
    assert (Pc : painted nc na ng fc f'' (fun i j => h i j || in_zone ar gr (x, y) i j)).
    { apply (painted_mark_twice nc na ng fc f' f''); done. }
    split.
    + exists f''. split; [|done]. rewrite Heq. apply lookup_insert_eq.
    + exists f''. split; [|done]. apply lookup_insert_eq.
  - assert (Hg1' : arrays s1 !! filter_3d dp = Some g)
      by (cbn; rewrite lookup_insert_ne by done; done).
    destruct (mark_spec dp g ar gr nd na ng x y s1 Hg1' Hgs Hgw Hx Hy)
      as (g' & E2 & Hs2 & Hw2 & Hg2).
    rewrite E2. eexists. split; [reflexivity|]. subst s1. unfold reached. cbn [self iris_data arrays env].
    split; [done|]. split; [done|]. split.
    { intros l Hc Hd. rewrite !lookup_insert_ne by done. by apply Hframe. }
    split.
    + exists f'. split; [|done].
      rewrite lookup_insert_ne by done. apply lookup_insert_eq.
    + exists g'. split; [apply lookup_insert_eq|].
      apply (painted_mark nd na ng fd g g'); done.
Qed.

Lemma range_nat (n r : nat) :
  range (Z.of_nat n / Z.of_nat r) = Z.of_nat <$> seq 0 (n / r).
Proof. unfold range. by rewrite <- Nat2Z.inj_div, Nat2Z.id. Qed.

Lemma painted_start n na ng f :
  Np.shape f = [n; na; ng] -> Np.wf f -> painted n na ng f f (fun _ _ => false).
Proof.
  intros Hs Hw. split; [done|]. split; [done|]. intros e i j _ _ _.
  destruct (Np.get3 f e i j); cbn; [|done]. by rewrite orb_false_r.
Qed.

Lemma filter_precip_spec (st : Run V DT) (cp dp : PrecipFilter)
    (ar gr ne na ng nc nd : nat) (angles : list V) (fc fd : Np.ndarray bool) :
  azim_region (precip (config_json (env st))) = Z.of_nat ar ->
  gate_region (precip (config_json (env st))) = Z.of_nat gr ->
  (0 < ar)%nat -> (0 < gr)%nat ->
  azims (grid_info (self st)) = Z.of_nat na ->
  gates (grid_info (self st)) = Z.of_nat ng ->
  (na mod ar = 0)%nat -> (ng mod gr = 0)%nat ->
  convol_angles (self st) = Some angles ->
  (length angles <= ne)%nat ->
  volume_ok (arrays st) (convol (iris_data st)) ne na ng ->
  (forall l, ma_mask (convol (iris_data st)) = Some l ->
             l ≠ filter_3d cp /\ l ≠ filter_3d dp) ->
  arrays st !! filter_3d cp = Some fc -> Np.shape fc = [nc; na; ng] -> Np.wf fc ->
  arrays st !! filter_3d dp = Some fd -> Np.shape fd = [nd; na; ng] -> Np.wf fd ->
  (forall x y, (x < na / ar)%nat -> (y < ng / gr)%nat ->
     exists slope,
       zone_slope angles (ma_data (convol (iris_data st)))
         (mask_of (arrays st) (convol (iris_data st))) ar gr x y = Ok slope) ->
  exists st',
    filter_precip linregress gt cp dp st = (Ok tt, st') /\
    reached (mk_run (reload st) (iris_data st) (arrays st) (env st))
      cp dp nc nd na ng fc fd
      (fun i j =>
         contaminated angles (ma_data (convol (iris_data st)))
           (mask_of (arrays st) (convol (iris_data st)))
           (max_dbz_per_degree (precip (config_json (env st)))) ar gr
           (i / ar)%nat (j / gr)%nat) st'.
Proof.
  intros Har Hgr Hap Hgp Haz Hga Hda Hdg Hang Hlen Hvol Hal
    Hcf Hcs Hcw Hdf Hds Hdw Hreg.
  set (st1 := mk_run (reload st) (iris_data st) (arrays st) (env st)).
  set (flag := contaminated angles (ma_data (convol (iris_data st)))
                 (mask_of (arrays st) (convol (iris_data st)))
                 (max_dbz_per_degree (precip (config_json (env st)))) ar gr).
  unfold filter_precip. rewrite io_bind_get.
  unfold io_bind at 1. cbn [set_self]. fold (reload st). fold st1.
  rewrite io_bind_get. cbv zeta.
  change (self st1) with (reload st).
  cbn [reload config grid_info precip]. rewrite Har, Hgr, Haz, Hga.
  unfold mod_, floordiv.
  rewrite !(proj2 (Z.eqb_neq _ 0)) by lia.
  rewrite <- !Nat2Z.inj_mod, Hda, Hdg.
  unfold io_bind at 1. cbn [io_lift].
  change (Z.of_nat 0 =? 0)%Z with true. cbn [negb].
  unfold io_bind at 1. cbn [io_lift].
  change (Z.of_nat 0 =? 0)%Z with true. cbn [negb].
  unfold io_bind at 1. cbn [io_lift]. unfold io_bind at 1. cbn [io_lift].
  rewrite !range_nat, for_each_fmap.
  match goal with |- exists _, for_each _ ?body _ = _ /\ _ =>
    destruct (for_each_invariant (seq 0 (na / ar)) body
              (fun pre => reached st1 cp dp nc nd na ng fc fd
                            (hit flag ar gr (flat_map (fun x => pair x <$> seq 0 (ng / gr)) pre)))
              st1) as (st' & E & HI)
  end.
  - split; [done|]. split; [done|]. split; [done|]. split.
    + exists fc. split; [done|]. by apply painted_start.
    + exists fd. split; [done|]. by apply painted_start.
  - intros pre x post s Hl HI. cbv beta. rewrite for_each_fmap.
    assert (Hx : (x < na / ar)%nat).
    { assert (Hin : x ∈ seq 0 (na / ar))
        by (rewrite Hl; apply elem_of_app; right; left).
      apply elem_of_seq in Hin. lia. }
    match goal with |- exists _, for_each _ ?body _ = _ /\ _ =>
      destruct (for_each_invariant (seq 0 (ng / gr)) body
                (fun pre_y => reached st1 cp dp nc nd na ng fc fd
                   (hit flag ar gr
                      (flat_map (fun x => pair x <$> seq 0 (ng / gr)) pre
                       ++ (pair x <$> pre_y))%list))
                s) as (s' & E & HI')
    end.
    + by rewrite app_nil_r.
    + intros pre_y y post_y s0 Hly HI0.
      assert (Hy : (y < ng / gr)%nat).
      { assert (Hin : y ∈ seq 0 (ng / gr))
          by (rewrite Hly; apply elem_of_app; right; left).
        apply elem_of_seq in Hin. lia. }
      destruct (Hreg x y Hx Hy) as (slope & Hslope).
      destruct (zone_step st1 cp dp ar gr ne na ng nc nd angles fc fd
                  (max_dbz_per_degree (precip (config_json (env st)))) slope
                  _ x y s0 Har Hgr Hang Hlen Hvol Hal
                  (div_zone_bound na ar x Hap Hx) (div_zone_bound ng gr y Hgp Hy)
                  Hslope HI0) as (s1 & E1 & HI1).
      exists s1. split; [exact E1|].
      eapply reached_ext; [|exact HI1].
      intros i j _ _. cbn beta.
      rewrite fmap_app, app_assoc. cbn [fmap list_fmap]. rewrite hit_snoc.
      cbn [fst snd]. f_equal. f_equal.
      unfold flag, contaminated. by rewrite Hslope.
    + exists s'. split; [exact E|].
      rewrite flat_map_app. cbn [flat_map]. by rewrite app_nil_r.
  - exists st'. split; [exact E|].
    eapply reached_ext; [|exact HI].
    intros i j Hi Hj. by apply hit_all_zones.
Qed.

End Detect.

(** ** Broadcasting keeps arrays well formed *)

(** [src], of as many axes as [out], stretches to [out]: each extent is that
    of [out], or 1. *)
Definition stretches (out src : list nat) : Prop :=
  Forall2 (fun n m => m = n \/ m = 1%nat) out src.

Lemma concat_replicate_length {A : Type} (n : nat) (l : list A) :
  length (concat (replicate n l)) = (n * length l)%nat.
Proof. induction n as [|n IH]; cbn; [done|]. rewrite length_app, IH. lia. Qed.

Lemma concat_length_uniform {A : Type} (ls : list (list A)) (k : nat) :
  Forall (fun l => length l = k) ls -> length (concat ls) = (length ls * k)%nat.
Proof.
  induction 1 as [|l ls Hl _ IH]; cbn; [done|]. rewrite length_app, IH, Hl. lia.
Qed.

Lemma stretch_length {A : Type} (out src : list nat) (d : list A) :
  stretches out src -> length d = Np.size_of src ->
  length (Np.stretch out src d) = Np.size_of out.
Proof.
  intros H. revert d. induction H as [|n m out src Hnm _ IH]; intros d Hd; [done|].
  cbn [Np.stretch Np.size_of foldr] in *.
  destruct (Nat.eqb_spec m n) as [-> | Hne].
  - rewrite (concat_length_uniform _ (Np.size_of out)).
    + by rewrite length_fmap, NpFacts.chunks_length.
    + apply Forall_fmap. eapply Forall_impl; [by apply NpFacts.chunks_Forall|].
      intros c Hc. by apply IH.
  - destruct Hnm as [? | ->]; [done|].
    rewrite concat_replicate_length, IH; [done|]. unfold Np.size_of. lia.
Qed.

Lemma stretches_ones (r : list nat) : stretches r (replicate (length r) 1%nat).
Proof. induction r; constructor; auto. Qed.

Lemma stretches_refl (r : list nat) : stretches r r.
Proof. induction r; constructor; auto. Qed.

Lemma broadcast_rev_stretches (s t r : list nat) :
  Np.broadcast_rev s t = Some r ->
  (length s <= length r)%nat /\ (length t <= length r)%nat /\
  stretches r (s ++ replicate (length r - length s) 1%nat) /\
  stretches r (t ++ replicate (length r - length t) 1%nat).
Proof.
  revert t r. induction s as [|m s IH]; intros t r.
  - cbn. intros [= <-]. rewrite Nat.sub_diag, app_nil_r, Nat.sub_0_r.
    split; [lia|]. split; [done|]. split; [apply stretches_ones|apply stretches_refl].
  - destruct t as [|n t].
    + cbn. intros [= <-]. cbn [length]. rewrite Nat.sub_diag, app_nil_r, Nat.sub_0_r.
      split; [done|]. split; [lia|].
      split; [apply stretches_refl|apply (stretches_ones (cons m s))].
    + cbn [Np.broadcast_rev].
      destruct (Np.broadcast_rev s t) as [r'|] eqn:E; [|done].
      destruct (IH t r' E) as (H1 & H2 & H3 & H4).
      intros Hr.
      assert (Hcase : exists k, r = k :: r' /\ (m = k \/ m = 1%nat) /\ (n = k \/ n = 1%nat)).
      { destruct (Nat.eqb_spec m n) as [-> | ?];
          [injection Hr as <-; by eauto 10|].
        destruct (Nat.eqb_spec m 1) as [-> | ?];
          [injection Hr as <-; by eauto 10|].
        destruct (Nat.eqb_spec n 1) as [-> | ?];
          [injection Hr as <-; by eauto 10|done]. }
      destruct Hcase as (k & -> & Hm & Hn). cbn [length].
      split; [lia|]. split; [lia|].
      split; (constructor; [done|]); cbn [Nat.sub]; done.
Qed.

Lemma broadcast_cells_length {A : Type} (a : Np.ndarray A) (t s : list nat) :
  Np.wf a -> Np.broadcast_shapes (Np.shape a) t = Some s \/
             Np.broadcast_shapes t (Np.shape a) = Some s ->
  length (Np.broadcast_cells s a) = Np.size_of s.
Proof.
  intros Hwf Hb. unfold Np.broadcast_cells.
  assert (Hst : (Np.ndim a <= length s)%nat /\
                stretches s (replicate (length s - Np.ndim a) 1%nat ++ Np.shape a)).
  { unfold Np.broadcast_shapes, Np.ndim in *.
    destruct Hb as [Hb|Hb];
      (destruct (Np.broadcast_rev _ _) as [r|] eqn:E; [|done]);
      injection Hb as <-;
      apply broadcast_rev_stretches in E as (H1 & H2 & H3 & H4);
      rewrite length_reverse in *.
    - split; [lia|]. apply Forall2_reverse in H3.
      by rewrite reverse_app, reverse_replicate, reverse_involutive in H3.
    - split; [lia|]. apply Forall2_reverse in H4.
      by rewrite reverse_app, reverse_replicate, reverse_involutive in H4. }
  destruct Hst as [Hn Hst]. apply stretch_length; [done|].
  unfold Np.size_of. rewrite foldr_app. fold (Np.size_of (Np.shape a)).
  rewrite Hwf. clear. induction (length s - Np.ndim a)%nat as [|k IH]; cbn; lia.
Qed.

Lemma logical_or_wf (a b c : Np.ndarray bool) :
  Np.wf a -> Np.wf b -> Np.logical_or a b = Ok c -> Np.wf c.
Proof.
  intros Ha Hb. unfold Np.logical_or.
  destruct (Np.broadcast_shapes (Np.shape a) (Np.shape b)) as [s|] eqn:E; [|done].
  intros [= <-]. unfold Np.wf. cbn [Np.flat Np.shape].
  rewrite length_zip_with.
  rewrite (broadcast_cells_length a (Np.shape b) s) by eauto.
  rewrite (broadcast_cells_length b (Np.shape a) s) by eauto. lia.
Qed.

(** ** Masks of masked arrays *)

(** Cell [k], in row-major order, of a boolean array; of a mask that may be
    [nomask]; of the mask of a masked array. *)
Definition cell_of (a : Np.ndarray bool) (k : nat) : bool :=
  default false (Np.flat a !! k).

Definition cell_opt (o : option (Np.ndarray bool)) (k : nat) : bool :=
  match o with
  | Some a => cell_of a k
  | None => false
  end.

Lemma cell_of_zip (a b : list bool) (k : nat) :
  length a = length b ->
  default false (zip_with orb a b !! k)
  = default false (a !! k) || default false (b !! k).
Proof.
  intros Hl. rewrite lookup_zip_with.
  destruct (a !! k) as [x|] eqn:Ea; cbn.
  - destruct (lookup_lt_is_Some_2 b k) as [y ->]; [|done].
    apply lookup_lt_Some in Ea. lia.
  - rewrite (lookup_ge_None_2 b k); [done|].
    apply lookup_ge_None in Ea. lia.
Qed.

Lemma any_false_cells (a : Np.ndarray bool) (k : nat) :
  Np.any a = false -> cell_of a k = false.
Proof.
  unfold Np.any, cell_of. intros H.
  destruct (Np.flat a !! k) as [[|]|] eqn:E; cbn; try done.
  assert (Hex : existsb id (Np.flat a) = true); [|congruence].
  apply existsb_exists. exists true. split; [|done].
  apply list_elem_of_In. by eapply list_elem_of_lookup_2.
Qed.

Section Fusion.
Context {V DT : Type}.

Abbreviation M := (io (Run V DT)).

Definition masked (h : heap) (m : MaskedArray V) (k : nat) : bool :=
  cell_opt (mask_of h m) k.

(** The representation invariant of a masked array: its mask, if any, is
    an array of the store, of the shape of the data. *)
Definition mask_ok (h : heap) (m : MaskedArray V) : Prop :=
  forall l, ma_mask m = Some l ->
    exists mk, h !! l = Some mk /\ Np.shape mk = Np.shape (ma_data m) /\ Np.wf mk.

Definition wf_opt (o : option (Np.ndarray bool)) : Prop :=
  forall m, o = Some m -> Np.wf m.

Lemma getmask_spec (x : MaskedArray V) (st : Run V DT) :
  mask_ok (arrays st) x ->
  getmask x st = (Ok (mask_of (arrays st) x), st).
Proof.
  intros Hok. unfold getmask, mask_of.
  destruct (ma_mask x) as [l|] eqn:El; [|done].
  destruct (Hok l El) as (mk & E & _). unfold io_bind, deref. by rewrite E.
Qed.

Lemma shrink_cells (m : Np.ndarray bool) (k : nat) :
  cell_opt (shrink m) k = cell_of m k.
Proof.
  unfold shrink. destruct (Np.any m) eqn:E; [done|]. cbn.
  symmetry. by apply any_false_cells.
Qed.

Lemma shrink_wf (m : Np.ndarray bool) : Np.wf m -> wf_opt (shrink m).
Proof. intros H m'. unfold shrink. case_match; [|done]. by intros [= <-]. Qed.

Lemma mask_or_wf (m1 : Np.ndarray bool) (m2 j : option (Np.ndarray bool)) :
  Np.wf m1 -> wf_opt m2 -> mask_or m1 m2 = Ok j -> wf_opt j.
Proof.
  intros H1 H2. unfold mask_or. destruct m2 as [m2|].
  - destruct (Np.logical_or m1 m2) as [r|] eqn:E; [|done]. cbn. intros [= <-].
    apply shrink_wf. eapply logical_or_wf; [done|by apply H2|done].
  - intros [= <-]. by apply shrink_wf.
Qed.

(** With a mask of the shape of [m1], or none, [mask_or] returns their
    union. *)
Lemma mask_or_union (m1 : Np.ndarray bool) (m2 : option (Np.ndarray bool)) :
  Np.wf m1 -> wf_opt m2 ->
  (forall m, m2 = Some m -> Np.shape m = Np.shape m1) ->
  exists j, mask_or m1 m2 = Ok j /\
    (forall m, j = Some m -> Np.shape m = Np.shape m1) /\
    forall k, cell_opt j k = cell_of m1 k || cell_opt m2 k.
Proof.
  intros H1 H2 Hs. unfold mask_or. destruct m2 as [m2|].
  - rewrite NpFacts.logical_or_same_shape; [|done|by apply H2|by rewrite (Hs m2)].
    cbn [bind]. eexists. split; [reflexivity|]. split.
    + unfold shrink. intros m. case_match; [|done]. by intros [= <-].
    + intros k. rewrite shrink_cells. unfold cell_of at 1. cbn [Np.flat cell_opt].
      apply cell_of_zip. rewrite H1, (H2 m2 eq_refl), (Hs m2 eq_refl). done.
  - eexists. split; [reflexivity|]. split.
    + unfold shrink. intros m. case_match; [|done]. by intros [= <-].
    + intros k. rewrite shrink_cells. cbn. by rewrite orb_false_r.
Qed.

(** What [ma_array] leaves as it was. *)
Definition extends (s s' : Run V DT) : Prop :=
  self s' = self s /\ iris_data s' = iris_data s /\ env s' = env s /\
  forall l a, arrays s !! l = Some a -> arrays s' !! l = Some a.

Lemma extends_refl s : extends s s.
Proof. done. Qed.

Lemma extends_trans s1 s2 s3 : extends s1 s2 -> extends s2 s3 -> extends s1 s3.
Proof.
  intros (H1 & H2 & H3 & H4) (K1 & K2 & K3 & K4).
  repeat split; try congruence. intros l a Hl. by apply K4, H4.
Qed.

Lemma alloc_spec (a : Np.ndarray bool) (st : Run V DT) :
  exists l, alloc a st = (Ok l, mk_run (self st) (iris_data st)
                                  (<[l := a]> (arrays st)) (env st)) /\
            arrays st !! l = None.
Proof.
  eexists. split; [reflexivity|]. apply not_elem_of_dom, is_fresh.
Qed.

Lemma extends_alloc (a : Np.ndarray bool) (l : loc) (st : Run V DT) :
  arrays st !! l = None ->
  extends st (mk_run (self st) (iris_data st) (<[l := a]> (arrays st)) (env st)).
Proof.
  intros Hl. repeat split; try done. cbn. intros l' a' Hl'.
  rewrite lookup_insert_ne; [done|]. congruence.
Qed.

Lemma masked_extends (x : MaskedArray V) (s s' : Run V DT) k :
  mask_ok (arrays s) x -> extends s s' ->
  masked (arrays s') x k = masked (arrays s) x k.
Proof.
  intros Hok (_ & _ & _ & He). unfold masked, mask_of.
  destruct (ma_mask x) as [l|] eqn:El; [|done].
  destruct (Hok l El) as (mk & E & _). by rewrite E, (He l mk E).
Qed.

Lemma mask_ok_extends (x : MaskedArray V) (s s' : Run V DT) :
  mask_ok (arrays s) x -> extends s s' -> mask_ok (arrays s') x.
Proof.
  intros Hok (_ & _ & _ & He) l El.
  destruct (Hok l El) as (mk & E & ? & ?). exists mk. split; [by apply He|done].
Qed.

(** The second half of [ma_array]: a mask [m] of the shape of the data is
    joined to the mask that [x] has. *)
Lemma ma_array_join (x : MaskedArray V) (m : Np.ndarray bool) (st : Run V DT) :
  mask_ok (arrays st) x -> Np.wf m -> Np.shape m = Np.shape (ma_data x) ->
  exists x' st',
    io_bind (getmask x)
      (fun old =>
         match old with
         | None => io_bind (alloc m) (fun l => io_ret (mk_ma (ma_data x) (Some l)))
         | Some o =>
             io_bind (io_lift (Np.logical_or m o))
               (fun r => io_bind (alloc r)
                           (fun l => io_ret (mk_ma (ma_data x) (Some l))))
         end) st = (Ok x', st') /\
    extends st st' /\ ma_data x' = ma_data x /\ mask_ok (arrays st') x' /\
    forall k, masked (arrays st') x' k = cell_of m k || masked (arrays st) x k.
Proof.
  intros Hok Hwf Hs. unfold io_bind at 1. rewrite getmask_spec by done.
  unfold masked at 2. unfold mask_of at 1 2.
  destruct (ma_mask x) as [lo|] eqn:El.
  - destruct (Hok lo El) as (o & Eo & Hso & Hwo). rewrite Eo.
    rewrite NpFacts.logical_or_same_shape by (done || congruence).
    unfold io_bind at 1. cbn [io_lift].
    set (r := Np.mk_ndarray _ _).
    destruct (alloc_spec r st) as (l & E & Hl). unfold io_bind. rewrite E. cbn [io_ret].
    do 2 eexists. split; [reflexivity|]. split; [by apply extends_alloc|].
    split; [done|]. split.
    + intros l' [= <-]. exists r. cbn. rewrite lookup_insert_eq.
      split; [done|]. split; [done|]. unfold Np.wf, r. cbn [Np.flat Np.shape].
      rewrite length_zip_with, Hwf, Hwo, Hso, Hs. lia.
    + intros k. unfold masked, mask_of. cbn. rewrite lookup_insert_eq. cbn.
      unfold cell_of, r. cbn. apply cell_of_zip. rewrite Hwf, Hwo, Hso, Hs. done.
  - destruct (alloc_spec m st) as (l & E & Hl). unfold io_bind. rewrite E. cbn [io_ret].
    do 2 eexists. split; [reflexivity|]. split; [by apply extends_alloc|].
    split; [done|]. split.
    + intros l' [= <-]. exists m. cbn. by rewrite lookup_insert_eq.
    + intros k. unfold masked, mask_of. cbn. rewrite lookup_insert_eq. cbn.
      by rewrite orb_false_r.
Qed.

Lemma ma_array_spec (x : MaskedArray V) (mask : option (Np.ndarray bool)) (st : Run V DT) :
  mask_ok (arrays st) x -> wf_opt mask ->
  exists r st',
    ma_array x mask st = (r, st') /\ extends st st' /\
    match r with
    | Raise _ => st' = st /\ exists m, mask = Some m /\ Np.shape m ≠ Np.shape (ma_data x)
    | Ok x' =>
        ma_data x' = ma_data x /\ mask_ok (arrays st') x' /\
        (forall k, masked (arrays st) x k = true -> masked (arrays st') x' k = true) /\
        ((forall m, mask = Some m -> Np.shape m = Np.shape (ma_data x)) ->
         forall k, masked (arrays st') x' k = cell_opt mask k || masked (arrays st) x k)
    end.
Proof.
  intros Hok Hwf. unfold ma_array. destruct mask as [m|].
  2:{ exists (Ok x), st. split; [done|]. split; [done|]. repeat split; done. }
  specialize (Hwf m eq_refl).
  assert (Hjoin : forall m', Np.wf m' -> Np.shape m' = Np.shape (ma_data x) ->
            (Np.shape m = Np.shape (ma_data x) -> m' = m) ->
            exists r st',
              io_bind (io_lift (Ok m'))
                (fun m0 => io_bind (getmask x)
                   (fun old =>
                      match old with
                      | None => io_bind (alloc m0)
                                  (fun l => io_ret (mk_ma (ma_data x) (Some l)))
                      | Some o =>
                          io_bind (io_lift (Np.logical_or m0 o))
                            (fun r => io_bind (alloc r)
                               (fun l => io_ret (mk_ma (ma_data x) (Some l))))
                      end)) st = (r, st') /\ extends st st' /\
              match r with
              | Raise _ => st' = st /\
                  exists m0, Some m = Some m0 /\ Np.shape m0 ≠ Np.shape (ma_data x)
              | Ok x' =>
                  ma_data x' = ma_data x /\ mask_ok (arrays st') x' /\
                  (forall k, masked (arrays st) x k = true ->
                             masked (arrays st') x' k = true) /\
                  ((forall m0, Some m = Some m0 -> Np.shape m0 = Np.shape (ma_data x)) ->
                   forall k, masked (arrays st') x' k
                             = cell_opt (Some m) k || masked (arrays st) x k)
              end).
  { intros m' Hw' Hs' Hsame.
    destruct (ma_array_join x m' st Hok Hw' Hs') as (x' & st' & E & He & Hd & Hok' & Hc).
    exists (Ok x'), st'. split; [exact E|]. split; [done|].
    split; [done|]. split; [done|]. split.
    - intros k Hk. rewrite Hc, Hk. apply orb_true_r.
    - intros Hm k. rewrite Hc. by rewrite (Hsame (Hm m eq_refl)). }
  case_bool_decide as Hs.
  { apply Hjoin; done. }
  destruct (Np.size m =? 1)%nat.
  { apply Hjoin; [apply NpFacts.full_wf|done|done]. }
  destruct (Nat.eqb_spec (Np.size m) (Np.size (ma_data x))) as [Hsz|Hsz].
  { apply Hjoin; [|done|done]. unfold Np.wf. cbn. by rewrite Hwf. }
  exists (Raise (MaskError "Mask and data not compatible")), st.
  split; [done|]. split; [done|]. split; [done|]. by exists m.
Qed.

(** What a call of [impose_filter] guarantees, however it ends. *)
Definition fused (st st' : Run V DT) : Prop :=
  self st' = self st /\ env st' = env st /\
  (forall l a, arrays st !! l = Some a -> arrays st' !! l = Some a) /\
  ma_data (convol (iris_data st')) = ma_data (convol (iris_data st)) /\
  ma_data (dopvol (iris_data st')) = ma_data (dopvol (iris_data st)) /\
  mask_ok (arrays st') (convol (iris_data st')) /\
  mask_ok (arrays st') (dopvol (iris_data st')) /\
  (forall k, masked (arrays st) (convol (iris_data st)) k = true ->
             masked (arrays st') (convol (iris_data st')) k = true) /\
  (forall k, masked (arrays st) (dopvol (iris_data st)) k = true ->
             masked (arrays st') (dopvol (iris_data st')) k = true).

Lemma fused_refl (st : Run V DT) :
  mask_ok (arrays st) (convol (iris_data st)) ->
  mask_ok (arrays st) (dopvol (iris_data st)) -> fused st st.
Proof. intros. repeat split; done. Qed.

Lemma impose_filter_spec (np_convol np_dopvol : Np.ndarray bool) (st : Run V DT) :
  Np.wf np_convol -> Np.wf np_dopvol ->
  mask_ok (arrays st) (convol (iris_data st)) ->
  mask_ok (arrays st) (dopvol (iris_data st)) ->
  exists r st',
    impose_filter np_convol np_dopvol st = (r, st') /\ fused st st' /\
    (Np.shape np_convol = Np.shape (ma_data (convol (iris_data st))) ->
     Np.shape np_dopvol = Np.shape (ma_data (dopvol (iris_data st))) ->
     r = Ok tt /\
     forall k,
       masked (arrays st') (convol (iris_data st')) k
       = cell_of np_convol k || masked (arrays st) (convol (iris_data st)) k /\
       masked (arrays st') (dopvol (iris_data st')) k
       = cell_of np_dopvol k || masked (arrays st) (dopvol (iris_data st)) k).
Proof.
  intros Hwc Hwd Hokc Hokd.
  assert (Hrawc : wf_opt (mask_of (arrays st) (convol (iris_data st)))).
  { intros m. unfold mask_of. destruct (ma_mask _) as [l|] eqn:El; [|done].
    destruct (Hokc l El) as (mk & -> & _ & ?). by intros [= <-]. }
  assert (Hrawd : wf_opt (mask_of (arrays st) (dopvol (iris_data st)))).
  { intros m. unfold mask_of. destruct (ma_mask _) as [l|] eqn:El; [|done].
    destruct (Hokd l El) as (mk & -> & _ & ?). by intros [= <-]. }
  assert (Hshc : forall m, mask_of (arrays st) (convol (iris_data st)) = Some m ->
                   Np.shape m = Np.shape (ma_data (convol (iris_data st)))).
  { intros m. unfold mask_of. destruct (ma_mask _) as [l|] eqn:El; [|done].
    destruct (Hokc l El) as (mk & -> & ? & _). by intros [= <-]. }
  assert (Hshd : forall m, mask_of (arrays st) (dopvol (iris_data st)) = Some m ->
                   Np.shape m = Np.shape (ma_data (dopvol (iris_data st)))).
  { intros m. unfold mask_of. destruct (ma_mask _) as [l|] eqn:El; [|done].
    destruct (Hokd l El) as (mk & -> & ? & _). by intros [= <-]. }
  unfold impose_filter. rewrite io_bind_get.
  unfold io_bind at 1. rewrite getmask_spec by done.
  unfold io_bind at 1. rewrite getmask_spec by done.
  unfold io_bind at 1. cbn [io_lift].
  destruct (mask_or np_dopvol _) as [dmask|e] eqn:Ed.
  2:{ exists (Raise e), st. split; [done|]. split; [by apply fused_refl|].
      intros _ Hs. exfalso.
      destruct (mask_or_union np_dopvol _ Hwd Hrawd) as (j & Ej & _).
      - intros m Hm. rewrite Hs. by apply Hshd.
      - congruence. }
  unfold io_bind at 1. cbn [io_lift].
  destruct (mask_or np_convol _) as [cmask|e] eqn:Ec.
  2:{ exists (Raise e), st. split; [done|]. split; [by apply fused_refl|].
      intros Hs _. exfalso.
      destruct (mask_or_union np_convol _ Hwc Hrawc) as (j & Ej & _).
      - intros m Hm. rewrite Hs. by apply Hshc.
      - congruence. }
  pose proof (mask_or_wf _ _ _ Hwd Hrawd Ed) as Hwdm.
  pose proof (mask_or_wf _ _ _ Hwc Hrawc Ec) as Hwcm.
  destruct (ma_array_spec (dopvol (iris_data st)) dmask st Hokd Hwdm)
    as (r1 & st1 & E1 & Hx1 & Hr1).
  unfold io_bind at 1. rewrite E1.
  destruct r1 as [d|e1].
  2:{ destruct Hr1 as (-> & m & -> & Hne).
      exists (Raise e1), st. split; [done|]. split; [by apply fused_refl|].
      intros _ Hs. exfalso.
      destruct (mask_or_union np_dopvol _ Hwd Hrawd) as (j & Ej & Hj & _).
      - intros m' Hm. rewrite Hs. by apply Hshd.
      - rewrite Ed in Ej. injection Ej as <-. apply Hne.
        rewrite (Hj m eq_refl). done. }
  destruct Hr1 as (Hd1 & Hokd1 & Hmono1 & Hun1).
  destruct Hx1 as (Hself1 & Hiris1 & Henv1 & Hext1).
  rewrite io_bind_get. unfold io_bind at 1. cbn [set_iris_data].
  rewrite io_bind_get. cbn [iris_data convol]. rewrite Hiris1.
  set (st2 := mk_run (self st1) (mk_iris_data (convol (iris_data st)) d)
                (arrays st1) (env st1)).
  assert (Hokc2 : mask_ok (arrays st2) (convol (iris_data st))).
  { intros l El. destruct (Hokc l El) as (mk & E & ? & ?).
    exists mk. split; [by apply Hext1|done]. }
  destruct (ma_array_spec (convol (iris_data st)) cmask st2 Hokc2 Hwcm)
    as (r2 & st3 & E2 & Hx2 & Hr2).
  unfold io_bind at 1. rewrite E2.
  assert (Hmc1 : forall k, masked (arrays st1) (convol (iris_data st)) k
                           = masked (arrays st) (convol (iris_data st)) k).
  { intros k. unfold masked, mask_of.
    destruct (ma_mask (convol (iris_data st))) as [l|] eqn:El; [|done].
    destruct (Hokc l El) as (mk & E & _). by rewrite E, (Hext1 l mk E). }
  destruct r2 as [c|e2].
  2:{ destruct Hr2 as (-> & m & -> & Hne).
      exists (Raise e2), st2. split; [done|]. split.
      - unfold fused, st2. cbn [self iris_data arrays env convol dopvol].
        repeat split; try done.
        intros k Hk. by rewrite Hmc1.
      - intros Hs _. exfalso.
        destruct (mask_or_union np_convol _ Hwc Hrawc) as (j & Ej & Hj & _).
        + intros m' Hm. rewrite Hs. by apply Hshc.
        + rewrite Ec in Ej. injection Ej as <-. apply Hne.
          rewrite (Hj m eq_refl). done. }
  destruct Hr2 as (Hd2 & Hokc3 & Hmono2 & Hun2).
  destruct Hx2 as (Hself2 & Hiris2 & Henv2 & Hext2).
  rewrite io_bind_get. unfold io_bind at 1. cbn [set_iris_data].
  rewrite io_bind_get. cbn [iris_data convol dopvol]. rewrite Hiris2.
  cbn [st2 iris_data dopvol]. rewrite Hd1, Hd2.
  rewrite !bool_decide_eq_true_2 by done. cbn [negb io_ret].
  assert (Hmd3 : forall k, masked (arrays st3) d k = masked (arrays st1) d k).
  { intros k. apply (masked_extends d st2 st3); [done|].
    repeat split; done. }
  eexists _, _. split; [reflexivity|]. split.
  - unfold fused. cbn [self iris_data arrays env convol dopvol].
    split; [by rewrite Hself2|]. split; [by rewrite Henv2|].
    split; [intros l a Hl; by apply Hext2, Hext1|].
    split; [done|]. split; [done|]. split; [done|].
    split; [by apply (mask_ok_extends d st2 st3); [|repeat split]|].
    split.
    + intros k Hk. apply Hmono2. by rewrite Hmc1.
    + intros k Hk. rewrite Hmd3. by apply Hmono1.
  - intros Hsc Hsd. split; [done|]. intros k. cbn [iris_data arrays convol dopvol].
    destruct (mask_or_union np_convol _ Hwc Hrawc) as (jc & Ejc & Hjc & Hcc).
    { intros m' Hm. rewrite Hsc. by apply Hshc. }
    destruct (mask_or_union np_dopvol _ Hwd Hrawd) as (jd & Ejd & Hjd & Hcd).
    { intros m' Hm. rewrite Hsd. by apply Hshd. }
    rewrite Ec in Ejc. injection Ejc as <-. rewrite Ed in Ejd. injection Ejd as <-.
    split.
    + rewrite Hun2 by (intros m Hm; rewrite (Hjc m Hm); done).
      rewrite Hcc, Hmc1. unfold masked.
      destruct (cell_of np_convol k), (cell_opt _ k); reflexivity.
    + rewrite Hmd3. rewrite Hun1 by (intros m Hm; rewrite (Hjd m Hm); done).
      rewrite Hcd. unfold masked.
      destruct (cell_of np_dopvol k), (cell_opt _ k); reflexivity.
Qed.

End Fusion.

(** ** Calibration *)

Section Calibration.
Context {V DT : Type}.






(** The two verifications, in the order in which [IrisProcessor.__init__]
    runs them. *)
Definition calibration_checks (self : Processor V DT) : res unit :=
  _ <- verify_universal_calib self ;;
  verify_specific_calib self.






End Calibration.

(** ** The claims on detection *)

Lemma get3_full {A : Type} (n na ng e i j : nat) (x : A) :
  (e < n)%nat -> (i < na)%nat -> (j < ng)%nat ->
  Np.get3 (Np.full [n; na; ng] x) e i j = Some x.
Proof.
  intros He Hi Hj. rewrite (get3_lookup _ n na ng) by done.
  cbn [Np.full Np.flat]. apply lookup_replicate_2. cbn [Np.size_of foldr].
  by apply offset_bound.
Qed.

Section Claims.
Context {V DT : Type}.
Variable linregress : list V -> list (option V) -> res V.
Variable gt : V -> V -> bool.

(** The preconditions of the detection, on a store [st] and two filters:
    positive region sizes [ar] and [gr] in the configuration file, a grid
    of [na] azimuths and [ng] gates, a CONVOL volume of that grid with a
    scan for each calibration angle, filters that share no array with the
    mask of that volume, created fresh with [nc] and [nd] elevations, and a
    regression that succeeds on every zone. *)
Record ready (st : Run V DT) (cp dp : PrecipFilter)
    (ar gr ne na ng nc nd : nat) (angles : list V) : Prop := mk_ready {
  rd_azim_region : azim_region (precip (config_json (env st))) = Z.of_nat ar;
  rd_gate_region : gate_region (precip (config_json (env st))) = Z.of_nat gr;
  rd_azim_pos : (0 < ar)%nat;
  rd_gate_pos : (0 < gr)%nat;
  rd_azims : azims (grid_info (self st)) = Z.of_nat na;
  rd_gates : gates (grid_info (self st)) = Z.of_nat ng;
  rd_angles : convol_angles (self st) = Some angles;
  rd_scans : (length angles <= ne)%nat;
  rd_volume : volume_ok (arrays st) (convol (iris_data st)) ne na ng;
  rd_apart : forall l, ma_mask (convol (iris_data st)) = Some l ->
               l ≠ filter_3d cp /\ l ≠ filter_3d dp;
  rd_convol_filter : arrays st !! filter_3d cp = Some (Np.full [nc; na; ng] false);
  rd_dopvol_filter : arrays st !! filter_3d dp = Some (Np.full [nd; na; ng] false);
  rd_regression : forall x y, (x < na / ar)%nat -> (y < ng / gr)%nat ->
    exists slope,
      zone_slope linregress angles (ma_data (convol (iris_data st)))
        (mask_of (arrays st) (convol (iris_data st))) ar gr x y = Ok slope
}.

(** The zone mask that the specification describes for the CONVOL volume
    of [st]: zone [(x, y)] is contaminated when the slope fitted to its
    pooled samples exceeds [max_dbz_per_degree]. *)
Definition zone_flag (st : Run V DT) (angles : list V) (ar gr : nat) : nat -> nat -> bool :=
  contaminated linregress gt angles (ma_data (convol (iris_data st)))
    (mask_of (arrays st) (convol (iris_data st)))
    (max_dbz_per_degree (precip (config_json (env st)))) ar gr.

Lemma detection_marks_contaminated_zones (st : Run V DT) (cp dp : PrecipFilter)
    (ar gr ne na ng nc nd : nat) (angles : list V) :
  ready st cp dp ar gr ne na ng nc nd angles ->
  (na mod ar = 0)%nat -> (ng mod gr = 0)%nat ->
  exists st' fc fd,
    filter_precip linregress gt cp dp st = (Ok tt, st') /\
    arrays st' !! filter_3d cp = Some fc /\ Np.shape fc = [nc; na; ng] /\
    arrays st' !! filter_3d dp = Some fd /\ Np.shape fd = [nd; na; ng] /\
    forall e i j, (i < na)%nat -> (j < ng)%nat ->
      ((e < nc)%nat ->
       Np.get3 fc e i j = Some (zone_flag st angles ar gr (i / ar)%nat (j / gr)%nat)) /\
      ((e < nd)%nat ->
       Np.get3 fd e i j = Some (zone_flag st angles ar gr (i / ar)%nat (j / gr)%nat)).
Proof.
  intros [] Hda Hdg.
  destruct (filter_precip_spec linregress gt st cp dp ar gr ne na ng nc nd angles
              (Np.full [nc; na; ng] false) (Np.full [nd; na; ng] false))
    as (st' & E & _ & _ & _ & (fc & Hfc & Hsc & _ & Hgc) & (fd & Hfd & Hsd & _ & Hgd));
    try done; try apply NpFacts.full_wf.
  exists st', fc, fd. repeat (split; [done|]).
  intros e i j Hi Hj. split; intros He.
  - rewrite Hgc, get3_full by done. done.
  - rewrite Hgd, get3_full by done. done.
Qed.

(** Region sizes that do not divide the grid are refused before the store
    of arrays is touched, whatever the regression would do. *)
Lemma detection_rejects_region (st : Run V DT) (cp dp : PrecipFilter)
    (ar gr na ng : nat) :
  azim_region (precip (config_json (env st))) = Z.of_nat ar ->
  gate_region (precip (config_json (env st))) = Z.of_nat gr ->
  (0 < ar)%nat -> (0 < gr)%nat ->
  azims (grid_info (self st)) = Z.of_nat na ->
  gates (grid_info (self st)) = Z.of_nat ng ->
  (na mod ar ≠ 0)%nat \/ (ng mod gr ≠ 0)%nat ->
  exists msg st',
    filter_precip linregress gt cp dp st = (Raise (ValueError msg), st') /\
    arrays st' = arrays st /\ iris_data st' = iris_data st.
Proof.
  intros Har Hgr Hap Hgp Haz Hga Hnd.
  unfold filter_precip. rewrite io_bind_get.
  unfold io_bind at 1. cbn [set_self]. rewrite io_bind_get. cbv zeta.
  cbn [self config grid_info precip]. rewrite Har, Hgr, Haz, Hga.
  unfold mod_. rewrite !(proj2 (Z.eqb_neq _ 0)) by lia.
  rewrite <- !Nat2Z.inj_mod.
  unfold io_bind at 1. cbn [io_lift].
  destruct (Nat.eq_dec (na mod ar) 0) as [Ha|Ha].
  - rewrite Ha. change (Z.of_nat 0 =? 0)%Z with true. cbn [negb].
    unfold io_bind at 1. cbn [io_lift].
    destruct Hnd as [?|Hg]; [done|].
    rewrite (proj2 (Z.eqb_neq _ 0)) by lia. cbn [negb io_raise]. eauto.
  - rewrite (proj2 (Z.eqb_neq _ 0)) by lia. cbn [negb io_raise]. eauto.
Qed.

(** C6.  Region sizes are positive numbers of the configuration file.
    When one of them does not divide its extent of the grid, detection
    raises [ValueError] and has written no array and no volume.  When both
    divide, and the other preconditions hold, detection completes; the
    grid is partitioned in [(na / ar) * (ng / gr)] zones, every cell lying
    in the one zone [(i / ar, j / gr)], and each zone mask is a function of
    the zone alone: constant over the cells of a zone and over the
    elevations. *)
Theorem region_sizes_partition_the_grid (st : Run V DT) (cp dp : PrecipFilter)
    (ar gr ne na ng nc nd : nat) (angles : list V) :
  azim_region (precip (config_json (env st))) = Z.of_nat ar ->
  gate_region (precip (config_json (env st))) = Z.of_nat gr ->
  (0 < ar)%nat -> (0 < gr)%nat ->
  azims (grid_info (self st)) = Z.of_nat na ->
  gates (grid_info (self st)) = Z.of_nat ng ->
  ((na mod ar ≠ 0)%nat \/ (ng mod gr ≠ 0)%nat ->
   exists msg st',
     filter_precip linregress gt cp dp st = (Raise (ValueError msg), st') /\
     arrays st' = arrays st /\ iris_data st' = iris_data st) /\
  ((na mod ar = 0)%nat -> (ng mod gr = 0)%nat ->
   ready st cp dp ar gr ne na ng nc nd angles ->
   exists st' fc fd (zone : nat -> nat -> bool),
     filter_precip linregress gt cp dp st = (Ok tt, st') /\
     arrays st' !! filter_3d cp = Some fc /\ Np.shape fc = [nc; na; ng] /\
     arrays st' !! filter_3d dp = Some fd /\ Np.shape fd = [nd; na; ng] /\
     length (all_zones (na / ar) (ng / gr)) = (na / ar * (ng / gr))%nat /\
     forall i j, (i < na)%nat -> (j < ng)%nat ->
       ((i / ar)%nat, (j / gr)%nat) ∈ all_zones (na / ar) (ng / gr) /\
       (forall z, in_zone ar gr z i j = true <-> z = ((i / ar)%nat, (j / gr)%nat)) /\
       (forall e, (e < nc)%nat -> Np.get3 fc e i j = Some (zone (i / ar)%nat (j / gr)%nat)) /\
       (forall e, (e < nd)%nat -> Np.get3 fd e i j = Some (zone (i / ar)%nat (j / gr)%nat))).
Proof.
  intros Har Hgr Hap Hgp Haz Hga. split.
  - intros Hnd. by eapply detection_rejects_region.
  - intros Hda Hdg Hready.
    destruct (detection_marks_contaminated_zones st cp dp ar gr ne na ng nc nd angles
                Hready Hda Hdg) as (st' & fc & fd & E & Hfc & Hsc & Hfd & Hsd & Hcells).
    exists st', fc, fd, (zone_flag st angles ar gr).
    repeat (split; [done|]). split.
    { unfold all_zones. clear. induction (na / ar)%nat as [|n IH] using nat_ind.
      - done.
      - rewrite seq_S, flat_map_app, length_app, IH. cbn.
        rewrite length_app, length_fmap, length_seq. cbn. lia. }
    intros i j Hi Hj. split; [|split; [|split]].
    + unfold all_zones. apply list_elem_of_In, in_flat_map. exists (i / ar)%nat. split.
      * apply list_elem_of_In, elem_of_seq. split; [lia|]. cbn.
        apply Nat.Div0.div_lt_upper_bound.
        rewrite (Nat.Div0.div_mod na ar) in Hi at 1. lia.
      * apply list_elem_of_In, list_elem_of_fmap. exists (j / gr)%nat. split; [done|].
        apply elem_of_seq. split; [lia|]. cbn.
        apply Nat.Div0.div_lt_upper_bound.
        rewrite (Nat.Div0.div_mod ng gr) in Hj at 1. lia.
    + intros z. by apply in_zone_iff.
    + intros e He. by apply (Hcells e i j Hi Hj).
    + intros e He. by apply (Hcells e i j Hi Hj).
Qed.

(** ** Which scans the zones of each family come from *)

(** What the specification says of the DOPVOL family: after the detection,
    its filter holds the zone mask computed from its own scans and angles. *)
Definition dopvol_zones_from_dopvol (st st' : Run V DT) (dp : PrecipFilter)
    (ar gr na ng nd : nat) : Prop :=
  exists fd angles,
    arrays st' !! filter_3d dp = Some fd /\
    dopvol_angles (self st) = Some angles /\
    forall e i j, (e < nd)%nat -> (i < na)%nat -> (j < ng)%nat ->
      Np.get3 fd e i j
      = Some (contaminated linregress gt angles (ma_data (dopvol (iris_data st)))
                (mask_of (arrays st) (dopvol (iris_data st)))
                (max_dbz_per_degree (precip (config_json (env st)))) ar gr
                (i / ar)%nat (j / gr)%nat).

(** ** The claims on fusion *)

(** The representation invariants of a store: every boolean array has one
    cell per index, the clutter volumes too, and the masks of the two
    volumes are arrays of the store of the shape of their data. *)
Record store_ok (st : Run V DT) : Prop := mk_store_ok {
  so_arrays : forall l a, arrays st !! l = Some a -> Np.wf a;
  so_convol_clutter : forall c, convol_clutter (self st) = Some c -> Np.wf c;
  so_dopvol_clutter : forall c, dopvol_clutter (self st) = Some c -> Np.wf c;
  so_convol : mask_ok (arrays st) (convol (iris_data st));
  so_dopvol : mask_ok (arrays st) (dopvol (iris_data st))
}.

(** [clutter.astype(bool)] *)
Definition as_bool (clutter : Np.ndarray Z) : Np.ndarray bool :=
  Np.astype (fun z => negb (z =? 0)%Z) clutter.

Lemma as_bool_wf (c : Np.ndarray Z) : Np.wf c -> Np.wf (as_bool c).
Proof. unfold Np.wf, as_bool, Np.astype. cbn. by rewrite length_fmap. Qed.

Lemma fuse_and_apply_spec (cp dp : PrecipFilter) (st : Run V DT) :
  store_ok st ->
  exists r st',
    fuse_and_apply cp dp st = (r, st') /\ fused st st' /\
    forall cc fc dc fd,
      convol_clutter (self st) = Some cc -> arrays st !! filter_3d cp = Some fc ->
      dopvol_clutter (self st) = Some dc -> arrays st !! filter_3d dp = Some fd ->
      Np.shape cc = Np.shape (ma_data (convol (iris_data st))) ->
      Np.shape fc = Np.shape (ma_data (convol (iris_data st))) ->
      Np.shape dc = Np.shape (ma_data (dopvol (iris_data st))) ->
      Np.shape fd = Np.shape (ma_data (dopvol (iris_data st))) ->
      r = Ok tt /\
      forall k,
        masked (arrays st') (convol (iris_data st')) k
        = cell_of (as_bool cc) k || cell_of fc k
          || masked (arrays st) (convol (iris_data st)) k /\
        masked (arrays st') (dopvol (iris_data st')) k
        = cell_of (as_bool dc) k || cell_of fd k
          || masked (arrays st) (dopvol (iris_data st)) k.
Proof.
  intros [Harr Hcc Hdc Hokc Hokd].
  assert (Hrefl : fused st st) by (by apply fused_refl).
  unfold fuse_and_apply. rewrite io_bind_get.
  destruct (convol_clutter (self st)) as [cc|] eqn:Ecc; cbn [getattr].
  2:{ do 2 eexists. split; [reflexivity|]. split; [done|]. intros; discriminate. }
  unfold io_bind at 1. cbn [io_lift]. unfold io_bind at 1. unfold deref at 1.
  destruct (arrays st !! filter_3d cp) as [fc|] eqn:Efc.
  2:{ do 2 eexists. split; [reflexivity|]. split; [done|]. intros; discriminate. }
  fold (as_bool cc). unfold io_bind at 1. cbn [io_lift].
  destruct (Np.logical_or (as_bool cc) fc) as [cj|e] eqn:Ecj.
  2:{ do 2 eexists. split; [reflexivity|]. split; [done|].
      intros cc' fc' dc' fd' [= <-] [= <-] _ _ H1 H2 _ _. exfalso.
      rewrite NpFacts.logical_or_same_shape in Ecj;
        [done|by apply as_bool_wf, Hcc|by eapply Harr|].
      cbn. congruence. }
  destruct (dopvol_clutter (self st)) as [dc|] eqn:Edc; cbn [getattr].
  2:{ do 2 eexists. split; [reflexivity|]. split; [done|]. intros; discriminate. }
  unfold io_bind at 1. cbn [io_lift]. unfold io_bind at 1. unfold deref at 1.
  destruct (arrays st !! filter_3d dp) as [fd|] eqn:Efd.
  2:{ do 2 eexists. split; [reflexivity|]. split; [done|]. intros; discriminate. }
  fold (as_bool dc). unfold io_bind at 1. cbn [io_lift].
  destruct (Np.logical_or (as_bool dc) fd) as [dj|e] eqn:Edj.
  2:{ do 2 eexists. split; [reflexivity|]. split; [done|].
      intros cc' fc' dc' fd' _ _ [= <-] [= <-] _ _ H1 H2. exfalso.
      rewrite NpFacts.logical_or_same_shape in Edj;
        [done|by apply as_bool_wf, Hdc|by eapply Harr|].
      cbn. congruence. }
  assert (Hwcj : Np.wf cj).
  { eapply logical_or_wf; [| |exact Ecj]; [by apply as_bool_wf, Hcc|by eapply Harr]. }
  assert (Hwdj : Np.wf dj).
  { eapply logical_or_wf; [| |exact Edj]; [by apply as_bool_wf, Hdc|by eapply Harr]. }
  destruct (impose_filter_spec cj dj st Hwcj Hwdj Hokc Hokd) as (r & st' & E & Hf & Hu).
  exists r, st'. split; [exact E|]. split; [done|].
  intros cc' fc' dc' fd' [= <-] [= <-] [= <-] [= <-] H1 H2 H3 H4.
  rewrite NpFacts.logical_or_same_shape in Ecj;
    [|by apply as_bool_wf, Hcc|by eapply Harr|cbn; congruence].
  rewrite NpFacts.logical_or_same_shape in Edj;
    [|by apply as_bool_wf, Hdc|by eapply Harr|cbn; congruence].
  injection Ecj as <-. injection Edj as <-.
  destruct Hu as [-> Hu]; [cbn; congruence..|]. split; [done|].
  intros k. destruct (Hu k) as [Hc Hd]. rewrite Hc, Hd.
  assert (Hlc : length (Np.flat (as_bool cc)) = length (Np.flat fc)).
  { rewrite (as_bool_wf cc (Hcc cc eq_refl)), (Harr _ fc Efc).
    change (Np.shape (as_bool cc)) with (Np.shape cc). by rewrite H1, H2. }
  assert (Hld : length (Np.flat (as_bool dc)) = length (Np.flat fd)).
  { rewrite (as_bool_wf dc (Hdc dc eq_refl)), (Harr _ fd Efd).
    change (Np.shape (as_bool dc)) with (Np.shape dc). by rewrite H3, H4. }
  unfold cell_of at 1 4. cbn [Np.flat].
  rewrite !cell_of_zip by done. done.
Qed.

(** C4.  On a store that satisfies its representation invariants, fusing
    and applying keeps the shape of both volumes, and a cell that was
    masked before is masked after, whether the call returns or raises.
    When the clutter mask and the zone mask of a family have the shape of
    its volume, the call returns, and the new mask of the volume is, cell
    by cell, the clutter mask or the zone mask or the mask the volume had.
    *)
Theorem fusion_is_monotonic (cp dp : PrecipFilter) (st st' : Run V DT) (r : res unit) :
  store_ok st ->
  fuse_and_apply cp dp st = (r, st') ->
  Np.shape (ma_data (convol (iris_data st'))) = Np.shape (ma_data (convol (iris_data st))) /\
  Np.shape (ma_data (dopvol (iris_data st'))) = Np.shape (ma_data (dopvol (iris_data st))) /\
  (forall k, masked (arrays st) (convol (iris_data st)) k = true ->
             masked (arrays st') (convol (iris_data st')) k = true) /\
  (forall k, masked (arrays st) (dopvol (iris_data st)) k = true ->
             masked (arrays st') (dopvol (iris_data st')) k = true) /\
  forall cc fc dc fd,
    convol_clutter (self st) = Some cc -> arrays st !! filter_3d cp = Some fc ->
    dopvol_clutter (self st) = Some dc -> arrays st !! filter_3d dp = Some fd ->
    Np.shape cc = Np.shape (ma_data (convol (iris_data st))) ->
    Np.shape fc = Np.shape (ma_data (convol (iris_data st))) ->
    Np.shape dc = Np.shape (ma_data (dopvol (iris_data st))) ->
    Np.shape fd = Np.shape (ma_data (dopvol (iris_data st))) ->
    r = Ok tt /\
    forall k,
      masked (arrays st') (convol (iris_data st')) k
      = cell_of (as_bool cc) k || cell_of fc k
        || masked (arrays st) (convol (iris_data st)) k /\
      masked (arrays st') (dopvol (iris_data st')) k
      = cell_of (as_bool dc) k || cell_of fd k
        || masked (arrays st) (dopvol (iris_data st)) k.
Proof.
  intros Hok E.
  destruct (fuse_and_apply_spec cp dp st Hok) as (r0 & st0 & E0 & Hf & Hu).
  rewrite E in E0. injection E0 as <- <-.
  destruct Hf as (_ & _ & _ & Hdc & Hdd & _ & _ & Hmc & Hmd).
  split; [by rewrite Hdc|]. split; [by rewrite Hdd|]. done.
Qed.

(** C5, as the code has it.  After detection the zone mask of DOPVOL holds,
    at every elevation, the flag of the zone computed from the CONVOL
    scans and the CONVOL angles: the DOPVOL scans play no part in it.
    Fusion then masks the DOPVOL volume with the clutter mask of DOPVOL,
    that zone mask and the mask the volume had; the CONVOL volume with the
    clutter mask of CONVOL, its zone mask and its own mask. *)
Theorem dopvol_zones_come_from_convol (st : Run V DT) (cp dp : PrecipFilter)
    (ar gr ne na ng nc nd : nat) (angles : list V) :
  ready st cp dp ar gr ne na ng nc nd angles ->
  (na mod ar = 0)%nat -> (ng mod gr = 0)%nat ->
  store_ok st ->
  (forall l, ma_mask (dopvol (iris_data st)) = Some l ->
             l ≠ filter_3d cp /\ l ≠ filter_3d dp) ->
  exists st1 fc fd,
    filter_precip linregress gt cp dp st = (Ok tt, st1) /\
    arrays st1 !! filter_3d cp = Some fc /\
    arrays st1 !! filter_3d dp = Some fd /\
    (forall e i j, (e < nd)%nat -> (i < na)%nat -> (j < ng)%nat ->
       Np.get3 fd e i j = Some (zone_flag st angles ar gr (i / ar)%nat (j / gr)%nat)) /\
    exists r st2,
      fuse_and_apply cp dp st1 = (r, st2) /\
      forall cc dc,
        convol_clutter (self st) = Some cc -> dopvol_clutter (self st) = Some dc ->
        Np.shape (ma_data (convol (iris_data st))) = [nc; na; ng] ->
        Np.shape (ma_data (dopvol (iris_data st))) = [nd; na; ng] ->
        Np.shape cc = [nc; na; ng] -> Np.shape dc = [nd; na; ng] ->
        r = Ok tt /\
        forall k,
          masked (arrays st2) (convol (iris_data st2)) k
          = cell_of (as_bool cc) k || cell_of fc k
            || masked (arrays st) (convol (iris_data st)) k /\
          masked (arrays st2) (dopvol (iris_data st2)) k
          = cell_of (as_bool dc) k || cell_of fd k
            || masked (arrays st) (dopvol (iris_data st)) k.
Proof.
  intros Hready Hda Hdg [Harr Hcc Hdc Hokc Hokd] Had.
  pose proof Hready as [].
  destruct (filter_precip_spec linregress gt st cp dp ar gr ne na ng nc nd angles
              (Np.full [nc; na; ng] false) (Np.full [nd; na; ng] false))
    as (st1 & E & Hself & Hiris & Hframe
        & (fc & Hfc & Hsc & Hwc & Hgc) & (fd & Hfd & Hsd & Hwd & Hgd));
    try done; try apply NpFacts.full_wf.
  cbn [self iris_data arrays] in Hself, Hiris, Hframe.
  exists st1, fc, fd. repeat (split; [done|]). split.
  { intros e i j He Hi Hj. rewrite Hgd, get3_full by done. done. }
  assert (Hmask : forall (x : MaskedArray V),
            (forall l, ma_mask x = Some l -> l ≠ filter_3d cp /\ l ≠ filter_3d dp) ->
            mask_of (arrays st1) x = mask_of (arrays st) x).
  { intros x Hx. unfold mask_of. destruct (ma_mask x) as [l|] eqn:El; [|done].
    destruct (Hx l eq_refl). by apply Hframe. }
  assert (Hok1 : store_ok st1).
  { split.
    - intros l a Hl.
      destruct (decide (l = filter_3d cp)) as [-> | Hc]; [congruence|].
      destruct (decide (l = filter_3d dp)) as [-> | Hd]; [congruence|].
      rewrite Hframe in Hl by done. by eapply Harr.
    - rewrite Hself. exact Hcc.
    - rewrite Hself. exact Hdc.
    - rewrite Hiris. intros l El. destruct (rd_apart0 l El).
      rewrite Hframe by done. by apply Hokc.
    - rewrite Hiris. intros l El. destruct (Had l El).
      rewrite Hframe by done. by apply Hokd. }
  destruct (fuse_and_apply_spec cp dp st1 Hok1) as (r & st2 & E2 & _ & Hu).
  exists r, st2. split; [exact E2|].
  intros cc dc Ecc Edc Hdsc Hdsd Hscc Hsdc.
  destruct (Hu cc fc dc fd) as [-> Hk];
    rewrite ?Hself, ?Hiris; cbn [reload convol_clutter dopvol_clutter];
    try done; try congruence.
  split; [done|]. intros k. destruct (Hk k) as [H1 H2].
  rewrite H1, H2. unfold masked. rewrite Hiris.
  rewrite (Hmask _ rd_apart0), (Hmask _ Had). done.
Qed.

End Claims.

(** ** The claims on the whole, and their instances on the test data *)

Lemma run8_ready :
  ready Scenario.linregress Scenario.run8 Scenario.convol_filter Scenario.dopvol_filter
    4 4 3 8 8 3 3 Scenario.angles3.
Proof.
  constructor; try reflexivity; try lia.
  - split; [reflexivity|]. split; [reflexivity|]. intros l [=].
  - intros l [=].
  - intros x y Hx Hy.
    assert (Hx' : (x < 2)%nat) by exact Hx. assert (Hy' : (y < 2)%nat) by exact Hy.
    destruct x as [|[|x]]; [| |lia]; (destruct y as [|[|y]]; [| |lia]);
      eexists; vm_compute; reflexivity.
Defined.

Lemma run8_store_ok : store_ok Scenario.run8.
Proof.
  constructor.
  - intros l a Hl.
    destruct (decide (l = 1%positive)) as [-> | ?]; [by injection Hl as <-|].
    destruct (decide (l = 2%positive)) as [-> | ?]; [by injection Hl as <-|].
    cbn in Hl. rewrite !lookup_insert_ne in Hl by done. done.
  - intros c [= <-]. reflexivity.
  - intros c [= <-]. reflexivity.
  - intros l [=].
  - intros l [=].
Defined.

Lemma run2_store_ok : store_ok Scenario.run2.
Proof.
  constructor.
  - intros l a Hl.
    destruct (decide (l = 1%positive)) as [-> | ?]; [by injection Hl as <-|].
    destruct (decide (l = 2%positive)) as [-> | ?]; [by injection Hl as <-|].
    destruct (decide (l = 3%positive)) as [-> | ?]; [by injection Hl as <-|].
    cbn in Hl. rewrite !lookup_insert_ne in Hl by done. done.
  - intros c [= <-]. reflexivity.
  - intros c [= <-]. reflexivity.
  - intros l [= <-]. eexists. split; [reflexivity|]. split; reflexivity.
  - intros l [=].
Defined.

(** C3. With the two zone masks fresh and the region sizes dividing the
    grid, detection completes, and a cell of either zone mask, at every
    elevation, is set exactly when its zone is contaminated: when the
    slope that [linregress] fits to the (angle, value) pairs pooled over
    all CONVOL elevations and all cells of the zone is greater than
    [max_dbz_per_degree].  Cells of the other zones stay unset. *)
Theorem detection_marks_exactly_steep_zones
    (V DT : Type) (linregress : list V -> list (option V) -> res V)
    (gt : V -> V -> bool) (st : Run V DT) (cp dp : PrecipFilter)
    (ar gr ne na ng nc nd : nat) (angles : list V) :
  ready linregress st cp dp ar gr ne na ng nc nd angles ->
  (na mod ar = 0)%nat -> (ng mod gr = 0)%nat ->
  exists st' fc fd,
    filter_precip linregress gt cp dp st = (Ok tt, st') /\
    arrays st' !! filter_3d cp = Some fc /\ Np.shape fc = [nc; na; ng] /\
    arrays st' !! filter_3d dp = Some fd /\ Np.shape fd = [nd; na; ng] /\
    (forall x y,
       zone_flag linregress gt st angles ar gr x y = true <->
       exists slope,
         zone_slope linregress angles (ma_data (convol (iris_data st)))
           (mask_of (arrays st) (convol (iris_data st))) ar gr x y = Ok slope /\
         gt slope (max_dbz_per_degree (precip (config_json (env st)))) = true) /\
    forall e i j, (i < na)%nat -> (j < ng)%nat ->
      ((e < nc)%nat ->
       Np.get3 fc e i j
       = Some (zone_flag linregress gt st angles ar gr (i / ar)%nat (j / gr)%nat)) /\
      ((e < nd)%nat ->
       Np.get3 fd e i j
       = Some (zone_flag linregress gt st angles ar gr (i / ar)%nat (j / gr)%nat)).
Proof.
  intros Hready Ha Hg.
  destruct (detection_marks_contaminated_zones linregress gt st cp dp
              ar gr ne na ng nc nd angles Hready Ha Hg)
    as (st' & fc & fd & E & Hfc & Hsc & Hfd & Hsd & Hcells).
  exists st', fc, fd. do 5 (split; [assumption|]). split; [|exact Hcells].
  intros x y. unfold zone_flag, contaminated.
  destruct (zone_slope _ _ _ _ _ _ _ _) as [slope|e]; split.
  - intros H. by exists slope.
  - by intros (s & [= <-] & H).
  - done.
  - by intros (s & [=] & _).
Qed.

(** The scenario of the specification: a grid of 8 x 8 in zones of 4 x 4,
    the angles 0.5, 1.0 and 1.5, reflectivity rising by 20 dB per degree in
    zone (0, 0) and flat elsewhere, a limit of 5.  The fitted slopes are 20
    and 0, and detection leaves zone (0, 0), and no other cell, set. *)
Lemma steep_zone_scenario :
  let slope x y :=
    zone_slope Scenario.linregress Scenario.angles3 Scenario.rising None 4 4 x y in
  let out := filter_precip Scenario.linregress Scenario.gt
               Scenario.convol_filter Scenario.dopvol_filter Scenario.run8 in
  slope 0%nat 0%nat = Ok (Scenario.Num 20) /\ slope 0%nat 1%nat = Ok (Scenario.Num 0) /\
  slope 1%nat 0%nat = Ok (Scenario.Num 0) /\ slope 1%nat 1%nat = Ok (Scenario.Num 0) /\
  out.1 = Ok tt /\
  arrays out.2 !! 1%positive = Some Scenario.zone00 /\
  arrays out.2 !! 2%positive = Some Scenario.zone00 /\
  forall e i j, (e < 3)%nat -> (i < 8)%nat -> (j < 8)%nat ->
    Np.get3 Scenario.zone00 e i j = Some ((i <? 4)%nat && (j <? 4)%nat).
Proof.
  cbv zeta. repeat (split; [vm_compute; reflexivity|]).
  assert (Hall : forallb (fun e => forallb (fun i => forallb (fun j =>
            bool_decide (Np.get3 Scenario.zone00 e i j
                         = Some ((i <? 4)%nat && (j <? 4)%nat)))
            (seq 0 8)) (seq 0 8)) (seq 0 3) = true) by (vm_compute; reflexivity).
  intros e i j He Hi Hj.
  rewrite forallb_forall in Hall.
  specialize (Hall e (proj2 (in_seq _ _ _) (conj (Nat.le_0_l e) He))).
  rewrite forallb_forall in Hall.
  specialize (Hall i (proj2 (in_seq _ _ _) (conj (Nat.le_0_l i) Hi))).
  rewrite forallb_forall in Hall.
  specialize (Hall j (proj2 (in_seq _ _ _) (conj (Nat.le_0_l j) Hj))).
  by apply bool_decide_eq_true_1 in Hall.
Qed.

Lemma detection_marks_exactly_steep_zones_witness :
  exists st' fc fd,
    filter_precip Scenario.linregress Scenario.gt
      Scenario.convol_filter Scenario.dopvol_filter Scenario.run8 = (Ok tt, st') /\
    arrays st' !! 1%positive = Some fc /\ arrays st' !! 2%positive = Some fd /\
    Np.get3 fc 2 3 3 = Some true /\ Np.get3 fc 2 3 4 = Some false /\
    Np.get3 fd 0 0 0 = Some true /\ Np.get3 fd 0 7 7 = Some false.
Proof.
  destruct (detection_marks_exactly_steep_zones Scenario.float Scenario.datetime
              Scenario.linregress Scenario.gt Scenario.run8
              Scenario.convol_filter Scenario.dopvol_filter
              4 4 3 8 8 3 3 Scenario.angles3 run8_ready eq_refl eq_refl)
    as (st' & fc & fd & E & Hfc & _ & Hfd & _ & _ & Hcells).
  exists st', fc, fd. split; [exact E|]. split; [exact Hfc|]. split; [exact Hfd|].
  split; [|split; [|split]].
  - rewrite (proj1 (Hcells 2 3 3 ltac:(lia) ltac:(lia))%nat) by lia.
    vm_compute. reflexivity.
  - rewrite (proj1 (Hcells 2 3 4 ltac:(lia) ltac:(lia))%nat) by lia.
    vm_compute. reflexivity.
  - rewrite (proj2 (Hcells 0 0 0 ltac:(lia) ltac:(lia))%nat) by lia.
    vm_compute. reflexivity.
  - rewrite (proj2 (Hcells 0 7 7 ltac:(lia) ltac:(lia))%nat) by lia.
    vm_compute. reflexivity.
Defined.

Lemma region_sizes_partition_the_grid_witness :
  (exists msg st',
     filter_precip Scenario.linregress Scenario.gt
       Scenario.convol_filter Scenario.dopvol_filter Scenario.run8_3x4
     = (Raise (ValueError msg), st') /\
     arrays st' = arrays Scenario.run8_3x4) /\
  (exists st' fc (zone : nat -> nat -> bool),
     filter_precip Scenario.linregress Scenario.gt
       Scenario.convol_filter Scenario.dopvol_filter Scenario.run8 = (Ok tt, st') /\
     arrays st' !! 1%positive = Some fc /\
     length (all_zones (8 / 4) (8 / 4)) = 4%nat /\
     forall e i j, (e < 3)%nat -> (i < 8)%nat -> (j < 8)%nat ->
       Np.get3 fc e i j = Some (zone (i / 4)%nat (j / 4)%nat)).
Proof.
  split.
  - destruct (proj1 (region_sizes_partition_the_grid Scenario.linregress Scenario.gt
                       Scenario.run8_3x4 Scenario.convol_filter Scenario.dopvol_filter
                       3 4 3 8 8 3 3 Scenario.angles3
                       eq_refl eq_refl ltac:(lia) ltac:(lia) eq_refl eq_refl))
      as (msg & st' & E & Ha & _).
    + left. vm_compute. discriminate.
    + exists msg, st'. split; [exact E|exact Ha].
  - destruct (proj2 (region_sizes_partition_the_grid Scenario.linregress Scenario.gt
                       Scenario.run8 Scenario.convol_filter Scenario.dopvol_filter
                       4 4 3 8 8 3 3 Scenario.angles3
                       eq_refl eq_refl ltac:(lia) ltac:(lia) eq_refl eq_refl)
                eq_refl eq_refl run8_ready)
      as (st' & fc & fd & zone & E & Hfc & _ & _ & _ & Hlen & Hcells).
    exists st', fc, zone. split; [exact E|]. split; [exact Hfc|]. split; [exact Hlen|].
    intros e i j He Hi Hj. by apply (Hcells i j Hi Hj).
Defined.

Lemma detection_changes_zone_masks_and_configuration_witness :
  let out := filter_precip Scenario.linregress Scenario.gt
               Scenario.convol_filter Scenario.dopvol_filter Scenario.run8_stale in
  iris_data out.2 = iris_data Scenario.run8_stale /\
  mask_of (arrays out.2) (convol (iris_data out.2)) = None /\
  config (self Scenario.run8_stale) = Scenario.config_3x4 /\
  config (self out.2) = Scenario.config8.
Proof.
  cbv zeta.
  destruct (filter_precip Scenario.linregress Scenario.gt
              Scenario.convol_filter Scenario.dopvol_filter Scenario.run8_stale)
    as [r st'] eqn:E.
  destruct (detection_changes_zone_masks_and_configuration
              Scenario.linregress Scenario.gt
              Scenario.convol_filter Scenario.dopvol_filter Scenario.run8_stale r st')
    as (H1 & H2 & _ & _ & _ & _ & H7 & _).
  - intros l [[=]|[=]].
  - exact E.
  - split; [exact H1|]. cbn [snd]. rewrite H2.
    split; [reflexivity|]. split; [reflexivity|]. rewrite H7. reflexivity.
Defined.

(** C9: a processor built under an older configuration.  Detection
    returns, and the processor has another configuration afterwards: the
    zone masks are not the only thing that the detection changes. *)
Lemma detection_replaces_configuration :
  let out := filter_precip Scenario.linregress Scenario.gt
               Scenario.convol_filter Scenario.dopvol_filter Scenario.run8_stale in
  out.1 = Ok tt /\
  azim_region (precip (config (self Scenario.run8_stale))) = 3%Z /\
  azim_region (precip (config (self out.2))) = 4%Z /\
  ~ only_zone_masks Scenario.convol_filter Scenario.dopvol_filter
      Scenario.run8_stale out.2.
Proof.
  cbv zeta. split; [vm_compute; reflexivity|]. split; [reflexivity|].
  split; [vm_compute; reflexivity|].
  intros (_ & Hself & _).
  apply (f_equal (fun p => azim_region (precip (config p)))) in Hself.
  vm_compute in Hself. discriminate Hself.
Qed.

Lemma fusion_is_monotonic_witness :
  let out := fuse_and_apply Scenario.convol_filter Scenario.dopvol_filter Scenario.run2 in
  out.1 = Ok tt /\
  masked (arrays Scenario.run2) (convol (iris_data Scenario.run2)) 0 = true /\
  masked (arrays out.2) (convol (iris_data out.2)) 0 = true /\
  masked (arrays out.2) (convol (iris_data out.2)) 1 = true /\
  masked (arrays out.2) (convol (iris_data out.2)) 2 = true /\
  masked (arrays out.2) (convol (iris_data out.2)) 3 = false /\
  Np.shape (ma_data (convol (iris_data out.2))) = [1; 2; 2]%nat.
Proof.
  cbv zeta.
  destruct (fuse_and_apply Scenario.convol_filter Scenario.dopvol_filter Scenario.run2)
    as [r st'] eqn:E.
  destruct (fusion_is_monotonic Scenario.convol_filter Scenario.dopvol_filter
              Scenario.run2 st' r run2_store_ok E) as (Hs & _ & Hm & _ & Hu).
  destruct (Hu _ _ _ _ eq_refl eq_refl eq_refl eq_refl eq_refl eq_refl eq_refl eq_refl)
    as [-> Hk].
  cbn [fst snd]. split; [reflexivity|]. split; [reflexivity|].
  split; [apply Hm; reflexivity|].
  split; [rewrite (proj1 (Hk 1%nat)); reflexivity|].
  split; [rewrite (proj1 (Hk 2%nat)); reflexivity|].
  split; [rewrite (proj1 (Hk 3%nat)); reflexivity|].
  rewrite Hs. reflexivity.
Defined.

(** C5: on the test data the CONVOL scans rise in zone (0, 0) and the
    DOPVOL scans are flat everywhere.  A zone mask computed from the
    DOPVOL scans would be empty; the filter of DOPVOL comes out set on
    zone (0, 0). *)
Lemma dopvol_zones_not_from_dopvol :
  ~ dopvol_zones_from_dopvol Scenario.linregress Scenario.gt Scenario.run8
      (filter_precip Scenario.linregress Scenario.gt
         Scenario.convol_filter Scenario.dopvol_filter Scenario.run8).2
      Scenario.dopvol_filter 4 4 8 8 3.
Proof.
  intros (fd & angles & Hfd & Hang & Hcells).
  injection Hang as <-.
  assert (Hz : arrays (filter_precip Scenario.linregress Scenario.gt
                         Scenario.convol_filter Scenario.dopvol_filter Scenario.run8).2
               !! filter_3d Scenario.dopvol_filter = Some Scenario.zone00)
    by (vm_compute; reflexivity).
  rewrite Hz in Hfd. injection Hfd as <-.
  specialize (Hcells 0 0 0 ltac:(lia) ltac:(lia) ltac:(lia))%nat.
  vm_compute in Hcells. discriminate Hcells.
Qed.

Lemma dopvol_zones_come_from_convol_witness :
  exists st1 fd r st2,
    filter_precip Scenario.linregress Scenario.gt
      Scenario.convol_filter Scenario.dopvol_filter Scenario.run8 = (Ok tt, st1) /\
    arrays st1 !! 2%positive = Some fd /\
    Np.get3 fd 0 0 0 = Some true /\
    fuse_and_apply Scenario.convol_filter Scenario.dopvol_filter st1 = (r, st2) /\
    r = Ok tt /\
    masked (arrays st2) (dopvol (iris_data st2)) 0 = cell_of fd 0.
Proof.
  destruct (dopvol_zones_come_from_convol Scenario.linregress Scenario.gt Scenario.run8
              Scenario.convol_filter Scenario.dopvol_filter
              4 4 3 8 8 3 3 Scenario.angles3 run8_ready eq_refl eq_refl run8_store_ok)
    as (st1 & fc & fd & E & Hfc & Hfd & Hcells & r & st2 & E2 & Hu).
  - intros l [=].
  - destruct (Hu _ _ eq_refl eq_refl eq_refl eq_refl eq_refl eq_refl) as [-> Hk].
    exists st1, fd, (Ok tt), st2. split; [exact E|]. split; [exact Hfd|].
    split.
    + rewrite (Hcells 0 0 0 ltac:(lia) ltac:(lia) ltac:(lia))%nat.
      vm_compute. reflexivity.
    + split; [exact E2|]. split; [reflexivity|].
      rewrite (proj2 (Hk 0%nat)).
      assert (cell_of (as_bool Scenario.clutter0) 0 = false) as ->
        by (vm_compute; reflexivity).
      assert (masked (arrays Scenario.run8) (dopvol (iris_data Scenario.run8)) 0 = false)
        as -> by (vm_compute; reflexivity).
      rewrite orb_false_r. reflexivity.
Defined.

(** C7. What constructing the four unimplemented variants does.  The two
    output variants raise [NotImplementedError] and build nothing.  The two
    processor variants raise [TypeError], not [NotImplementedError], and
    leave the environment as it was: the classes are abstract, so they are
    refused before [__init__] runs, and [__init__] itself fails in its call
    of [super().__init__()] without the two arguments, before it reaches
    its [raise]. *)
Theorem unimplemented_variants :
  (forall (V DT : Type) (m : Metadata V DT) (g : GridInfo),
     Models.OdimOutput_init m g = Raise (NotImplementedError "OdimOutput") /\
     Models.NexradOutput_init m g = Raise (NotImplementedError "NEXRAD")) /\
  (forall (V DT : Type) (calib_filepath : Metadata V DT -> GridInfo -> string)
          (e : Env V),
     exists m1 m2 m3,
       OdimProcessor calib_filepath e = (Raise (TypeError m1), e) /\
       NexradProcessor calib_filepath e = (Raise (TypeError m2), e) /\
       OdimProcessor_init calib_filepath e = (Raise (TypeError m3), e) /\
       NexradProcessor_init calib_filepath e = (Raise (TypeError m3), e) /\
       is_NotImplementedError (TypeError m1) = false /\
       is_NotImplementedError (TypeError m2) = false /\
       is_NotImplementedError (TypeError m3) = false).
Proof.
  split.
  - intros; split; reflexivity.
  - intros. do 3 eexists. repeat (split; [reflexivity|]). reflexivity.
Qed.



End ProcSpec.

(* ===================================================================== *)
(** * Further properties of the writer                                   *)
(* ===================================================================== *)

Module ModelsFacts.

Import Py Core Models.

Section Validation.

Context {V DT : Type}.
Variable strftime : DT -> string -> string.

(** ** What validation lets through *)

(** What [BaseOutput.validate] asks of a writer: the two reflectivity
    volumes and the joint product are assigned and are arrays; the volumes
    have one shape, of at least three axes, whose second and third extents
    are those of the grid; the joint product has the shape of the grid. *)
Definition base_ok (self : @Output V DT) : Prop :=
  exists f u j n a k rest,
    dbz_filtered self = Some (Some f) /\ dbz_unfiltered self = Some (Some u) /\
    joint_product self = Some (Some j) /\
    Np.shape f = n :: a :: k :: rest /\ Np.shape u = Np.shape f /\
    Np.shape j = [a; k] /\
    azims (grid_info self) = Z.of_nat a /\ gates (grid_info self) = Z.of_nat k.

(** What [IrisOutput.validate] asks besides: the three auxiliary volumes
    are arrays of one shape. *)
Definition auxiliary_ok (self : @Output V DT) : Prop :=
  exists v s p,
    velocity self = Some (Some v) /\ spectrum_width self = Some (Some s) /\
    total_power self = Some (Some p) /\
    Np.shape s = Np.shape v /\ Np.shape p = Np.shape v.

Lemma base_validate_iff (self : @Output V DT) :
  BaseOutput_validate self = Ok tt <-> base_ok self.
Proof.
  unfold BaseOutput_validate, base_ok, getattr, Np.shape_at. split.
  - destruct (dbz_filtered self) as [[f|]|]; cbn [bind]; [|discriminate..].
    destruct (dbz_unfiltered self) as [[u|]|]; cbn [bind]; [|discriminate..].
    case_bool_decide as Hfu; cbn [negb]; [|discriminate].
    destruct (Np.shape f) as [|n [|a [|k rest]]] eqn:Esf; cbn [lookup bind];
      try discriminate.
    cbn.
    destruct (Z.eqb_spec (Z.of_nat a) (azims (grid_info self))) as [Ha|];
      cbn [negb]; [|discriminate].
    destruct (Z.eqb_spec (Z.of_nat k) (gates (grid_info self))) as [Hk|];
      cbn [negb]; [|discriminate].
    destruct (joint_product self) as [[j|]|]; cbn [bind]; [|discriminate..].
    destruct (Np.shape j) as [|j0 [|j1 [|]]] eqn:Esj; try discriminate.
    destruct (Z.eqb_spec (azims (grid_info self)) (Z.of_nat j0)) as [Hj0|];
      cbn [negb orb]; [|discriminate].
    destruct (Z.eqb_spec (gates (grid_info self)) (Z.of_nat j1)) as [Hj1|];
      cbn [negb]; [|discriminate].
    intros _. exists f, u, j, n, a, k, rest.
    assert (j0 = a) by lia. assert (j1 = k) by lia. subst.
    repeat split; congruence.
  - intros (f & u & j & n & a & k & rest & -> & -> & -> & Hf & Hu & Hj & Ha & Hk).
    cbn [bind]. rewrite bool_decide_eq_true_2 by done. cbn [negb].
    rewrite Hf, Hj. cbn. rewrite Ha, Hk, !Z.eqb_refl. reflexivity.
Qed.

(** X1.  [IrisOutput.validate] passes exactly on the writers described by
    [base_ok] and [auxiliary_ok].  Nothing else is looked at: neither
    [dbz_elevs] nor [dop_elevs], nor the number of elevations of a volume,
    nor the azimuth and gate extents of the auxiliary volumes; reflectivity
    volumes of more than three axes pass. *)
Theorem validate_passes_iff (self : @Output V DT) :
  IrisOutput_validate self = Ok tt <-> base_ok self /\ auxiliary_ok self.
Proof.
  unfold IrisOutput_validate. split.
  - destruct (BaseOutput_validate self) as [[]|e] eqn:Eb; [|discriminate].
    apply base_validate_iff in Eb. cbn [bind]. unfold getattr, shape_of, auxiliary_ok.
    destruct (velocity self) as [[v|]|]; cbn [bind]; [|discriminate..].
    destruct (spectrum_width self) as [[s|]|]; cbn [bind]; [|discriminate..].
    destruct (total_power self) as [[p|]|]; cbn [bind]; [|discriminate..].
    case_bool_decide as Hvs; cbn [negb]; [|discriminate].
    case_bool_decide as Hvp; cbn [negb]; [|discriminate].
    intros _. split; [exact Eb|]. exists v, s, p. done.
  - intros [Hb (v & s & p & Ev & Es & Ep & Hs & Hp)].
    apply base_validate_iff in Hb. rewrite Hb, Ev, Es, Ep. cbn.
    rewrite !bool_decide_eq_true_2 by done. reflexivity.
Qed.

(** ** Errors that are not [ValueError] *)

(** X2.  A writer that has not been populated has no reflectivity
    attribute.  Writing it, or appending to a file with it, raises
    [AttributeError] and leaves the files as they were. *)
Theorem write_before_populate {E : Type} (cast : E -> Z) (m : Metadata V DT)
    (g : GridInfo) (filename : string) (id_matrix : option (Np.ndarray E))
    (fs : Nc.files V) :
  exists msg,
    IrisOutput_validate (IrisOutput_init m g) = Raise (AttributeError msg) /\
    IrisOutput_write strftime (IrisOutput_init m g) filename fs
      = (Raise (AttributeError msg), fs) /\
    append_target_id IrisOutput_validate cast (IrisOutput_init m g) filename id_matrix fs
      = (Raise (AttributeError msg), fs) /\
    append_target_id BaseOutput_validate cast (IrisOutput_init m g) filename id_matrix fs
      = (Raise (AttributeError msg), fs).
Proof. eexists. repeat split; reflexivity. Qed.

(** X3.  When the checks of [BaseOutput.validate] pass and one of the three
    auxiliary attributes holds [None] (as all three do from
    [IrisOutput.__init__] on), [IrisOutput.validate] raises
    [AttributeError], not [ValueError]; [write] raises it before a file is
    created. *)
Theorem absent_auxiliary_is_attribute_error (self : @Output V DT)
    (v s p : option (Np.ndarray V)) (filename : string) (fs : Nc.files V) :
  BaseOutput_validate self = Ok tt ->
  velocity self = Some v -> spectrum_width self = Some s -> total_power self = Some p ->
  v = None \/ s = None \/ p = None ->
  IrisOutput_validate self
    = Raise (AttributeError "'NoneType' object has no attribute 'shape'") /\
  IrisOutput_write strftime self filename fs
    = (Raise (AttributeError "'NoneType' object has no attribute 'shape'"), fs).
Proof.
  intros Hb Ev Es Ep Hnone.
  assert (E : IrisOutput_validate self
              = Raise (AttributeError "'NoneType' object has no attribute 'shape'")).
  { unfold IrisOutput_validate. rewrite Hb, Ev, Es, Ep. cbn.
    destruct v as [v|]; cbn; [|reflexivity].
    destruct s as [s|]; cbn; [|reflexivity].
    destruct p as [p|]; cbn; [|reflexivity].
    destruct Hnone as [?|[?|?]]; discriminate. }
  split; [exact E|]. by apply ModelsSpec.write_failed_validation.
Qed.

(** X4.  When [velocity] and [spectrum_width] agree in shape and
    [total_power] does not, the message of the [ValueError] shows the shape
    of [velocity] on both sides of its [!=]: the shape of [total_power] is
    not in it. *)
Theorem power_mismatch_message (self : @Output V DT) (v s p : Np.ndarray V) :
  BaseOutput_validate self = Ok tt ->
  velocity self = Some (Some v) -> spectrum_width self = Some (Some s) ->
  total_power self = Some (Some p) ->
  Np.shape v = Np.shape s -> Np.shape v <> Np.shape p ->
  IrisOutput_validate self
    = Raise (ValueError ("Incompatible shapes " ++ str_tuple (Np.shape v)
                           ++ " != " ++ str_tuple (Np.shape v))).
Proof.
  intros Hb Ev Es Ep Hvs Hvp.
  unfold IrisOutput_validate. rewrite Hb, Ev, Es, Ep. cbn.
  rewrite bool_decide_eq_true_2 by done.
  rewrite bool_decide_eq_false_2 by done. cbn. by rewrite <- Hvs.
Qed.

(** X5.  Reflectivity volumes of one shape with fewer than three axes make
    validation raise [IndexError], from [shape[1]] or [shape[2]]; [write]
    raises it before a file is created. *)
Theorem flat_volumes_are_index_error (self : @Output V DT) (f u : Np.ndarray V)
    (filename : string) (fs : Nc.files V) :
  dbz_filtered self = Some (Some f) -> dbz_unfiltered self = Some (Some u) ->
  Np.shape f = Np.shape u -> (Np.ndim f < 3)%nat ->
  BaseOutput_validate self = Raise (IndexError "tuple index out of range") /\
  IrisOutput_validate self = Raise (IndexError "tuple index out of range") /\
  IrisOutput_write strftime self filename fs
    = (Raise (IndexError "tuple index out of range"), fs).
Proof.
  intros Ef Eu Hfu Hnd.
  assert (E : BaseOutput_validate self = Raise (IndexError "tuple index out of range")).
  { unfold BaseOutput_validate. rewrite Ef, Eu. cbn.
    rewrite bool_decide_eq_true_2 by done. cbn. unfold Np.shape_at.
    unfold Np.ndim in Hnd.
    destruct (Np.shape f) as [|n [|a [|k rest]]]; cbn in *; try reflexivity. lia. }
  assert (E' : IrisOutput_validate self = Raise (IndexError "tuple index out of range"))
    by (unfold IrisOutput_validate; by rewrite E).
  split; [exact E|]. split; [exact E'|]. by apply ModelsSpec.write_failed_validation.
Qed.

(** ** Appending the classification volume *)

(** The dataset [ds] with the variable [target_id], of shape [s], holding
    the integers [cells]. *)
Definition with_target_id (ds : Nc.dataset V) (s : list nat) (cells : list Z)
  : Nc.dataset V :=
  Nc.mk_dataset (Nc.ds_attrs ds) (Nc.ds_dims ds)
    (<["target_id" := Nc.mk_variable Nc.NC_INT ["dbz_elevs"; "azims"; "gates"] s
                        ((fun z => Some (Nc.CInt z)) <$> cells)]> (Nc.ds_vars ds)).

Lemma dims_shape_length (dims : gmap string nat) (names : list string) (s : list nat) :
  Nc.dims_shape dims names = Some s -> length s = length names.
Proof.
  revert s. induction names as [|n names IH]; intros s; cbn.
  - by intros [= <-].
  - destruct (dims !! n); [|discriminate].
    destruct (Nc.dims_shape dims names) as [s'|]; [|discriminate].
    intros [= <-]. cbn. by rewrite (IH s').
Qed.

Lemma append_ok {E : Type} (validate : @Output V DT -> res unit) (cast : E -> Z)
    (self : @Output V DT) (filename : string) (m : Np.ndarray E)
    (fs : Nc.files V) (ds : Nc.dataset V) :
  validate self = Ok tt ->
  fs !! filename = Some ds ->
  Nc.ds_vars ds !! "target_id" = None ->
  Nc.dims_shape (Nc.ds_dims ds) ["dbz_elevs"; "azims"; "gates"] = Some (Np.shape m) ->
  Np.wf m ->
  append_target_id validate cast self filename (Some m) fs
  = (Ok tt, <[filename := with_target_id ds (Np.shape m) (cast <$> Np.flat m)]> fs).
Proof.
  intros Hval Hfs Hnew Hdims Hwf.
  assert (Hlen : length (Np.shape m) = 3%nat)
    by (by rewrite (dims_shape_length _ _ _ Hdims)).
  unfold append_target_id, Nc.createVariable, Nc.setitem, Nc.close.
  rewrite Hval, ModelsSpec.io_bind_lift_ok.
  erewrite ModelsSpec.bind_Dataset_A by eassumption.
  rewrite ModelsSpec.io_bind_assoc.
  erewrite ModelsSpec.bind_modify; [|eassumption|rewrite Hnew, Hdims; reflexivity].
  rewrite ModelsSpec.io_bind_ret. cbn [fst snd].
  rewrite ModelsSpec.subscript_ok by (unfold Np.ndim; lia).
  rewrite ModelsSpec.io_bind_lift_ok.
  erewrite ModelsSpec.bind_modify;
    [|by simplify_map_eq
     |simplify_map_eq; rewrite Hlen; cbn [Nat.ltb Nat.leb];
      rewrite NpFacts.broadcast_to_same by done; reflexivity].
  cbn [Nc.ds_attrs Nc.ds_dims Nc.ds_vars Nc.var_type Nc.var_dims Nc.var_shape].
  rewrite !insert_insert_eq. unfold io_ret, with_target_id.
  by rewrite <- list_fmap_compose.
Qed.

Lemma append_refused {E : Type} (validate : @Output V DT -> res unit) (cast : E -> Z)
    (self : @Output V DT) (filename : string) (id_matrix : option (Np.ndarray E))
    (fs : Nc.files V) :
  validate self = Ok tt ->
  (fs !! filename = None ->
   append_target_id validate cast self filename id_matrix fs
   = (Raise (ValueError "cannot find dimension in this group or parent groups"),
      <[filename := Nc.empty_dataset]> fs)) /\
  (forall ds v, fs !! filename = Some ds -> Nc.ds_vars ds !! "target_id" = Some v ->
   append_target_id validate cast self filename id_matrix fs
   = (Raise (RuntimeError "NetCDF: String match to name in use"), fs)) /\
  (forall ds, fs !! filename = Some ds -> Nc.ds_vars ds !! "target_id" = None ->
   Nc.dims_shape (Nc.ds_dims ds) ["dbz_elevs"; "azims"; "gates"] = None ->
   append_target_id validate cast self filename id_matrix fs
   = (Raise (ValueError "cannot find dimension in this group or parent groups"), fs)).
Proof.
  intros Hval.
  unfold append_target_id, Nc.createVariable, Nc.setitem, Nc.close.
  rewrite Hval. split; [|split].
  - intros Hfs. rewrite ModelsSpec.io_bind_lift_ok.
    unfold io_bind at 1. unfold Nc.Dataset. rewrite Hfs.
    rewrite ModelsSpec.io_bind_assoc.
    erewrite ModelsSpec.bind_modify_raise; [reflexivity|apply lookup_insert_eq|].
    reflexivity.
  - intros ds v Hfs Hv. rewrite ModelsSpec.io_bind_lift_ok.
    erewrite ModelsSpec.bind_Dataset_A by eassumption.
    rewrite ModelsSpec.io_bind_assoc.
    erewrite ModelsSpec.bind_modify_raise; [reflexivity|eassumption|].
    by rewrite Hv.
  - intros ds Hfs Hv Hd. rewrite ModelsSpec.io_bind_lift_ok.
    erewrite ModelsSpec.bind_Dataset_A by eassumption.
    rewrite ModelsSpec.io_bind_assoc.
    erewrite ModelsSpec.bind_modify_raise; [reflexivity|eassumption|].
    by rewrite Hv, Hd.
Qed.

(** X6.  When validation passes, the file exists, declares the three
    dimensions and has no variable [target_id], appending an array of
    exactly the declared shape returns, and the file store is the one
    before with, in that file, one variable more: [target_id], of integer
    type, holding the cells of the array in order.  Attributes, dimensions
    and the other variables of the file, and every other file, are as
    before. *)
Theorem append_stores_classification {E : Type}
    (validate : @Output V DT -> res unit) (cast : E -> Z)
    (self : @Output V DT) (filename : string) (m : Np.ndarray E)
    (fs : Nc.files V) (ds : Nc.dataset V) :
  validate self = Ok tt ->
  fs !! filename = Some ds ->
  Nc.ds_vars ds !! "target_id" = None ->
  Nc.dims_shape (Nc.ds_dims ds) ["dbz_elevs"; "azims"; "gates"] = Some (Np.shape m) ->
  Np.wf m ->
  let fs' := (append_target_id validate cast self filename (Some m) fs).2 in
  (append_target_id validate cast self filename (Some m) fs).1 = Ok tt /\
  Nc.read_var fs' filename "target_id"
    = Some (Nc.mk_variable Nc.NC_INT ["dbz_elevs"; "azims"; "gates"] (Np.shape m)
              ((fun c => Some (Nc.CInt (cast c))) <$> Np.flat m)) /\
  (forall name, name <> "target_id" ->
     Nc.read_var fs' filename name = Nc.read_var fs filename name) /\
  (forall name, Nc.read_attr fs' filename name = Nc.read_attr fs filename name) /\
  Nc.ds_dims <$> fs' !! filename = Nc.ds_dims <$> fs !! filename /\
  (forall other, other <> filename -> fs' !! other = fs !! other).
Proof.
  intros Hval Hfs Hnew Hdims Hwf. cbv zeta.
  rewrite (append_ok validate cast self filename m fs ds) by done.
  cbn [fst snd]. split; [reflexivity|].
  unfold Nc.read_var, Nc.read_attr, with_target_id.
  rewrite lookup_insert_eq, Hfs. cbn.
  split; [by rewrite lookup_insert_eq, <- list_fmap_compose|].
  split; [intros name Hn; by rewrite lookup_insert_ne|].
  split; [done|]. split; [done|].
  intros other Ho. by rewrite lookup_insert_ne.
Qed.


(** X8.  The classification volume is appended once.  After an append
    that returned, a second append to the same file, of whatever array,
    raises [RuntimeError] and leaves the file with the first
    classification. *)
Theorem append_only_once {E : Type} (validate : @Output V DT -> res unit) (cast : E -> Z)
    (self : @Output V DT) (filename : string) (m : Np.ndarray E)
    (again : option (Np.ndarray E)) (fs : Nc.files V) (ds : Nc.dataset V) :
  validate self = Ok tt ->
  fs !! filename = Some ds ->
  Nc.ds_vars ds !! "target_id" = None ->
  Nc.dims_shape (Nc.ds_dims ds) ["dbz_elevs"; "azims"; "gates"] = Some (Np.shape m) ->
  Np.wf m ->
  exists msg,
    (_ <~ append_target_id validate cast self filename (Some m) ;;
     append_target_id validate cast self filename again) fs
    = (Raise (RuntimeError msg),
       (append_target_id validate cast self filename (Some m) fs).2).
Proof.
  intros Hval Hfs Hnew Hdims Hwf. eexists. unfold io_bind at 1.
  rewrite (append_ok validate cast self filename m fs ds) by done. cbn [snd].
  destruct (append_refused validate cast self filename again
              (<[filename := with_target_id ds (Np.shape m) (cast <$> Np.flat m)]> fs)
              Hval) as (_ & H & _).
  eapply H; [apply lookup_insert_eq|]. unfold with_target_id. cbn.
  apply lookup_insert_eq.
Qed.

End Validation.

(** *** Instances on the test data *)

Lemma absent_auxiliary_is_attribute_error_witness :
  IrisOutput_validate Cases.no_velocity
    = Raise (AttributeError "'NoneType' object has no attribute 'shape'") /\
  IrisOutput_write Scenario.strftime Cases.no_velocity "out.nc" ∅
    = (Raise (AttributeError "'NoneType' object has no attribute 'shape'"), ∅).
Proof.
  apply (absent_auxiliary_is_attribute_error Scenario.strftime Cases.no_velocity
           None (Some (Scenario.vol344 300)) (Some (Scenario.vol344 400)) "out.nc" ∅);
    try reflexivity.
  by left.
Defined.

Lemma power_mismatch_message_witness :
  IrisOutput_validate Cases.short_power
  = Raise (ValueError "Incompatible shapes (3, 4, 4) != (3, 4, 4)").
Proof.
  apply (power_mismatch_message Cases.short_power (Scenario.vol344 200)
           (Scenario.vol344 300)
           (Scenario.tabulate [2; 4; 4]%nat
              (fun k => Scenario.Num (inject_Z (Z.of_nat k)))));
    try reflexivity.
  discriminate.
Defined.

Lemma flat_volumes_are_index_error_witness :
  IrisOutput_write Scenario.strftime Cases.flat_scans "out.nc" ∅
  = (Raise (IndexError "tuple index out of range"), ∅).
Proof.
  apply (flat_volumes_are_index_error Scenario.strftime Cases.flat_scans
           Scenario.joint44 Scenario.joint44 "out.nc" ∅); try reflexivity.
  cbn. lia.
Defined.

Lemma append_stores_classification_witness :
  let out := append_target_id IrisOutput_validate id Scenario.writer "out.nc"
               (Some Cases.id_3x4x4) Cases.store1 in
  out.1 = Ok tt /\
  Nc.var_data <$> Nc.read_var out.2 "out.nc" "target_id"
    = Some ((fun z => Some (Nc.CInt z)) <$> Np.flat Cases.id_3x4x4) /\
  Nc.read_var out.2 "out.nc" "dbz_elevs" = Nc.read_var Cases.store1 "out.nc" "dbz_elevs" /\
  Nc.read_attr out.2 "out.nc" "radar_id" = Some (Nc.AStr "xam").
Proof.
  cbv zeta.
  destruct (append_stores_classification IrisOutput_validate id Scenario.writer "out.nc"
              Cases.id_3x4x4 Cases.store1 Cases.declared)
    as (H1 & H2 & H3 & H4 & _); try (vm_compute; reflexivity).
  split; [exact H1|]. split; [by rewrite H2|]. split; [by apply H3|].
  rewrite H4. vm_compute. reflexivity.
Defined.


Lemma append_only_once_witness :
  exists msg,
    (_ <~ append_target_id IrisOutput_validate id Scenario.writer "out.nc"
            (Some Cases.id_3x4x4) ;;
     append_target_id IrisOutput_validate id Scenario.writer "out.nc" None) Cases.store1
    = (Raise (RuntimeError msg),
       (append_target_id IrisOutput_validate id Scenario.writer "out.nc"
          (Some Cases.id_3x4x4) Cases.store1).2).
Proof.
  apply (append_only_once IrisOutput_validate id Scenario.writer "out.nc"
           Cases.id_3x4x4 None Cases.store1 Cases.declared);
    vm_compute; reflexivity.
Defined.

End ModelsFacts.

(* ===================================================================== *)
(** * Further properties of the processor                                *)
(* ===================================================================== *)

Module ProcFacts.

Import Py Core Proc.

(** ** Construction *)

Section Construction.

Context {V DT : Type}.
Variable linregress : list V -> list (option V) -> res V.
Variable gt : V -> V -> bool.
Variable calib_filepath : Metadata V DT -> GridInfo -> string.

(** What the two verifications ask of a processor: the three grids have
    the shape of the polar grid; both lists of angles are loaded with two
    angles at least; each clutter volume is loaded with one scan for each
    angle of its family, on the polar grid. *)
Record calibrated (p : Processor V DT) (ca da : list V) (cc dc : Np.ndarray Z)
  : Prop := mk_calibrated {
  cal_lats : Z.of_nat <$> Np.shape (lats p) = [azims (grid_info p); gates (grid_info p)];
  cal_lons : Z.of_nat <$> Np.shape (lons p) = [azims (grid_info p); gates (grid_info p)];
  cal_altitude :
    Z.of_nat <$> Np.shape (altitude p) = [azims (grid_info p); gates (grid_info p)];
  cal_convol_angles : convol_angles p = Some ca;
  cal_dopvol_angles : dopvol_angles p = Some da;
  cal_convol_count : (2 <= length ca)%nat;
  cal_dopvol_count : (2 <= length da)%nat;
  cal_convol_clutter : convol_clutter p = Some cc;
  cal_dopvol_clutter : dopvol_clutter p = Some dc;
  cal_convol_shape :
    Z.of_nat <$> Np.shape cc
    = [Z.of_nat (length ca); azims (grid_info p); gates (grid_info p)];
  cal_dopvol_shape :
    Z.of_nat <$> Np.shape dc
    = [Z.of_nat (length da); azims (grid_info p); gates (grid_info p)]
}.

Lemma checks_pass_iff (p : Processor V DT) :
  ProcSpec.calibration_checks p = Ok tt <-> exists ca da cc dc, calibrated p ca da cc dc.
Proof.
  unfold ProcSpec.calibration_checks, verify_universal_calib, verify_specific_calib.
  split.
  - case_bool_decide as H1; cbn [negb bind]; [|discriminate].
    case_bool_decide as H2; cbn [negb bind]; [|discriminate].
    case_bool_decide as H3; cbn [negb bind]; [|discriminate].
    destruct (convol_angles p) as [ca|] eqn:Eca; cbn [getattr bind]; [|discriminate].
    destruct (dopvol_angles p) as [da|] eqn:Eda; cbn [getattr bind]; [|discriminate].
    destruct (Nat.leb_spec (length ca) 1); [discriminate|].
    destruct (Nat.leb_spec (length da) 1); [discriminate|].
    destruct (convol_clutter p) as [cc|] eqn:Ecc; cbn [getattr bind]; [|discriminate].
    case_bool_decide as H4; cbn [negb bind]; [|discriminate].
    destruct (dopvol_clutter p) as [dc|] eqn:Edc; cbn [getattr bind]; [|discriminate].
    case_bool_decide as H5; cbn [negb bind]; [|discriminate].
    intros _. exists ca, da, cc, dc. constructor; (done || lia).
  - intros (ca & da & cc & dc & []).
    rewrite !bool_decide_eq_true_2 by done. cbn [negb bind].
    rewrite cal_convol_angles0, cal_dopvol_angles0. cbn [getattr bind].
    destruct (Nat.leb_spec (length ca) 1); [lia|].
    destruct (Nat.leb_spec (length da) 1); [lia|].
    rewrite cal_convol_clutter0, cal_dopvol_clutter0. cbn [getattr bind].
    rewrite !bool_decide_eq_true_2 by done. reflexivity.
Qed.

(** X9.  The two calibration checks of [IrisProcessor.__init__] pass
    exactly on the processors described by [calibrated]. *)
Theorem calibration_checks_pass_iff (p : Processor V DT) :
  ProcSpec.calibration_checks p = Ok tt <-> exists ca da cc dc, calibrated p ca da cc dc.
Proof. apply checks_pass_iff. Qed.

(** The processor that the constructor assembles from the configuration
    file and a calibration file. *)
Definition assembled (e : Env V) (metadata : Metadata V DT) (grid_info : GridInfo)
    (calib : CalibFile V) : Processor V DT :=
  mk_processor (config_json e) metadata grid_info (calib_filepath metadata grid_info) None
    (var_lats calib) (var_lons calib) (var_altitude calib)
    (Some (var_convol_angles calib)) (Some (var_dopvol_angles calib))
    (Some (var_convol_clutter calib)) (Some (var_dopvol_clutter calib)).

Lemma shape_length {A : Type} (a : Np.ndarray A) (s : list Z) :
  Z.of_nat <$> Np.shape a = s -> Np.ndim a = length s.
Proof. intros <-. unfold Np.ndim. by rewrite length_fmap. Qed.

Lemma full_slices_ok {A : Type} (k : nat) (a : Np.ndarray A) :
  (k <= Np.ndim a)%nat -> Np.full_slices k a = Ok a.
Proof.
  intros H. unfold Np.full_slices. destruct (Nat.ltb_spec (Np.ndim a) k); [lia|done].
Qed.

Lemma full_slices_inv {A : Type} (k : nat) (a b : Np.ndarray A) :
  Np.full_slices k a = Ok b -> b = a.
Proof. unfold Np.full_slices. case_match; [discriminate|]. by intros [= <-]. Qed.

Lemma init_iff (m : Metadata V DT) (g : GridInfo) (e e' : Env V) (p : Processor V DT) :
  IrisProcessor_init calib_filepath m g e = (Ok p, e') <->
  e' = e /\
  exists calib,
    calib_store e !! calib_filepath m g = Some calib /\
    p = assembled e m g calib /\
    ProcSpec.calibration_checks p = Ok tt.
Proof.
  unfold IrisProcessor_init, Processor_init, load_specific_calib, load_universal_calib.
  unfold ProcSpec.calibration_checks, io_bind, io_get, io_lift, io_ret, io_raise.
  destruct (calib_store e !! calib_filepath m g) as [calib|] eqn:Ecal.
  2:{ split; [discriminate|]. intros (_ & calib & [=] & _). }
  split.
  - destruct (Np.full_slices 2 (var_lats calib)) as [la|] eqn:Ela; cbn [bind];
      [|discriminate].
    destruct (Np.full_slices 2 (var_lons calib)) as [lo|] eqn:Elo; cbn [bind];
      [|discriminate].
    destruct (Np.full_slices 2 (var_altitude calib)) as [al|] eqn:Eal; cbn [bind];
      [|discriminate].
    apply full_slices_inv in Ela, Elo, Eal. subst la lo al. cbn [fst snd].
    destruct (verify_universal_calib _) as [[]|] eqn:Eu; [|discriminate].
    cbn [calib_file]. rewrite Ecal.
    destruct (Np.full_slices 3 (var_convol_clutter calib)) as [cc|] eqn:Ecc;
      [|discriminate].
    destruct (Np.full_slices 3 (var_dopvol_clutter calib)) as [dc|] eqn:Edc;
      [|discriminate].
    apply full_slices_inv in Ecc, Edc. subst cc dc.
    cbn [config metadata grid_info calib_file plotter lats lons altitude].
    destruct (verify_specific_calib _) as [[]|] eqn:Es; [|discriminate].
    intros [= <- <-]. split; [done|]. exists calib. split; [done|]. split; [done|].
    unfold assembled.
    replace (verify_universal_calib _) with (Ok tt : res unit)
      by (rewrite <- Eu; reflexivity).
    exact Es.
  - intros (-> & calib' & [= <-] & -> & Hc).
    apply checks_pass_iff in Hc as (ca & da & cc & dc & Hc).
    destruct Hc. unfold assembled in *.
    cbn [lats lons altitude grid_info convol_angles dopvol_angles
         convol_clutter dopvol_clutter] in *.
    simplify_eq.
    rewrite !full_slices_ok by (erewrite shape_length by eassumption; cbn; lia).
    cbn [bind fst snd].
    assert (Eu : verify_universal_calib
                   (mk_processor (config_json e) m g (calib_filepath m g) None
                      (var_lats calib) (var_lons calib) (var_altitude calib)
                      None None None None) = Ok tt).
    { unfold verify_universal_calib. cbn [lats lons altitude grid_info].
      rewrite !bool_decide_eq_true_2 by done. reflexivity. }
    rewrite Eu. cbn [calib_file]. rewrite Ecal.
    rewrite !full_slices_ok by (erewrite shape_length by eassumption; cbn; lia).
    cbn [config metadata grid_info calib_file plotter lats lons altitude].
    assert (Es : verify_specific_calib
                   (mk_processor (config_json e) m g (calib_filepath m g) None
                      (var_lats calib) (var_lons calib) (var_altitude calib)
                      (Some (var_convol_angles calib)) (Some (var_dopvol_angles calib))
                      (Some (var_convol_clutter calib)) (Some (var_dopvol_clutter calib)))
                 = Ok tt).
    { unfold verify_specific_calib.
      cbn [convol_angles dopvol_angles convol_clutter dopvol_clutter grid_info
           getattr bind].
      destruct (Nat.leb_spec (length (var_convol_angles calib)) 1); [lia|].
      destruct (Nat.leb_spec (length (var_dopvol_angles calib)) 1); [lia|].
      rewrite !bool_decide_eq_true_2 by done. reflexivity. }
    rewrite Es. reflexivity.
Qed.

(** X10.  [IrisProcessor(metadata, grid_info)] returns a processor exactly
    when the calibration file of the radar exists and what it holds passes
    the calibration checks.  The processor is then the one assembled from
    the configuration file and the calibration file, without a plotter, and
    the environment is as before. *)
Theorem constructor_returns_iff (m : Metadata V DT) (g : GridInfo) (e e' : Env V)
    (p : Processor V DT) :
  IrisProcessor_init calib_filepath m g e = (Ok p, e') <->
  e' = e /\
  exists calib,
    calib_store e !! calib_filepath m g = Some calib /\
    p = assembled e m g calib /\
    ProcSpec.calibration_checks p = Ok tt.
Proof. apply init_iff. Qed.

(** X11.  The constructor only reads: however it ends, the environment is
    as before.  Without a calibration file at the path of the radar it
    raises [FileNotFoundError]. *)
Theorem constructor_reads_only (m : Metadata V DT) (g : GridInfo) (e : Env V) :
  (IrisProcessor_init calib_filepath m g e).2 = e /\
  (calib_store e !! calib_filepath m g = None ->
   (IrisProcessor_init calib_filepath m g e).1
   = Raise (FileNotFoundError "Missing calib file")).
Proof.
  unfold IrisProcessor_init, Processor_init, load_specific_calib.
  unfold io_bind, io_get, io_lift, io_ret, io_raise.
  split.
  - repeat (case_match; simplify_eq; cbn [fst snd] in *; try done).
  - intros ->. reflexivity.
Qed.

(** X12.  Once the three grids have passed, a family with fewer than two
    calibration angles makes the checks raise [ValueError], CONVOL being
    looked at first; the clutter volumes are not looked at. *)
Theorem too_few_angles (p : Processor V DT) (ca da : list V) :
  verify_universal_calib p = Ok tt ->
  convol_angles p = Some ca -> dopvol_angles p = Some da ->
  (length ca <= 1)%nat \/ (length da <= 1)%nat ->
  ProcSpec.calibration_checks p
  = Raise (ValueError (if (length ca <=? 1)%nat
                       then "Not enough CONVOL angles in calib"
                       else "Not enough DOPVOL angles in calib")).
Proof.
  intros Hu Eca Eda Hfew.
  unfold ProcSpec.calibration_checks, verify_specific_calib.
  rewrite Hu, Eca, Eda. cbn [bind getattr].
  destruct (Nat.leb_spec (length ca) 1); [reflexivity|].
  destruct (Nat.leb_spec (length da) 1); [reflexivity|lia].
Qed.

(** X13.  A processor as its constructor returns it has no plotter, and
    cannot process: [process_set] raises [ValueError] from its first plot,
    before a filter is built or a volume changed, and leaves the store as
    it was; [process_sets] raises it on the first set of a list, the later
    sets being left alone, and returns on the empty list. *)
Theorem fresh_processor_cannot_process (m : Metadata V DT) (g : GridInfo)
    (e e' : Env V) (st : Run V DT) :
  IrisProcessor_init calib_filepath m g e = (Ok (self st), e') ->
  process_set linregress gt st
    = (Raise (ValueError "Plotter has not been initialized!"), st) /\
  process_sets linregress gt [] st = (Ok tt, st) /\
  forall d rest,
    process_sets linregress gt (d :: rest) st
    = (Raise (ValueError "Plotter has not been initialized!"),
       mk_run (self st) d (arrays st) (env st)).
Proof.
  intros Hinit. apply init_iff in Hinit as (_ & calib & _ & Hp & _).
  assert (Hpl : plotter (self st) = None) by (by rewrite Hp).
  split; [|split].
  - unfold process_set, plot_iris, io_bind, io_get. by rewrite Hpl.
  - reflexivity.
  - intros d rest. cbn [process_sets for_each].
    unfold process_set, plot_iris, io_bind, io_get, set_iris_data. cbn [self].
    by rewrite Hpl.
Qed.

End Construction.

(** *** Instances on the test data *)

Lemma constructor_reads_only_witness :
  IrisProcessor_init Scenario.calib_filepath Scenario.meta Scenario.grid8 Scenario.env8
  = (Raise (FileNotFoundError "Missing calib file"), Scenario.env8).
Proof.
  destruct (constructor_reads_only Scenario.calib_filepath Scenario.meta Scenario.grid8
              Scenario.env8) as [H2 H1].
  specialize (H1 eq_refl).
  destruct (IrisProcessor_init _ _ _ _) as [r e]. cbn [fst snd] in *. by subst.
Defined.

Lemma too_few_angles_witness :
  ProcSpec.calibration_checks Cases.processor_1angle
  = Raise (ValueError "Not enough CONVOL angles in calib").
Proof.
  apply (too_few_angles Cases.processor_1angle [Scenario.Num (1 # 2)] Scenario.angles2);
    try reflexivity.
  left. cbn. lia.
Defined.

Lemma fresh_processor_cannot_process_witness :
  let st := mk_run Cases.processor4 (iris_data Scenario.run8) (arrays Scenario.run8)
              Cases.env4 in
  IrisProcessor_init Scenario.calib_filepath Scenario.meta Scenario.grid4 Cases.env4
    = (Ok Cases.processor4, Cases.env4) /\
  process_set Scenario.linregress Scenario.gt st
    = (Raise (ValueError "Plotter has not been initialized!"), st).
Proof.
  cbv zeta.
  assert (H : IrisProcessor_init Scenario.calib_filepath Scenario.meta Scenario.grid4
                Cases.env4 = (Ok Cases.processor4, Cases.env4))
    by (vm_compute; reflexivity).
  split; [exact H|].
  exact (proj1 (fresh_processor_cannot_process Scenario.linregress Scenario.gt
                  Scenario.calib_filepath Scenario.meta Scenario.grid4
                  Cases.env4 Cases.env4
                  (mk_run Cases.processor4 (iris_data Scenario.run8)
                     (arrays Scenario.run8) Cases.env4) H)).
Defined.

End ProcFacts.

(* ===================================================================== *)
(** * Further properties of the detection                                *)
(* ===================================================================== *)

Module DetectFacts.

Import Py Core Proc.

Section Detection.

Context {V DT : Type}.
Variable linregress : list V -> list (option V) -> res V.
Variable gt : V -> V -> bool.

(** ** The processor after a detection *)

(** X14.  However detection ends, the processor is left with the
    configuration that the file holds at the time of the call, in place of
    the one it had, and with every other attribute as it was; the
    environment is as before. *)
Theorem detection_reloads_configuration (cp dp : PrecipFilter) (st : Run V DT) :
  self (filter_precip linregress gt cp dp st).2 = ProcSpec.reload st /\
  config (self (filter_precip linregress gt cp dp st).2) = config_json (env st) /\
  env (filter_precip linregress gt cp dp st).2 = env st.
Proof.
  destruct (filter_precip linregress gt cp dp st) as [r st'] eqn:E.
  apply ProcSpec.filter_precip_reloads in E as [Hs He]. cbn [snd].
  split; [done|]. split; [by rewrite Hs|done].
Qed.

(** ** Region sizes that are not positive *)

(** X15.  A region size of zero in the configuration file makes detection
    raise [ZeroDivisionError], not [ValueError]: from the azimuth region
    at once, from the gate region once the azimuth region has been found to
    divide.  No array and no volume has been touched. *)
Theorem zero_region_size (cp dp : PrecipFilter) (st : Run V DT) :
  azim_region (precip (config_json (env st))) = 0%Z \/
  (azim_region (precip (config_json (env st))) <> 0%Z /\
   (azims (grid_info (self st)) mod azim_region (precip (config_json (env st))) = 0)%Z /\
   gate_region (precip (config_json (env st))) = 0%Z) ->
  exists msg,
    filter_precip linregress gt cp dp st
    = (Raise (ZeroDivisionError msg),
       mk_run (ProcSpec.reload st) (iris_data st) (arrays st) (env st)).
Proof.
  intros H. eexists. unfold filter_precip. rewrite ProcSpec.io_bind_get.
  unfold io_bind at 1. cbn [set_self]. rewrite ProcSpec.io_bind_get. cbv zeta.
  cbn [self config grid_info precip]. unfold mod_.
  destruct H as [Ha|(Ha & Hd & Hg)].
  - rewrite Ha. reflexivity.
  - rewrite (proj2 (Z.eqb_neq _ 0) Ha). unfold io_bind at 1. cbn [io_lift].
    rewrite Hd. cbn [Z.eqb negb]. rewrite Hg. reflexivity.
Qed.

Lemma for_each_nothing {A : Type} (l : list A) (body : A -> io (Run V DT) unit) s :
  (forall x, body x s = (Ok tt, s)) -> for_each l body s = (Ok tt, s).
Proof.
  intros Hb. induction l as [|x l IH]; cbn; [done|].
  unfold io_bind. by rewrite Hb.
Qed.

(** X16.  Region sizes that divide the grid and of which one is negative
    give no zone: detection returns without fitting a slope and without
    setting a cell. *)
Theorem negative_region_size (cp dp : PrecipFilter) (st : Run V DT) (ar gr : Z) :
  azim_region (precip (config_json (env st))) = ar ->
  gate_region (precip (config_json (env st))) = gr ->
  (0 <= azims (grid_info (self st)))%Z -> (0 <= gates (grid_info (self st)))%Z ->
  ar <> 0%Z -> gr <> 0%Z ->
  (azims (grid_info (self st)) mod ar = 0)%Z ->
  (gates (grid_info (self st)) mod gr = 0)%Z ->
  (ar < 0)%Z \/ (gr < 0)%Z ->
  filter_precip linregress gt cp dp st
  = (Ok tt, mk_run (ProcSpec.reload st) (iris_data st) (arrays st) (env st)).
Proof.
  intros Har Hgr Hna Hng Ha0 Hg0 Hda Hdg Hneg.
  unfold filter_precip. rewrite ProcSpec.io_bind_get.
  unfold io_bind at 1. cbn [set_self]. rewrite ProcSpec.io_bind_get. cbv zeta.
  cbn [self config grid_info precip]. rewrite Har, Hgr. unfold mod_, floordiv.
  rewrite (proj2 (Z.eqb_neq _ 0) Ha0), (proj2 (Z.eqb_neq _ 0) Hg0).
  unfold io_bind at 1. cbn [io_lift]. rewrite Hda. cbn [Z.eqb negb].
  unfold io_bind at 1. cbn [io_lift]. rewrite Hdg. cbn [Z.eqb negb].
  unfold io_bind at 1. cbn [io_lift]. unfold io_bind at 1. cbn [io_lift].
  destruct Hneg as [Hn|Hn].
  - assert (Hz : (azims (grid_info (self st)) / ar <= 0)%Z).
    { apply Z.div_exact in Hda; [|done]. nia. }
    unfold range at 1. rewrite Z2Nat.nonpos by done. reflexivity.
  - assert (Hz : (gates (grid_info (self st)) / gr <= 0)%Z).
    { apply Z.div_exact in Hdg; [|done]. nia. }
    apply for_each_nothing. intros x.
    unfold range. rewrite Z2Nat.nonpos by done. reflexivity.
Qed.

(** ** The check of [determine_zone_slope] *)

Lemma zone_cells_error {A : Type} (a : Np.ndarray A) x lo_a hi_a lo_g hi_g e :
  zone_cells a x lo_a hi_a lo_g hi_g = Raise e -> is_ValueError e = false.
Proof.
  unfold zone_cells. repeat case_match; intros [= <-]; reflexivity.
Qed.

Lemma zone_flat_cases (m : MaskedArray V) x lo_a hi_a lo_g hi_g (st : Run V DT) :
  exists r, zone_flat m x lo_a hi_a lo_g hi_g st = (r, st) /\
            forall e, r = Raise e -> is_ValueError e = false.
Proof.
  unfold zone_flat, getmask, deref. unfold io_bind, io_lift, io_ret.
  destruct (zone_cells (ma_data m) x lo_a hi_a lo_g hi_g) as [zd|e0] eqn:E0.
  2:{ eexists. split; [reflexivity|]. intros e [= <-]. by eapply zone_cells_error. }
  destruct (ma_mask m) as [l|].
  2:{ eexists. split; [reflexivity|]. discriminate. }
  destruct (arrays st !! l) as [mk|]; cbv beta iota.
  2:{ eexists. split; [reflexivity|]. by intros e [= <-]. }
  destruct (zone_cells mk x lo_a hi_a lo_g hi_g) as [zm|e1] eqn:E1.
  2:{ eexists. split; [reflexivity|]. intros e [= <-]. by eapply zone_cells_error. }
  eexists. split; [reflexivity|]. discriminate.
Qed.

Lemma gather_lengths (angles : list V) x lo_a hi_a lo_g hi_g (st : Run V DT) :
  exists r, gather angles x lo_a hi_a lo_g hi_g st = (r, st) /\
            match r with
            | Ok l => length l.1 = length l.2
            | Raise e => is_ValueError e = false
            end.
Proof.
  revert x. induction angles as [|angle rest IH]; intros x; cbn [gather].
  - eexists. split; [reflexivity|]. reflexivity.
  - rewrite ProcSpec.io_bind_get. unfold io_bind at 1.
    destruct (zone_flat_cases (convol (iris_data st)) x lo_a hi_a lo_g hi_g st)
      as (r1 & -> & H1).
    destruct r1 as [zf|e1]; [|eexists; split; [reflexivity|by apply H1]].
    unfold io_bind at 1. destruct (IH (S x)) as (r2 & -> & H2).
    destruct r2 as [[al dl]|e2]; [|by eexists].
    eexists. split; [reflexivity|]. cbn [fst snd] in *.
    by rewrite !length_app, length_replicate, H2.
Qed.

Lemma slope_cases (x y : Z) (st : Run V DT) :
  exists r,
    determine_zone_slope linregress x y st = (r, st) /\
    ((exists angle_list dbz_list,
        length angle_list = length dbz_list /\ r = linregress angle_list dbz_list) \/
     (exists e, r = Raise e /\ is_ValueError e = false)).
Proof.
  unfold determine_zone_slope. rewrite ProcSpec.io_bind_get.
  destruct (convol_angles (self st)) as [angles|]; cbn [getattr].
  2:{ eexists. split; [reflexivity|]. right. eexists. split; reflexivity. }
  unfold io_bind at 1. cbn [io_lift]. unfold io_bind at 1.
  match goal with |- context [gather angles 0 ?a ?b ?c ?d st] =>
    destruct (gather_lengths angles 0 a b c d st) as (r & -> & Hr)
  end.
  destruct r as [[al dl]|e]; cbn [fst snd] in *.
  - rewrite Hr, Nat.eqb_refl. cbn [negb io_lift].
    eexists. split; [reflexivity|]. left. exists al, dl. split; [exact Hr|reflexivity].
  - eexists. split; [reflexivity|]. right. exists e. split; [reflexivity|exact Hr].
Qed.

(** X17.  The check that [determine_zone_slope] makes before the
    regression never fails: when it is reached the two lists are of one
    length.  The call leaves the store as it was, and either returns what
    [linregress] returns on two lists of one length, or raises an error
    that is not a [ValueError], from reading an attribute or slicing. *)
Theorem zone_slope_check_never_fails (x y : Z) (st : Run V DT) :
  (determine_zone_slope linregress x y st).2 = st /\
  ((exists angle_list dbz_list,
      length angle_list = length dbz_list /\
      (determine_zone_slope linregress x y st).1 = linregress angle_list dbz_list) \/
   (exists e,
      (determine_zone_slope linregress x y st).1 = Raise e /\ is_ValueError e = false)).
Proof.
  destruct (slope_cases x y st) as (r & -> & H). cbn [fst snd]. done.
Qed.

(** ** Filters that are in use already *)

(** The preconditions of the detection, on a store [st] and two filters
    that hold the arrays [fc] and [fd]: as for fresh filters, except that
    the arrays may have cells set. *)
Record prepared (st : Run V DT) (cp dp : PrecipFilter)
    (ar gr ne na ng nc nd : nat) (angles : list V) (fc fd : Np.ndarray bool)
  : Prop := mk_prepared {
  pr_azim_region : azim_region (precip (config_json (env st))) = Z.of_nat ar;
  pr_gate_region : gate_region (precip (config_json (env st))) = Z.of_nat gr;
  pr_azim_pos : (0 < ar)%nat;
  pr_gate_pos : (0 < gr)%nat;
  pr_azims : azims (grid_info (self st)) = Z.of_nat na;
  pr_gates : gates (grid_info (self st)) = Z.of_nat ng;
  pr_azim_divides : (na mod ar = 0)%nat;
  pr_gate_divides : (ng mod gr = 0)%nat;
  pr_angles : convol_angles (self st) = Some angles;
  pr_scans : (length angles <= ne)%nat;
  pr_volume : ProcSpec.volume_ok (arrays st) (convol (iris_data st)) ne na ng;
  pr_apart : forall l, ma_mask (convol (iris_data st)) = Some l ->
               l <> filter_3d cp /\ l <> filter_3d dp;
  pr_convol_filter : arrays st !! filter_3d cp = Some fc;
  pr_convol_shape : Np.shape fc = [nc; na; ng];
  pr_convol_wf : Np.wf fc;
  pr_dopvol_filter : arrays st !! filter_3d dp = Some fd;
  pr_dopvol_shape : Np.shape fd = [nd; na; ng];
  pr_dopvol_wf : Np.wf fd;
  pr_regression : forall x y, (x < na / ar)%nat -> (y < ng / gr)%nat ->
    exists slope,
      ProcSpec.zone_slope linregress angles (ma_data (convol (iris_data st)))
        (ProcSpec.mask_of (arrays st) (convol (iris_data st))) ar gr x y = Ok slope
}.

Lemma cell_decode (n na ng k : nat) :
  (k < n * (na * (ng * 1)))%nat ->
  (k / ng / na < n)%nat /\ ((k / ng) mod na < na)%nat /\ (k mod ng < ng)%nat /\
  ((k / ng / na * na + (k / ng) mod na) * ng + k mod ng)%nat = k.
Proof.
  intros Hk. rewrite Nat.mul_1_r in Hk.
  assert (ng <> 0)%nat by (intros ->; lia).
  assert (na <> 0)%nat by (intros ->; lia).
  split; [|split; [|split]].
  - apply Nat.Div0.div_lt_upper_bound, Nat.Div0.div_lt_upper_bound. lia.
  - by apply Nat.mod_upper_bound.
  - by apply Nat.mod_upper_bound.
  - pose proof (Nat.div_mod_eq k ng). pose proof (Nat.div_mod_eq (k / ng) na). lia.
Qed.

Lemma array_ext3 {A : Type} (a b : Np.ndarray A) (n na ng : nat) :
  Np.shape a = [n; na; ng] -> Np.shape b = [n; na; ng] -> Np.wf a -> Np.wf b ->
  (forall e i j, (e < n)%nat -> (i < na)%nat -> (j < ng)%nat ->
     Np.get3 a e i j = Np.get3 b e i j) ->
  a = b.
Proof.
  intros Ha Hb Hwa Hwb Hg. destruct a as [sa fa], b as [sb fb].
  unfold Np.wf in *. cbn [Np.shape Np.flat] in *. subst sa sb. f_equal.
  cbn in Hwa, Hwb. apply list_eq. intros k.
  destruct (decide (k < n * (na * (ng * 1)))%nat) as [Hk|Hk].
  - destruct (cell_decode n na ng k Hk) as (He & Hi & Hj & Hd).
    specialize (Hg _ _ _ He Hi Hj).
    rewrite !(ProcSpec.get3_lookup _ n na ng) in Hg by done.
    cbn [Np.flat] in Hg. by rewrite Hd in Hg.
  - rewrite !(proj2 (lookup_ge_None _ _)) by lia. done.
Qed.

Lemma prepared_again (st st' : Run V DT) (cp dp : PrecipFilter)
    (ar gr ne na ng nc nd : nat) (angles : list V) (fc fd fc' fd' : Np.ndarray bool)
    (h : nat -> nat -> bool) :
  prepared st cp dp ar gr ne na ng nc nd angles fc fd ->
  env st' = env st ->
  ProcSpec.reached (mk_run (ProcSpec.reload st) (iris_data st) (arrays st) (env st))
    cp dp nc nd na ng fc fd h st' ->
  arrays st' !! filter_3d cp = Some fc' -> arrays st' !! filter_3d dp = Some fd' ->
  prepared st' cp dp ar gr ne na ng nc nd angles fc' fd' /\
  ProcSpec.mask_of (arrays st') (convol (iris_data st'))
  = ProcSpec.mask_of (arrays st) (convol (iris_data st)) /\
  ProcSpec.painted nc na ng fc fc' h /\ ProcSpec.painted nd na ng fd fd' h.
Proof.
  intros [] Henv (Hself & Hiris & Hframe & (f & Hf & Pf) & (g & Hg & Pg)) Hfc Hfd.
  cbn [self iris_data arrays env] in *.
  assert (f = fc') by congruence. assert (g = fd') by congruence. subst f g.
  assert (Hmask : ProcSpec.mask_of (arrays st') (convol (iris_data st'))
                  = ProcSpec.mask_of (arrays st) (convol (iris_data st))).
  { rewrite Hiris. unfold ProcSpec.mask_of.
    destruct (ma_mask (convol (iris_data st))) as [l|] eqn:El; [|done].
    destruct (pr_apart0 l eq_refl). by apply Hframe. }
  split; [|by split].
  destruct Pf as (? & ? & _). destruct Pg as (? & ? & _).
  constructor; try done.
  - by rewrite Henv.
  - by rewrite Henv.
  - by rewrite Hself.
  - by rewrite Hself.
  - by rewrite Hself.
  - rewrite Hiris. destruct pr_volume0 as (? & ? & Hm). split; [done|]. split; [done|].
    intros l El. destruct (pr_apart0 l El). rewrite Hframe by done. by apply Hm.
  - by rewrite Hiris.
  - intros x y Hx Hy. rewrite Hmask, Hiris. by apply pr_regression0.
Qed.

Lemma detection_on_used_filters (st : Run V DT) (cp dp : PrecipFilter)
    (ar gr ne na ng nc nd : nat) (angles : list V) (fc fd : Np.ndarray bool) :
  prepared st cp dp ar gr ne na ng nc nd angles fc fd ->
  exists st' fc' fd',
    filter_precip linregress gt cp dp st = (Ok tt, st') /\
    arrays st' !! filter_3d cp = Some fc' /\ arrays st' !! filter_3d dp = Some fd' /\
    prepared st' cp dp ar gr ne na ng nc nd angles fc' fd' /\
    self st' = ProcSpec.reload st /\ env st' = env st /\
    iris_data st' = iris_data st /\
    ProcSpec.mask_of (arrays st') (convol (iris_data st'))
    = ProcSpec.mask_of (arrays st) (convol (iris_data st)) /\
    (forall l, l <> filter_3d cp -> l <> filter_3d dp ->
       arrays st' !! l = arrays st !! l) /\
    ProcSpec.painted nc na ng fc fc'
      (fun i j => ProcSpec.zone_flag linregress gt st angles ar gr (i / ar)%nat (j / gr)%nat) /\
    ProcSpec.painted nd na ng fd fd'
      (fun i j => ProcSpec.zone_flag linregress gt st angles ar gr (i / ar)%nat (j / gr)%nat).
Proof.
  intros Hp. pose proof Hp as [].
  destruct (ProcSpec.filter_precip_spec linregress gt st cp dp ar gr ne na ng nc nd
              angles fc fd) as (st' & E & Hreached); try done.
  destruct (ProcSpec.filter_precip_reloads _ _ _ _ _ _ _ E) as [Hself Henv].
  pose proof Hreached as (_ & Hiris & Hframe & (fc' & Hfc' & _) & (fd' & Hfd' & _)).
  cbn [self iris_data arrays env] in *.
  destruct (prepared_again st st' cp dp ar gr ne na ng nc nd angles fc fd fc' fd' _
              Hp Henv Hreached Hfc' Hfd') as (Hp' & Hmask & Pc & Pd).
  exists st', fc', fd'. repeat (split; [done|]). done.
Qed.

(** X18.  Detection on filters that are in use: with the preconditions of
    the detection and filters whose arrays may have cells set, detection
    returns, and in each filter a cell is set afterwards exactly when it
    was set before or its zone is contaminated.  No cell is cleared.
    Detecting once more on the same volume changes nothing: the second call
    returns and leaves the store as the first left it. *)
Theorem detection_only_sets (st : Run V DT) (cp dp : PrecipFilter)
    (ar gr ne na ng nc nd : nat) (angles : list V) (fc fd : Np.ndarray bool) :
  prepared st cp dp ar gr ne na ng nc nd angles fc fd ->
  exists st' fc' fd',
    filter_precip linregress gt cp dp st = (Ok tt, st') /\
    arrays st' !! filter_3d cp = Some fc' /\ arrays st' !! filter_3d dp = Some fd' /\
    (forall e i j, (i < na)%nat -> (j < ng)%nat ->
       ((e < nc)%nat ->
        Np.get3 fc' e i j
        = (fun b => b || ProcSpec.zone_flag linregress gt st angles ar gr
                          (i / ar)%nat (j / gr)%nat) <$> Np.get3 fc e i j) /\
       ((e < nd)%nat ->
        Np.get3 fd' e i j
        = (fun b => b || ProcSpec.zone_flag linregress gt st angles ar gr
                          (i / ar)%nat (j / gr)%nat) <$> Np.get3 fd e i j)) /\
    filter_precip linregress gt cp dp st' = (Ok tt, st').
Proof.
  intros Hp.
  destruct (detection_on_used_filters st cp dp ar gr ne na ng nc nd angles fc fd Hp)
    as (st' & fc' & fd' & E & Hfc' & Hfd' & Hp' & Hself & Henv & Hiris & Hmask
        & Hframe & Pc & Pd).
  exists st', fc', fd'. do 3 (split; [done|]). split.
  { intros e i j Hi Hj. destruct Pc as (_ & _ & Hc). destruct Pd as (_ & _ & Hd).
    split; intros He; [by apply Hc|by apply Hd]. }
  destruct (detection_on_used_filters st' cp dp ar gr ne na ng nc nd angles fc' fd' Hp')
    as (st2 & fc2 & fd2 & E2 & Hfc2 & Hfd2 & _ & Hself2 & Henv2 & Hiris2 & _
        & Hframe2 & Pc2 & Pd2).
  rewrite E2. f_equal.
  assert (Hflag : forall i j,
            ProcSpec.zone_flag linregress gt st' angles ar gr i j
            = ProcSpec.zone_flag linregress gt st angles ar gr i j).
  { intros i j. unfold ProcSpec.zone_flag. by rewrite Hmask, Hiris, Henv. }
  assert (Hsame : forall n f0 f1 f2,
            ProcSpec.painted n na ng f0 f1
              (fun i j => ProcSpec.zone_flag linregress gt st angles ar gr
                            (i / ar)%nat (j / gr)%nat) ->
            ProcSpec.painted n na ng f1 f2
              (fun i j => ProcSpec.zone_flag linregress gt st' angles ar gr
                            (i / ar)%nat (j / gr)%nat) ->
            f2 = f1).
  { intros n f0 f1 f2 (Hs1 & Hw1 & Hg1) (Hs2 & Hw2 & Hg2).
    apply (array_ext3 f2 f1 n na ng); try done.
    intros e i j He Hi Hj. rewrite Hg2, Hg1, Hflag by done.
    destruct (Np.get3 f0 e i j) as [b|]; cbn; [|done].
    f_equal. by destruct b, (ProcSpec.zone_flag _ _ _ _ _ _ _ _). }
  assert (fc2 = fc') by (by eapply Hsame). assert (fd2 = fd') by (by eapply Hsame).
  subst fc2 fd2.
  assert (Harr : arrays st2 = arrays st').
  { apply map_eq. intros l.
    destruct (decide (l = filter_3d cp)) as [->|Hc]; [congruence|].
    destruct (decide (l = filter_3d dp)) as [->|Hd]; [congruence|].
    by apply Hframe2. }
  assert (Hs : self st2 = self st').
  { rewrite Hself2, Hself. unfold ProcSpec.reload. rewrite Henv, Hself.
    reflexivity. }
  destruct st2, st'. cbn [self iris_data arrays env] in *. congruence.
Qed.

End Detection.

(** *** Instances on the test data *)

Lemma zero_region_size_witness :
  exists msg,
    filter_precip Scenario.linregress Scenario.gt
      Scenario.convol_filter Scenario.dopvol_filter (Cases.run8_regions 0 4)
    = (Raise (ZeroDivisionError msg),
       mk_run (ProcSpec.reload (Cases.run8_regions 0 4))
         (iris_data Scenario.run8) (arrays Scenario.run8)
         (env (Cases.run8_regions 0 4))).
Proof.
  apply (zero_region_size Scenario.linregress Scenario.gt
           Scenario.convol_filter Scenario.dopvol_filter (Cases.run8_regions 0 4)).
  left. reflexivity.
Defined.

Lemma negative_region_size_witness :
  filter_precip Scenario.linregress Scenario.gt
    Scenario.convol_filter Scenario.dopvol_filter (Cases.run8_regions (-4) 4)
  = (Ok tt,
     mk_run (ProcSpec.reload (Cases.run8_regions (-4) 4))
       (iris_data Scenario.run8) (arrays Scenario.run8)
       (env (Cases.run8_regions (-4) 4))).
Proof.
  apply (negative_region_size Scenario.linregress Scenario.gt
           Scenario.convol_filter Scenario.dopvol_filter (Cases.run8_regions (-4) 4)
           (-4) 4); try reflexivity; try discriminate.
  left. reflexivity.
Defined.

Lemma run8_used_prepared :
  prepared Scenario.linregress Cases.run8_used
    Scenario.convol_filter Scenario.dopvol_filter 4 4 3 8 8 3 3 Scenario.angles3
    (Scenario.tabulate [3; 8; 8]%nat (fun k => ((k / 8) mod 8 =? 7)%nat))
    (Scenario.tabulate [3; 8; 8]%nat (fun k => (k mod 8 =? 0)%nat)).
Proof.
  constructor; try reflexivity; try lia.
  - split; [reflexivity|]. split; [reflexivity|]. intros l [=].
  - intros l [=].
  - intros x y Hx Hy.
    assert (Hx' : (x < 2)%nat) by exact Hx. assert (Hy' : (y < 2)%nat) by exact Hy.
    destruct x as [|[|x]]; [| |lia]; (destruct y as [|[|y]]; [| |lia]);
      eexists; vm_compute; reflexivity.
Defined.

Lemma detection_only_sets_witness :
  exists st' fc',
    filter_precip Scenario.linregress Scenario.gt
      Scenario.convol_filter Scenario.dopvol_filter Cases.run8_used = (Ok tt, st') /\
    arrays st' !! 1%positive = Some fc' /\
    Np.get3 fc' 0 7 7 = Some true /\ Np.get3 fc' 0 0 0 = Some true /\
    Np.get3 fc' 0 5 5 = Some false /\
    filter_precip Scenario.linregress Scenario.gt
      Scenario.convol_filter Scenario.dopvol_filter st' = (Ok tt, st').
Proof.
  destruct (detection_only_sets Scenario.linregress Scenario.gt Cases.run8_used
              Scenario.convol_filter Scenario.dopvol_filter
              4 4 3 8 8 3 3 Scenario.angles3 _ _ run8_used_prepared)
    as (st' & fc' & fd' & E & Hfc & _ & Hcells & Hagain).
  exists st', fc'. split; [exact E|]. split; [exact Hfc|].
  split; [|split; [|split; [|exact Hagain]]].
  - rewrite (proj1 (Hcells 0 7 7 ltac:(lia) ltac:(lia))%nat) by lia. reflexivity.
  - rewrite (proj1 (Hcells 0 0 0 ltac:(lia) ltac:(lia))%nat) by lia.
    vm_compute. reflexivity.
  - rewrite (proj1 (Hcells 0 5 5 ltac:(lia) ltac:(lia))%nat) by lia.
    vm_compute. reflexivity.
Defined.

End DetectFacts.

(* ===================================================================== *)
(** * Further properties of the fusion                                   *)
(* ===================================================================== *)

Module FusionFacts.

Import Py Core Proc.

Section Fusion.

Context {V DT : Type}.

(** The two errors that [impose_filter] raises from its own checks. *)
Definition size_error (e : exn) : bool :=
  match e with
  | ValueError msg =>
      String.eqb msg "Error in DOPVOL array size"
      || String.eqb msg "Error in new CONVOL array size"
  | _ => false
  end.

(** What a fusion may change.  The processor, the environment and the
    data of the two volumes are as before; every array that the store held
    is still there, as it was; the mask of a volume is the one it had or an
    array that the store did not hold. *)
Definition fusion_frame (s s' : Run V DT) : Prop :=
  self s' = self s /\ env s' = env s /\
  (forall l a, arrays s !! l = Some a -> arrays s' !! l = Some a) /\
  ma_data (convol (iris_data s')) = ma_data (convol (iris_data s)) /\
  ma_data (dopvol (iris_data s')) = ma_data (dopvol (iris_data s)) /\
  (ma_mask (convol (iris_data s')) = ma_mask (convol (iris_data s)) \/
   exists l, ma_mask (convol (iris_data s')) = Some l /\ arrays s !! l = None) /\
  (ma_mask (dopvol (iris_data s')) = ma_mask (dopvol (iris_data s)) \/
   exists l, ma_mask (dopvol (iris_data s')) = Some l /\ arrays s !! l = None).

Lemma fusion_frame_refl (s : Run V DT) : fusion_frame s s.
Proof. repeat split; auto. Qed.

Lemma getmask_cases (x : MaskedArray V) (st : Run V DT) :
  exists r, getmask x st = (r, st) /\ forall e, r = Raise e -> size_error e = false.
Proof.
  unfold getmask, deref. unfold io_bind, io_ret.
  destruct (ma_mask x) as [l|]; [|eexists; split; [reflexivity|discriminate]].
  destruct (arrays st !! l); eexists; (split; [reflexivity|]).
  - discriminate.
  - by intros e [= <-].
Qed.

Lemma mask_or_error (m1 : Np.ndarray bool) (m2 : option (Np.ndarray bool)) e :
  mask_or m1 m2 = Raise e -> size_error e = false.
Proof.
  unfold mask_or, Np.logical_or. destruct m2 as [m2|]; [|discriminate].
  destruct (Np.broadcast_shapes _ _); cbn; [discriminate|]. by intros [= <-].
Qed.

Lemma extends_none (s s' : Run V DT) (l : loc) :
  ProcSpec.extends s s' -> arrays s' !! l = None -> arrays s !! l = None.
Proof.
  intros (_ & _ & _ & He) Hl. destruct (arrays s !! l) as [a|] eqn:E; [|done].
  apply He in E. congruence.
Qed.

Lemma ma_array_frame (x : MaskedArray V) (mask : option (Np.ndarray bool))
    (st : Run V DT) :
  exists r st',
    ma_array x mask st = (r, st') /\ ProcSpec.extends st st' /\
    match r with
    | Ok x' =>
        ma_data x' = ma_data x /\
        (ma_mask x' = ma_mask x \/
         exists l, ma_mask x' = Some l /\ arrays st !! l = None)
    | Raise e => st' = st /\ size_error e = false
    end.
Proof.
  unfold ma_array. destruct mask as [m|].
  2:{ exists (Ok x), st. split; [reflexivity|]. split; [apply ProcSpec.extends_refl|].
      split; [done|by left]. }
  assert (Hjoin : forall m' : Np.ndarray bool,
            exists r st',
              io_bind (getmask x)
                (fun old =>
                   match old with
                   | None => io_bind (alloc m')
                               (fun l => io_ret (mk_ma (ma_data x) (Some l)))
                   | Some o =>
                       io_bind (io_lift (Np.logical_or m' o))
                         (fun r => io_bind (alloc r)
                            (fun l => io_ret (mk_ma (ma_data x) (Some l))))
                   end) st = (r, st') /\ ProcSpec.extends st st' /\
              match r with
              | Ok x' =>
                  ma_data x' = ma_data x /\
                  (ma_mask x' = ma_mask x \/
                   exists l, ma_mask x' = Some l /\ arrays st !! l = None)
              | Raise e => st' = st /\ size_error e = false
              end).
  { intros m'. unfold io_bind at 1.
    destruct (getmask_cases x st) as (r0 & -> & H0).
    destruct r0 as [[o|]|e0].
    - unfold io_bind at 1. cbn [io_lift].
      destruct (Np.logical_or m' o) as [r|e] eqn:El.
      + destruct (ProcSpec.alloc_spec r st) as (l & E & Hl).
        unfold io_bind. rewrite E. cbn [io_ret].
        do 2 eexists. split; [reflexivity|].
        split; [by apply ProcSpec.extends_alloc|]. split; [done|].
        right. by exists l.
      + do 2 eexists. split; [reflexivity|]. split; [apply ProcSpec.extends_refl|].
        split; [done|].
        unfold Np.logical_or in El. destruct (Np.broadcast_shapes _ _); [discriminate|].
        by injection El as <-.
    - destruct (ProcSpec.alloc_spec m' st) as (l & E & Hl).
      unfold io_bind. rewrite E. cbn [io_ret].
      do 2 eexists. split; [reflexivity|].
      split; [by apply ProcSpec.extends_alloc|]. split; [done|].
      right. by exists l.
    - do 2 eexists. split; [reflexivity|]. split; [apply ProcSpec.extends_refl|].
      split; [done|by apply H0]. }
  unfold io_bind at 1. cbn [io_lift].
  case_bool_decide as Hs; [apply Hjoin|].
  destruct (Np.size m =? 1)%nat; [apply Hjoin|].
  destruct (Np.size m =? Np.size (ma_data x))%nat; [apply Hjoin|].
  do 2 eexists. split; [reflexivity|]. split; [apply ProcSpec.extends_refl|].
  split; reflexivity.
Qed.

Lemma impose_filter_frame (np_convol np_dopvol : Np.ndarray bool) (st : Run V DT) :
  exists r st',
    impose_filter np_convol np_dopvol st = (r, st') /\ fusion_frame st st' /\
    forall e, r = Raise e -> size_error e = false.
Proof.
  unfold impose_filter. rewrite ProcSpec.io_bind_get.
  unfold io_bind at 1.
  destruct (getmask_cases (dopvol (iris_data st)) st) as (rd & -> & Hrd).
  destruct rd as [rawd|e].
  2:{ do 2 eexists. split; [reflexivity|]. split; [apply fusion_frame_refl|].
      intros e' [= <-]. by apply Hrd. }
  unfold io_bind at 1.
  destruct (getmask_cases (convol (iris_data st)) st) as (rc & -> & Hrc).
  destruct rc as [rawc|e].
  2:{ do 2 eexists. split; [reflexivity|]. split; [apply fusion_frame_refl|].
      intros e' [= <-]. by apply Hrc. }
  unfold io_bind at 1. cbn [io_lift].
  destruct (mask_or np_dopvol rawd) as [dmask|e] eqn:Ed.
  2:{ do 2 eexists. split; [reflexivity|]. split; [apply fusion_frame_refl|].
      intros e' [= <-]. by eapply mask_or_error. }
  unfold io_bind at 1. cbn [io_lift].
  destruct (mask_or np_convol rawc) as [cmask|e] eqn:Ec.
  2:{ do 2 eexists. split; [reflexivity|]. split; [apply fusion_frame_refl|].
      intros e' [= <-]. by eapply mask_or_error. }
  destruct (ma_array_frame (dopvol (iris_data st)) dmask st)
    as (r1 & st1 & E1 & Hx1 & Hr1).
  unfold io_bind at 1. rewrite E1.
  destruct r1 as [d|e1].
  2:{ destruct Hr1 as [-> He1]. do 2 eexists. split; [reflexivity|].
      split; [apply fusion_frame_refl|]. by intros e' [= <-]. }
  destruct Hr1 as [Hd1 Hm1].
  pose proof Hx1 as (Hself1 & Hiris1 & Henv1 & Hext1).
  rewrite ProcSpec.io_bind_get. unfold io_bind at 1. cbn [set_iris_data].
  rewrite ProcSpec.io_bind_get. cbn [iris_data convol]. rewrite Hiris1.
  set (st2 := mk_run (self st1) (mk_iris_data (convol (iris_data st)) d)
                (arrays st1) (env st1)).
  destruct (ma_array_frame (convol (iris_data st)) cmask st2)
    as (r2 & st3 & E2 & Hx2 & Hr2).
  unfold io_bind at 1. rewrite E2.
  destruct r2 as [c|e2].
  2:{ destruct Hr2 as [-> He2]. do 2 eexists. split; [reflexivity|]. split.
      - unfold fusion_frame, st2. cbn [self iris_data arrays env convol dopvol].
        repeat (split; [done|]). split; [by left|done].
      - by intros e' [= <-]. }
  destruct Hr2 as [Hd2 Hm2].
  pose proof Hx2 as (Hself2 & Hiris2 & Henv2 & Hext2).
  rewrite ProcSpec.io_bind_get. unfold io_bind at 1. cbn [set_iris_data].
  rewrite ProcSpec.io_bind_get. cbn [iris_data convol dopvol]. rewrite Hiris2.
  cbn [st2 iris_data dopvol]. rewrite Hd1, Hd2.
  rewrite !bool_decide_eq_true_2 by done. cbn [negb io_ret].
  do 2 eexists. split; [reflexivity|]. split; [|discriminate].
  unfold fusion_frame. cbn [self iris_data arrays env convol dopvol].
  split; [by rewrite Hself2|]. split; [by rewrite Henv2|].
  split; [intros l a Hl; by apply Hext2, Hext1|].
  split; [done|]. split; [done|]. split; [|done].
  destruct Hm2 as [Hm2|(l & El & Hl)]; [by left|].
  right. exists l. split; [done|]. by apply (extends_none st st1).
Qed.

Lemma fuse_and_apply_frame (cp dp : PrecipFilter) (st : Run V DT) :
  exists r st',
    fuse_and_apply cp dp st = (r, st') /\ fusion_frame st st' /\
    forall e, r = Raise e -> size_error e = false.
Proof.
  unfold fuse_and_apply. rewrite ProcSpec.io_bind_get.
  destruct (convol_clutter (self st)) as [cc|]; cbn [getattr].
  2:{ do 2 eexists. split; [reflexivity|]. split; [apply fusion_frame_refl|].
      by intros e [= <-]. }
  unfold io_bind at 1. cbn [io_lift]. unfold io_bind at 1. unfold deref at 1.
  destruct (arrays st !! filter_3d cp) as [fc|].
  2:{ do 2 eexists. split; [reflexivity|]. split; [apply fusion_frame_refl|].
      by intros e [= <-]. }
  unfold io_bind at 1. cbn [io_lift].
  destruct (Np.logical_or _ fc) as [cj|e] eqn:Ecj.
  2:{ do 2 eexists. split; [reflexivity|]. split; [apply fusion_frame_refl|].
      intros e' [= <-]. unfold Np.logical_or in Ecj.
      destruct (Np.broadcast_shapes _ _); [discriminate|]. by injection Ecj as <-. }
  destruct (dopvol_clutter (self st)) as [dc|]; cbn [getattr].
  2:{ do 2 eexists. split; [reflexivity|]. split; [apply fusion_frame_refl|].
      by intros e [= <-]. }
  unfold io_bind at 1. cbn [io_lift]. unfold io_bind at 1. unfold deref at 1.
  destruct (arrays st !! filter_3d dp) as [fd|].
  2:{ do 2 eexists. split; [reflexivity|]. split; [apply fusion_frame_refl|].
      by intros e [= <-]. }
  unfold io_bind at 1. cbn [io_lift].
  destruct (Np.logical_or _ fd) as [dj|e] eqn:Edj.
  2:{ do 2 eexists. split; [reflexivity|]. split; [apply fusion_frame_refl|].
      intros e' [= <-]. unfold Np.logical_or in Edj.
      destruct (Np.broadcast_shapes _ _); [discriminate|]. by injection Edj as <-. }
  apply impose_filter_frame.
Qed.

(** X19.  The two checks at the end of [impose_filter] never fail: on no
    store and with no masks does [impose_filter], or the fusion of
    [process_set] that calls it, raise ["Error in DOPVOL array size"] or
    ["Error in new CONVOL array size"]. *)
Theorem size_checks_never_fail (np_convol np_dopvol : Np.ndarray bool)
    (cp dp : PrecipFilter) (st : Run V DT) :
  (impose_filter np_convol np_dopvol st).1
    <> Raise (ValueError "Error in DOPVOL array size") /\
  (impose_filter np_convol np_dopvol st).1
    <> Raise (ValueError "Error in new CONVOL array size") /\
  (fuse_and_apply cp dp st).1 <> Raise (ValueError "Error in DOPVOL array size") /\
  (fuse_and_apply cp dp st).1 <> Raise (ValueError "Error in new CONVOL array size").
Proof.
  destruct (impose_filter_frame np_convol np_dopvol st) as (r & st' & -> & _ & Hr).
  destruct (fuse_and_apply_frame cp dp st) as (r2 & st2 & -> & _ & Hr2).
  cbn [fst].
  repeat split; intros E;
    (apply Hr in E || apply Hr2 in E); discriminate.
Qed.

(** X20.  However the fusion of [process_set] ends, it has written no
    array that the store held: the two filters and the masks that the
    volumes had are as before.  The data of the volumes, the processor and
    the environment are as before.  The mask of a volume afterwards is the
    one it had or an array that is new to the store. *)
Theorem fusion_writes_no_existing_array (cp dp : PrecipFilter) (st : Run V DT) :
  fusion_frame st (fuse_and_apply cp dp st).2 /\
  (forall a, arrays st !! filter_3d cp = Some a ->
     arrays (fuse_and_apply cp dp st).2 !! filter_3d cp = Some a) /\
  (forall a, arrays st !! filter_3d dp = Some a ->
     arrays (fuse_and_apply cp dp st).2 !! filter_3d dp = Some a).
Proof.
  destruct (fuse_and_apply_frame cp dp st) as (r & st' & -> & Hf & _). cbn [snd].
  split; [exact Hf|].
  destruct Hf as (_ & _ & Hext & _).
  split; intros a; apply Hext.
Qed.

(** X21.  Fusion keeps the volumes apart from the filters: when the two
    filters hold arrays of the store and no volume has one of these arrays
    as its mask, the same is true after the fusion, however it ends. *)
Theorem fusion_keeps_masks_apart (cp dp : PrecipFilter) (st : Run V DT) :
  is_Some (arrays st !! filter_3d cp) -> is_Some (arrays st !! filter_3d dp) ->
  (forall l, ma_mask (convol (iris_data st)) = Some l \/
             ma_mask (dopvol (iris_data st)) = Some l ->
             l <> filter_3d cp /\ l <> filter_3d dp) ->
  is_Some (arrays (fuse_and_apply cp dp st).2 !! filter_3d cp) /\
  is_Some (arrays (fuse_and_apply cp dp st).2 !! filter_3d dp) /\
  forall l, ma_mask (convol (iris_data (fuse_and_apply cp dp st).2)) = Some l \/
            ma_mask (dopvol (iris_data (fuse_and_apply cp dp st).2)) = Some l ->
            l <> filter_3d cp /\ l <> filter_3d dp.
Proof.
  intros [fc Hfc] [fd Hfd] Hapart.
  destruct (fuse_and_apply_frame cp dp st) as (r & st' & -> & Hf & _). cbn [snd].
  destruct Hf as (_ & _ & Hext & _ & _ & Hmc & Hmd).
  split; [exists fc; by apply Hext|]. split; [exists fd; by apply Hext|].
  intros l [El|El].
  - destruct Hmc as [Hmc|(l' & El' & Hl')].
    + apply Hapart. left. congruence.
    + assert (l' = l) by congruence. subst l'. split; congruence.
  - destruct Hmd as [Hmd|(l' & El' & Hl')].
    + apply Hapart. right. congruence.
    + assert (l' = l) by congruence. subst l'. split; congruence.
Qed.

End Fusion.

(** *** Instances on the test data *)

Lemma fusion_keeps_masks_apart_witness :
  let st' := (fuse_and_apply Scenario.convol_filter Scenario.dopvol_filter
                Scenario.run2).2 in
  is_Some (arrays st' !! 1%positive) /\ is_Some (arrays st' !! 2%positive) /\
  forall l, ma_mask (convol (iris_data st')) = Some l \/
            ma_mask (dopvol (iris_data st')) = Some l ->
            l <> 1%positive /\ l <> 2%positive.
Proof.
  cbv zeta.
  apply (fusion_keeps_masks_apart Scenario.convol_filter Scenario.dopvol_filter
           Scenario.run2).
  - eexists. reflexivity.
  - eexists. reflexivity.
  - intros l [[= <-]|[=]]. split; discriminate.
Defined.

End FusionFacts.

(* ===================================================================== *)
(** * A detection that fails part of the way                             *)
(* ===================================================================== *)

Module StopFacts.

Import Py Core Proc.

Section Stops.

Context {V DT : Type}.
Variable linregress : list V -> list (option V) -> res V.
Variable gt : V -> V -> bool.

(** ** A regression that fails *)

(** The preconditions of the detection but for the regression: region
    sizes that divide the grid, a CONVOL volume of the grid with a scan for
    each angle, and two filters, apart from the mask of the volume, that
    hold the arrays [fc] and [fd]. *)
Record staged (st : Run V DT) (cp dp : PrecipFilter)
    (ar gr ne na ng nc nd : nat) (angles : list V) (fc fd : Np.ndarray bool)
  : Prop := mk_staged {
  sg_azim_region : azim_region (precip (config_json (env st))) = Z.of_nat ar;
  sg_gate_region : gate_region (precip (config_json (env st))) = Z.of_nat gr;
  sg_azim_pos : (0 < ar)%nat;
  sg_gate_pos : (0 < gr)%nat;
  sg_azims : azims (grid_info (self st)) = Z.of_nat na;
  sg_gates : gates (grid_info (self st)) = Z.of_nat ng;
  sg_azim_divides : (na mod ar = 0)%nat;
  sg_gate_divides : (ng mod gr = 0)%nat;
  sg_angles : convol_angles (self st) = Some angles;
  sg_scans : (length angles <= ne)%nat;
  sg_volume : ProcSpec.volume_ok (arrays st) (convol (iris_data st)) ne na ng;
  sg_apart : forall l, ma_mask (convol (iris_data st)) = Some l ->
               l <> filter_3d cp /\ l <> filter_3d dp;
  sg_convol_filter : arrays st !! filter_3d cp = Some fc;
  sg_convol_shape : Np.shape fc = [nc; na; ng];
  sg_convol_wf : Np.wf fc;
  sg_dopvol_filter : arrays st !! filter_3d dp = Some fd;
  sg_dopvol_shape : Np.shape fd = [nd; na; ng];
  sg_dopvol_wf : Np.wf fd
}.

(** What the loops do with zone [(x, y)]. *)
Definition zone_body (cp dp : PrecipFilter) (azim_region gate_region : Z)
    (max_slope : V) (x y : Z) : io (Run V DT) unit :=
  slope <~ determine_zone_slope linregress x y ;;
  if gt slope max_slope
  then
    _ <~ mark cp (x * azim_region) ((x + 1) * azim_region)
                 (y * gate_region) ((y + 1) * gate_region) ;;
    mark dp (x * azim_region) ((x + 1) * azim_region)
            (y * gate_region) ((y + 1) * gate_region)
  else io_ret tt.

Lemma for_each_ext {A : Type} (l : list A) (f g : A -> io (Run V DT) unit) s :
  (forall x s, f x s = g x s) -> for_each l f s = for_each l g s.
Proof.
  intros H. revert s. induction l as [|x l IH]; intros s; cbn; [done|].
  unfold io_bind. rewrite H. destruct (g x s) as [[[]|e] s']; [apply IH|done].
Qed.

(** [filter_precip], once its checks have passed, as its two loops. *)
Lemma filter_precip_loops (st : Run V DT) (cp dp : PrecipFilter)
    (ar gr na ng : nat) :
  azim_region (precip (config_json (env st))) = Z.of_nat ar ->
  gate_region (precip (config_json (env st))) = Z.of_nat gr ->
  (0 < ar)%nat -> (0 < gr)%nat ->
  azims (grid_info (self st)) = Z.of_nat na ->
  gates (grid_info (self st)) = Z.of_nat ng ->
  (na mod ar = 0)%nat -> (ng mod gr = 0)%nat ->
  filter_precip linregress gt cp dp st
  = for_each (seq 0 (na / ar)) (fun x =>
      for_each (seq 0 (ng / gr)) (fun y =>
        zone_body cp dp (Z.of_nat ar) (Z.of_nat gr)
          (max_dbz_per_degree (precip (config_json (env st))))
          (Z.of_nat x) (Z.of_nat y)))
      (mk_run (ProcSpec.reload st) (iris_data st) (arrays st) (env st)).
Proof.
  intros Har Hgr Hap Hgp Haz Hga Hda Hdg.
  unfold filter_precip. rewrite ProcSpec.io_bind_get.
  unfold io_bind at 1. cbn [set_self]. fold (ProcSpec.reload st).
  rewrite ProcSpec.io_bind_get. cbv zeta.
  change (self (mk_run (ProcSpec.reload st) (iris_data st) (arrays st) (env st)))
    with (ProcSpec.reload st).
  cbn [ProcSpec.reload config grid_info precip]. rewrite Har, Hgr, Haz, Hga.
  unfold mod_, floordiv.
  rewrite !(proj2 (Z.eqb_neq _ 0)) by lia.
  rewrite <- !Nat2Z.inj_mod, Hda, Hdg.
  unfold io_bind at 1. cbn [io_lift].
  change (Z.of_nat 0 =? 0)%Z with true. cbn [negb].
  unfold io_bind at 1. cbn [io_lift].
  change (Z.of_nat 0 =? 0)%Z with true. cbn [negb].
  unfold io_bind at 1. cbn [io_lift]. unfold io_bind at 1. cbn [io_lift].
  rewrite !ProcSpec.range_nat, ProcSpec.for_each_fmap.
  apply for_each_ext. intros x s. by rewrite ProcSpec.for_each_fmap.
Qed.

(** ** The abscissas of a zone *)

(** The abscissas that the regression is given for a zone of [ar] x [gr]
    cells: each angle, once for every cell of the zone.  They are the same
    for every zone. *)
Definition abscissas (angles : list V) (ar gr : nat) : list V :=
  flat_map (fun a => replicate (ar * gr) a) angles.

(** Whether the regression raises, and what, is decided by the abscissas
    and by the number of ordinates. *)
Definition fails_on_abscissas : Prop :=
  forall (x : list V) (y y' : list (option V)) (e : exn),
    length y = length y' -> linregress x y = Raise e -> linregress x y' = Raise e.

Lemma omap_all_length {A B : Type} (F : A -> option B) (l : list A) :
  (forall p, p ∈ l -> is_Some (F p)) -> length (omap F l) = length l.
Proof.
  induction l as [|p l IH]; intros H; [done|]. cbn.
  destruct (H p) as [b Eb]; [by left|]. rewrite Eb. cbn.
  rewrite IH; [done|]. intros q Hq. apply H. by right.
Qed.

Lemma sample_is_Some (data : Np.ndarray V) (mask : option (Np.ndarray bool))
    ne na ng e i j :
  Np.shape data = [ne; na; ng] -> Np.wf data ->
  (forall mk, mask = Some mk -> Np.shape mk = [ne; na; ng] /\ Np.wf mk) ->
  (e < ne)%nat -> (i < na)%nat -> (j < ng)%nat ->
  is_Some (ProcSpec.sample data mask e i j).
Proof.
  intros Hs Hwf Hm He Hi Hj. unfold ProcSpec.sample.
  destruct (ProcSpec.get3_is_Some data ne na ng e i j) as [v ->]; try done.
  destruct mask as [mk|]; [|done].
  destruct (Hm mk eq_refl) as [Hsk Hwk].
  destruct (ProcSpec.get3_is_Some mk ne na ng e i j) as [b ->]; done.
Qed.

Lemma block_indices_length (a0 a1 g0 g1 : nat) :
  length (ProcSpec.block_indices a0 a1 g0 g1) = ((a1 - a0) * (g1 - g0))%nat.
Proof.
  unfold ProcSpec.block_indices. generalize (a1 - a0)%nat as n. intros n.
  revert a0. induction n as [|n IH]; intros a0; cbn [seq flat_map]; [done|].
  rewrite length_app, IH.
  assert (H : forall k g, length (flat_map (fun j : nat => [(a0, j)]) (seq g k)) = k).
  { induction k as [|k IHk]; intros g; cbn; [done|]. by rewrite IHk. }
  rewrite H. lia.
Qed.

Lemma pooled_abscissas (x0 : nat) (angles : list V) (data : Np.ndarray V)
    (mask : option (Np.ndarray bool)) ne na ng (idx : list (nat * nat)) :
  Np.shape data = [ne; na; ng] -> Np.wf data ->
  (forall mk, mask = Some mk -> Np.shape mk = [ne; na; ng] /\ Np.wf mk) ->
  (x0 + length angles <= ne)%nat ->
  (forall p, p ∈ idx -> (p.1 < na)%nat /\ (p.2 < ng)%nat) ->
  (ProcSpec.pooled_from x0 angles data mask idx).*1
  = flat_map (fun a => replicate (length idx) a) angles.
Proof.
  intros Hs Hwf Hm Hx Hidx. revert x0 Hx.
  induction angles as [|a rest IH]; intros x0 Hx; [done|].
  unfold ProcSpec.pooled_from in *. cbn [length seq zip zip_with flat_map fst snd] in *.
  rewrite fmap_app, ProcSpec.pooled_fst, IH by lia.
  rewrite omap_all_length; [done|].
  intros [i j] Hp. destruct (Hidx _ Hp). cbn [fst snd] in *.
  apply (sample_is_Some data mask ne na ng); (done || lia).
Qed.

Lemma zone_abscissas (st : Run V DT) (angles : list V) ar gr ne na ng x y :
  ProcSpec.volume_ok (arrays st) (convol (iris_data st)) ne na ng ->
  (length angles <= ne)%nat ->
  ((x + 1) * ar <= na)%nat -> ((y + 1) * gr <= ng)%nat ->
  let pairs := ProcSpec.pooled_from 0 angles (ma_data (convol (iris_data st)))
                 (ProcSpec.mask_of (arrays st) (convol (iris_data st)))
                 (ProcSpec.zone_indices ar gr x y) in
  pairs.*1 = abscissas angles ar gr /\
  length pairs.*2 = length (abscissas angles ar gr).
Proof.
  intros (Hs & Hwf & Hm) Hlen Hx Hy pairs.
  assert (E : pairs.*1 = abscissas angles ar gr).
  { unfold pairs. rewrite (pooled_abscissas 0 angles _ _ ne na ng); try done.
    - unfold ProcSpec.zone_indices. rewrite block_indices_length. unfold abscissas.
      by replace (((x + 1) * ar - x * ar) * ((y + 1) * gr - y * gr))%nat
        with (ar * gr)%nat by lia.
    - intros mk Emk. unfold ProcSpec.mask_of in Emk.
      destruct (ma_mask (convol (iris_data st))) as [l|] eqn:El; [|done].
      destruct (Hm l eq_refl) as (mk' & E' & ? & ?). by simplify_eq.
    - intros [i j] Hp. apply ProcSpec.block_indices_bounds in Hp. cbn. lia. }
  split; [exact E|]. by rewrite <- E, !length_fmap.
Qed.

(** X22.  A detection that fails has marked nothing.  Under the
    preconditions of the detection but for the regression, and with a
    regression whose failure is decided by the abscissas, as that of
    [scipy.stats.linregress] is: when detection raises, the error is the
    one that the regression raises on the first zone, and no zone has been
    marked.  Every array of the store, the two filters among them, and the
    volumes are as they were; the processor has the configuration of the
    file. *)
Theorem failed_detection_marks_nothing (st : Run V DT) (cp dp : PrecipFilter)
    (ar gr ne na ng nc nd : nat) (angles : list V) (fc fd : Np.ndarray bool)
    (e : exn) (st' : Run V DT) :
  staged st cp dp ar gr ne na ng nc nd angles fc fd ->
  fails_on_abscissas ->
  filter_precip linregress gt cp dp st = (Raise e, st') ->
  arrays st' = arrays st /\
  iris_data st' = iris_data st /\
  self st' = ProcSpec.reload st /\
  env st' = env st /\
  ProcSpec.zone_slope linregress angles (ma_data (convol (iris_data st)))
    (ProcSpec.mask_of (arrays st) (convol (iris_data st))) ar gr 0 0 = Raise e.
Proof.
  intros Hst Hlin E. pose proof Hst as [].
  pose proof E as E0.
  rewrite (filter_precip_loops st cp dp ar gr na ng) in E by done.
  destruct (na / ar)%nat as [|az] eqn:Eaz; [discriminate E|].
  destruct (ng / gr)%nat as [|gz] eqn:Egz.
  { rewrite DetectFacts.for_each_nothing in E; [discriminate E|done]. }
  assert (Hbound : forall x y, (x < na / ar)%nat -> (y < ng / gr)%nat ->
            ((x + 1) * ar <= na)%nat /\ ((y + 1) * gr <= ng)%nat).
  { intros x y Hx Hy. split; by apply ProcSpec.div_zone_bound. }
  destruct (Hbound 0 0)%nat as [Hx0 Hy0]; [lia..|].
  destruct (ProcSpec.zone_slope linregress angles (ma_data (convol (iris_data st)))
              (ProcSpec.mask_of (arrays st) (convol (iris_data st))) ar gr 0 0)
    as [slope0|e0] eqn:E00.
  - exfalso.
    assert (Hp : DetectFacts.prepared linregress st cp dp ar gr ne na ng nc nd angles fc fd).
    { constructor; try done. intros x y Hx Hy.
      destruct (Hbound x y Hx Hy) as [Hxb Hyb].
      destruct (ProcSpec.zone_slope linregress angles (ma_data (convol (iris_data st)))
                  (ProcSpec.mask_of (arrays st) (convol (iris_data st))) ar gr x y)
        as [slope|e'] eqn:Exy; [by exists slope|].
      exfalso. unfold ProcSpec.zone_slope in Exy, E00. cbv zeta in Exy, E00.
      destruct (zone_abscissas st angles ar gr ne na ng x y) as [Hx1 Hx2]; try done.
      destruct (zone_abscissas st angles ar gr ne na ng 0 0) as [H01 H02]; try done.
      cbv zeta in Hx1, Hx2, H01, H02.
      rewrite Hx1 in Exy. rewrite H01 in E00.
      rewrite (Hlin _ _ _ e' (eq_trans Hx2 (eq_sym H02)) Exy) in E00. discriminate E00. }
    destruct (DetectFacts.detection_on_used_filters linregress gt st cp dp
                ar gr ne na ng nc nd angles fc fd Hp) as (s' & ? & ? & E' & _).
    rewrite E' in E0. discriminate E0.
  - cbn [seq for_each] in E. unfold io_bind at 1 in E. unfold io_bind at 1 in E.
    unfold zone_body at 1 in E. unfold io_bind at 1 in E.
    rewrite (ProcSpec.determine_zone_slope_spec linregress _ angles ar gr ne na ng 0 0)
      in E; try done.
    cbn [iris_data arrays] in E. rewrite E00 in E.
    injection E as <- <-. done.
Qed.

End Stops.

(** *** Instances on the test data *)

Lemma run8_level_staged :
  staged Cases.run8_level Scenario.convol_filter Scenario.dopvol_filter
    4 4 3 8 8 3 3 [Scenario.Num 1; Scenario.Num 1; Scenario.Num 1]
    (Np.full [3; 8; 8]%nat false) (Np.full [3; 8; 8]%nat false).
Proof.
  constructor; try reflexivity; try lia.
  - split; [reflexivity|]. split; [reflexivity|]. intros l [=].
  - intros l [=].
Defined.

(** The stand-in for the regression fails on its abscissas. *)
Lemma linregress_fails_on_abscissas : fails_on_abscissas Scenario.linregress.
Proof.
  intros x y y' e Hlen. unfold Scenario.linregress. rewrite Hlen.
  destruct (negb (length x =? length y')%nat); [done|].
  destruct (length x <? 2)%nat; [done|].
  destruct (Scenario.numbers x) as [xs|]; [|done].
  destruct (Scenario.all_equal xs); [done|].
  destruct (Scenario.numbers (Scenario.filled y)); discriminate.
Defined.

Lemma failed_detection_marks_nothing_witness :
  exists msg st',
    filter_precip Scenario.linregress Scenario.gt
      Scenario.convol_filter Scenario.dopvol_filter Cases.run8_level
    = (Raise (ValueError msg), st') /\
    arrays st' = arrays Cases.run8_level /\
    iris_data st' = iris_data Cases.run8_level.
Proof.
  exists "Cannot calculate a linear regression if all x values are identical".
  eexists. split; [vm_compute; reflexivity|].
  destruct (failed_detection_marks_nothing Scenario.linregress Scenario.gt
              Cases.run8_level Scenario.convol_filter Scenario.dopvol_filter
              4 4 3 8 8 3 3 _ _ _
              (ValueError
                 "Cannot calculate a linear regression if all x values are identical")
              _ run8_level_staged linregress_fails_on_abscissas eq_refl)
    as (Ha & Hi & _).
  split; [exact Ha|exact Hi].
Defined.

End StopFacts.
